(** * zerotrust-ai: behavioural baselines, risk, access decisions, policy
      conditions and lateral-movement alerts, embedded in Rocq.

    Conventions of the embedding.
    - A Python [float] is an exact rational ([Q]); [round(x, n)] is rounding
      half to even on the exact value.  NaN, infinities and binary rounding
      error are outside the model; the exceptions of float arithmetic are
      inside it: an [int] too large to convert is an [OverflowError], a zero
      divisor a [ZeroDivisionError].  The module [Binary64] repeats the
      session statistics on IEEE doubles, to measure the rounding error.
    - A NumPy array is the list of its cells or rows; operands whose shapes
      NumPy cannot combine are a [ValueError].
    - A Python [dict] is an association list in insertion order with unique
      keys; [d.get(k)] is [dict_get], [d[k] = v] is [dict_set].
    - Dynamically typed data (event dictionaries, policy contexts and
      condition values) range over [value], the JSON/YAML universe.
    - A Python exception is the [Raised] outcome of a computation; methods
      that mutate [self] are written in a state-and-exception monad.
    - [time.time()] is an explicit argument [now]. *)

From Stdlib Require Import QArith Qround Qabs Qminmax Qfield.
From Stdlib Require Import ZArith String Ascii List Bool Lia Lqa.
From Stdlib Require Import DecimalString.
From Stdlib Require Import Sorted Permutation.
From Stdlib Require Floats Uint63.
Import ListNotations.

#[local] Set Warnings "-register-all".

Local Open Scope string_scope.
Local Open Scope list_scope.
Local Open Scope Q_scope.

(** ** Numbers *)

Module Num.

Definition Qltb (x y : Q) : bool := negb (Qle_bool y x).
Definition Qgtb (x y : Q) : bool := Qltb y x.
Definition Qgeb (x y : Q) : bool := Qle_bool y x.

(** Nearest integer, ties to the even one. *)
Definition round_half_even (x : Q) : Z :=
  let f := Qfloor x in
  match Qcompare (x - inject_Z f) (1 # 2) with
  | Lt => f
  | Gt => (f + 1)%Z
  | Eq => if Z.even f then f else (f + 1)%Z
  end.

(** [round(x, ndigits)] *)
Definition py_round (x : Q) (ndigits : nat) : Q :=
  let s := inject_Z (10 ^ Z.of_nat ndigits) in
  inject_Z (round_half_even (x * s)) / s.

(** [int(x)] on a float: truncation toward zero. *)
Definition trunc (x : Q) : Z :=
  if Qle_bool 0 x then Qfloor x else Qceiling x.

Definition Qsum (l : list Q) : Q := fold_left Qplus l 0.

(** [max(l)] of a non-empty list, [d] on the empty one. *)
Definition Qmaximum (d : Q) (l : list Q) : Q :=
  match l with
  | [] => d
  | x :: r => fold_left Qmax r x
  end.

(** [f"{x:.2f}"] *)
Definition fmt2f (x : Q) : string :=
  let n := round_half_even (x * 100) in
  let a := Z.abs n in
  let frac := NilZero.string_of_uint (N.to_uint (Z.to_N (a mod 100))) in
  let frac2 := if (a mod 100 <? 10)%Z then String.append "0" frac else frac in
  let body :=
    String.append (NilZero.string_of_uint (N.to_uint (Z.to_N (a / 100))))
                  (String.append "." frac2) in
  if (n <? 0)%Z then String.append "-" body else body.

End Num.
Import Num.

(** ** Python values, exceptions and dictionaries *)

Module Py.

Inductive exn : Type :=
| TypeError | ValueError | IndexError | AttributeError | KeyError
| ZeroDivisionError | OverflowError.

Inductive outcome (A : Type) : Type :=
| Returned (a : A)
| Raised (e : exn).
Arguments Returned {A} a.
Arguments Raised {A} e.

Definition obind {A B} (m : outcome A) (k : A -> outcome B) : outcome B :=
  match m with
  | Returned a => k a
  | Raised e => Raised e
  end.

Definition returns {A} (m : outcome A) : bool :=
  match m with Returned _ => true | Raised _ => false end.

(** State and exceptions: the state that an exception leaves behind is kept,
    as a Python object keeps the mutations made before a [raise]. *)
Definition M (S A : Type) : Type := S -> outcome A * S.

Definition ret {S A} (a : A) : M S A := fun s => (Returned a, s).
Definition raise {S A} (e : exn) : M S A := fun s => (Raised e, s).
Definition bind {S A B} (m : M S A) (k : A -> M S B) : M S B :=
  fun s => match m s with
           | (Returned a, s') => k a s'
           | (Raised e, s') => (Raised e, s')
           end.
Definition get {S} : M S S := fun s => (Returned s, s).
Definition put {S} (s : S) : M S unit := fun _ => (Returned tt, s).
Definition modify {S} (f : S -> S) : M S unit := fun s => (Returned tt, f s).
Definition lift {S A} (o : outcome A) : M S A := fun s => (o, s).

Inductive value : Type :=
| VNone
| VBool (b : bool)
| VInt (z : Z)
| VFloat (q : Q)
| VStr (s : string)
| VList (l : list value)
| VDict (d : list (string * value)).

(** Dictionaries with keys compared by [eqb]. *)
Section Dict.
Context {K V : Type} (eqb : K -> K -> bool).

Fixpoint dict_get (d : list (K * V)) (k : K) : option V :=
  match d with
  | [] => None
  | (k', v) :: r => if eqb k' k then Some v else dict_get r k
  end.

Fixpoint dict_set (d : list (K * V)) (k : K) (v : V) : list (K * V) :=
  match d with
  | [] => [(k, v)]
  | (k', v') :: r =>
      if eqb k' k then (k', v) :: r else (k', v') :: dict_set r k v
  end.

Definition dict_get_default (d : list (K * V)) (k : K) (dflt : V) : V :=
  match dict_get d k with Some v => v | None => dflt end.

Definition dict_mem (d : list (K * V)) (k : K) : bool :=
  match dict_get d k with Some _ => true | None => false end.

Definition dict_values (d : list (K * V)) : list V := map snd d.
Definition dict_keys (d : list (K * V)) : list K := map fst d.
End Dict.

Definition sget {V} := @dict_get string V String.eqb.
Definition sset {V} := @dict_set string V String.eqb.

(** [event.get(k)]: an absent key reads as [None]. *)
Definition vget (d : list (string * value)) (k : string) : value :=
  dict_get_default String.eqb d k VNone.

Definition bool_q (b : bool) : Q := if b then 1 else 0.

(** The numeric tower: [bool], [int] and [float] mix in arithmetic. *)
Definition as_number (v : value) : option Q :=
  match v with
  | VBool b => Some (bool_q b)
  | VInt z => Some (inject_Z z)
  | VFloat q => Some q
  | _ => None
  end.

Definition is_none (v : value) : bool :=
  match v with VNone => true | _ => false end.

(** [bool(v)] *)
Definition truthy (v : value) : bool :=
  match v with
  | VNone => false
  | VBool b => b
  | VInt z => negb (z =? 0)%Z
  | VFloat q => negb (Qeq_bool q 0)
  | VStr s => negb (String.eqb s "")
  | VList l => match l with [] => false | _ => true end
  | VDict d => match d with [] => false | _ => true end
  end.

(** Lists and dictionaries cannot be dictionary keys. *)
Definition hashable (v : value) : bool :=
  match v with VList _ | VDict _ => false | _ => true end.

(** [a == b] *)
Fixpoint py_eq (a b : value) {struct a} : bool :=
  match a with
  | VNone => is_none b
  | VBool x =>
      match as_number b with Some q => Qeq_bool (bool_q x) q | None => false end
  | VInt z =>
      match as_number b with Some q => Qeq_bool (inject_Z z) q | None => false end
  | VFloat x =>
      match as_number b with Some q => Qeq_bool x q | None => false end
  | VStr s => match b with VStr t => String.eqb s t | _ => false end
  | VList l =>
      match b with
      | VList m =>
          (fix go (l m : list value) : bool :=
             match l, m with
             | [], [] => true
             | x :: l', y :: m' => py_eq x y && go l' m'
             | _, _ => false
             end) l m
      | _ => false
      end
  | VDict d =>
      match b with
      | VDict e =>
          Nat.eqb (length d) (length e) &&
          (fix go (d : list (string * value)) : bool :=
             match d with
             | [] => true
             | (k, v) :: d' =>
                 match sget e k with
                 | Some w => py_eq v w
                 | None => false
                 end && go d'
             end) d
      | _ => false
      end
  end.

(** Three-way comparison behind [<], [<=], [>], [>=]; [None] is the
    [TypeError] of operands that are not ordered with each other. *)
Fixpoint py_cmp (a b : value) {struct a} : option comparison :=
  match a with
  | VBool _ | VInt _ | VFloat _ =>
      match as_number a, as_number b with
      | Some x, Some y => Some (Qcompare x y)
      | _, _ => None
      end
  | VStr s => match b with VStr t => Some (String.compare s t) | _ => None end
  | VList l =>
      match b with
      | VList m =>
          (fix go (l m : list value) : option comparison :=
             match l, m with
             | [], [] => Some Eq
             | [], _ :: _ => Some Lt
             | _ :: _, [] => Some Gt
             | x :: l', y :: m' =>
                 if py_eq x y then go l' m' else py_cmp x y
             end) l m
      | _ => None
      end
  | VNone | VDict _ => None
  end.

Definition cmp_op (f : comparison -> bool) (a b : value) : outcome bool :=
  match py_cmp a b with
  | Some c => Returned (f c)
  | None => Raised TypeError
  end.

Definition py_lt := cmp_op (fun c => match c with Lt => true | _ => false end).
Definition py_le := cmp_op (fun c => match c with Gt => false | _ => true end).
Definition py_gt := cmp_op (fun c => match c with Gt => true | _ => false end).
Definition py_ge := cmp_op (fun c => match c with Lt => false | _ => true end).

(** [t in s] on strings *)
Fixpoint substring_of (t s : string) : bool :=
  String.prefix t s ||
  match s with
  | EmptyString => false
  | String _ s' => substring_of t s'
  end.

(** [a in v] *)
Definition py_in (a v : value) : outcome bool :=
  match v with
  | VList l => Returned (existsb (py_eq a) l)
  | VStr s =>
      match a with
      | VStr t => Returned (substring_of t s)
      | _ => Raised TypeError
      end
  | VDict d =>
      match a with
      | VStr k => Returned (dict_mem String.eqb d k)
      | VList _ | VDict _ => Raised TypeError
      | _ => Returned false
      end
  | VNone | VBool _ | VInt _ | VFloat _ => Raised TypeError
  end.

(** The first magnitude at which an [int] no longer converts to a
    [float]: the conversion rounds to the nearest double, and from
    2^1024 - 2^970 on that would be 2^1024. *)
Definition float_limit : Z := (2 ^ 1024 - 2 ^ 970)%Z.

Definition fits_float (z : Z) : bool := (Z.abs z <? float_limit)%Z.

(** The conversion of an operand that meets a [float] in arithmetic: an
    [int] too large for a double is an [OverflowError]. *)
Definition to_float (v : value) : outcome Q :=
  match v with
  | VBool b => Returned (bool_q b)
  | VInt z => if fits_float z then Returned (inject_Z z)
              else Raised OverflowError
  | VFloat q => Returned q
  | _ => Raised TypeError
  end.

(** [a - b]: two operands without a [float] are subtracted as they are,
    otherwise the other operand is converted first. *)
Definition py_sub (a b : value) : outcome Q :=
  match a, b with
  | VFloat x, _ => obind (to_float b) (fun y => Returned (x - y))
  | _, VFloat y => obind (to_float a) (fun x => Returned (x - y))
  | _, _ =>
      match as_number a, as_number b with
      | Some x, Some y => Returned (x - y)
      | _, _ => Raised TypeError
      end
  end.

(** [x / n] for a [float] [x] and an [int] [n]: the [int] is converted,
    then a zero divisor is a [ZeroDivisionError]. *)
Definition float_div_int (x : Q) (n : Z) : outcome Q :=
  if negb (fits_float n) then Raised OverflowError
  else if (n =? 0)%Z then Raised ZeroDivisionError
  else Returned (x / inject_Z n).

(** [a / b] for two [int]s: the quotient is rounded to the nearest
    double, and one too large for a double is an [OverflowError]. *)
Definition int_truediv (a b : Z) : outcome Q :=
  if (b =? 0)%Z then Raised ZeroDivisionError
  else
    let q := inject_Z a / inject_Z b in
    if Qle_bool (inject_Z float_limit) (Qabs q) then Raised OverflowError
    else Returned q.

(** [x / y] for two [float]s. *)
Definition float_div (x y : Q) : outcome Q :=
  if Qeq_bool y 0 then Raised ZeroDivisionError else Returned (x / y).

End Py.
Import Py.

Declare Scope py_scope.
Delimit Scope py_scope with py.
Notation "x <- m ;; k" := (bind m (fun x => k))
  (at level 61, m at next level, right associativity) : py_scope.
Notation "m ;;; k" := (bind m (fun _ => k))
  (at level 61, right associativity) : py_scope.


Local Open Scope py_scope.

(** ** access/context.py *)

Module Context.

Record DeviceHealth : Type := {
  device_id : string;
  os_patched : bool;
  antivirus_active : bool;
  disk_encrypted : bool;
  firewall_enabled : bool;
  compliance_score : Q;
  last_check : Q
}.

Definition default_device (now : Q) : DeviceHealth :=
  {| device_id := ""; os_patched := true; antivirus_active := true;
     disk_encrypted := true; firewall_enabled := true;
     compliance_score := 1.0; last_check := now |}.

Definition health_score (d : DeviceHealth) : Q :=
  let checks :=
    [os_patched d; antivirus_active d; disk_encrypted d; firewall_enabled d] in
  let binary_score :=
    Qsum (map bool_q checks) / inject_Z (Z.of_nat (length checks)) in
  py_round (binary_score * 0.6 + compliance_score d * 0.4) 4.

Record AccessContext : Type := {
  entity_id : string;
  resource : string;
  action : string;
  source_ip : string;
  location : string;
  hour : Z;
  day_of_week : Z;
  device : DeviceHealth;
  behavior_score : Q;
  risk_score : Q;
  session_id : string;
  authentication_method : string;
  mfa_verified : bool;
  network_zone : string;
  timestamp : Q;
  metadata : list (string * value)
}.

Definition auth_table : list (string * Q) :=
  [("certificate", 0.9); ("hardware_token", 0.85); ("biometric", 0.8);
   ("totp", 0.7); ("password", 0.4); ("api_key", 0.5);
   ("session_cookie", 0.3)].

Definition auth_strength (c : AccessContext) : Q :=
  let base :=
    dict_get_default String.eqb auth_table (authentication_method c) 0.3 in
  if mfa_verified c then Qmin 1.0 (base + 0.2) else base.

Definition zone_table : list (string * Q) :=
  [("internal", 0.7); ("vpn", 0.6); ("dmz", 0.4); ("external", 0.2)].

Definition network_trust (c : AccessContext) : Q :=
  dict_get_default String.eqb zone_table (network_zone c) 0.1.

Definition to_dict (c : AccessContext) : list (string * value) :=
  [("entity_id", VStr (entity_id c));
   ("resource", VStr (resource c));
   ("action", VStr (action c));
   ("source_ip", VStr (source_ip c));
   ("location", VStr (location c));
   ("device_health", VFloat (health_score (device c)));
   ("behavior_score", VFloat (behavior_score c));
   ("risk_score", VFloat (risk_score c));
   ("auth_strength", VFloat (auth_strength c));
   ("network_trust", VFloat (network_trust c));
   ("mfa_verified", VBool (mfa_verified c))].

End Context.

(** ** access/engine.py *)

Module Engine.
Import Context.

Inductive Decision : Type := ALLOW | DENY | CHALLENGE | RESTRICT.

(** The enum's string value, which is also how a [Decision] compares. *)
Definition Decision_value (d : Decision) : string :=
  match d with
  | ALLOW => "allow"
  | DENY => "deny"
  | CHALLENGE => "challenge"
  | RESTRICT => "restrict"
  end.

Record AccessDecision : Type := {
  decision : Decision;
  confidence : Q;
  risk_level : Q;
  reasons : list string;
  required_actions : list string;
  context_summary : list (string * value);
  decided_at : Q
}.

Record AccessDecisionEngine : Type := {
  deny_threshold : Q;
  challenge_threshold : Q;
  restrict_threshold : Q;
  decision_log : list AccessDecision;
  resource_sensitivity : list (string * Q)
}.

(** [AccessDecisionEngine()] *)
Definition new_engine : AccessDecisionEngine :=
  {| deny_threshold := 0.3; challenge_threshold := 0.5;
     restrict_threshold := 0.7; decision_log := [];
     resource_sensitivity := [] |}.

Definition set_resource_sensitivity (resource : string) (level : Q)
  : M AccessDecisionEngine unit :=
  modify (fun e =>
    {| deny_threshold := deny_threshold e;
       challenge_threshold := challenge_threshold e;
       restrict_threshold := restrict_threshold e;
       decision_log := decision_log e;
       resource_sensitivity :=
         dict_set String.eqb (resource_sensitivity e) resource
                  (Qmax 0.0 (Qmin 1.0 level)) |}).

Definition trust_weights : list (string * Q) :=
  [("auth", 0.20); ("device", 0.20); ("behavior", 0.25); ("network", 0.15);
   ("risk", 0.20)].

Definition _calculate_trust_score (ctx : AccessContext) : Q :=
  let scores :=
    [("auth", auth_strength ctx);
     ("device", health_score (device ctx));
     ("behavior", Qmax 0.0 (1.0 - behavior_score ctx));
     ("network", network_trust ctx);
     ("risk", Qmax 0.0 (1.0 - risk_score ctx))] in
  let trust :=
    Qsum (map (fun kw =>
                 dict_get_default String.eqb scores (fst kw) 0 * snd kw)
              trust_weights) in
  py_round (Qmax 0.0 (Qmin 1.0 trust)) 4.

Definition opt_item (b : bool) (s : string) : list string :=
  if b then [s] else [].

Definition one_of (x : string) (l : list string) : bool :=
  existsb (String.eqb x) l.

Definition evaluate (now : Q) (context : AccessContext)
  : M AccessDecisionEngine AccessDecision :=
  self <- get ;;
  let trust_score := _calculate_trust_score context in
  let sensitivity :=
    dict_get_default String.eqb (resource_sensitivity self)
                     (resource context) 0.5 in
  let effective_deny := deny_threshold self * (1 + sensitivity * 0.5) in
  let effective_challenge :=
    challenge_threshold self * (1 + sensitivity * 0.3) in
  let effective_restrict :=
    restrict_threshold self * (1 + sensitivity * 0.2) in
  let '(decision, reasons, required_actions) :=
    if Qltb trust_score effective_deny then
      (DENY,
       [String.append "Trust score "
          (String.append (fmt2f trust_score)
             (String.append " below deny threshold " (fmt2f effective_deny)))]
       ++ opt_item (Qgtb (behavior_score context) 0.7)
                   "High behavioral anomaly score"
       ++ opt_item (Qltb (health_score (device context)) 0.5)
                   "Device health below minimum",
       [])
    else if Qltb trust_score effective_challenge then
      (CHALLENGE,
       [String.append "Trust score "
          (String.append (fmt2f trust_score) " requires step-up auth")],
       opt_item (negb (mfa_verified context)) "mfa_verification"
       ++ opt_item (Qltb (health_score (device context)) 0.7)
                   "device_compliance_check")
    else if Qltb trust_score effective_restrict then
      (RESTRICT,
       [String.append "Trust score "
          (String.append (fmt2f trust_score) " allows restricted access")],
       opt_item (one_of (action context) ["write"; "delete"; "admin"])
                "reduce_to_read_only")
    else
      (ALLOW,
       [String.append "Trust score "
          (String.append (fmt2f trust_score) " meets threshold")],
       []) in
  let result :=
    {| decision := decision;
       confidence := Qmin 1.0 (Qabs (trust_score - 0.5) * 2);
       risk_level := py_round (1.0 - trust_score) 4;
       reasons := reasons;
       required_actions := required_actions;
       context_summary := to_dict context;
       decided_at := now |} in
  put {| deny_threshold := deny_threshold self;
         challenge_threshold := challenge_threshold self;
         restrict_threshold := restrict_threshold self;
         decision_log := decision_log self ++ [result];
         resource_sensitivity := resource_sensitivity self |} ;;;
  ret result.

End Engine.

(** ** access/verification.py *)

Module Verification.
Import Context Engine.

Record VerificationState : Type := {
  vs_entity_id : string;
  vs_session_id : string;
  initial_decision : Decision;
  current_decision : Decision;
  last_verified : Q;
  verification_count : Z;
  escalation_count : Z;
  trust_history : list Q
}.

Record ContinuousVerifier : Type := {
  engine : AccessDecisionEngine;
  reverify_interval : Q;
  trust_decay_rate : Q;
  states : list (string * VerificationState)
}.

(** [ContinuousVerifier()] *)
Definition new_verifier : ContinuousVerifier :=
  {| engine := new_engine; reverify_interval := 300.0;
     trust_decay_rate := 0.01; states := [] |}.

Definition session_key (context : AccessContext) : string :=
  String.append (entity_id context) (String.append ":" (session_id context)).

(** Run a method of [self.engine]. *)
Definition on_engine {A} (m : M AccessDecisionEngine A)
  : M ContinuousVerifier A :=
  fun v =>
    let '(r, e) := m (engine v) in
    (r, {| engine := e; reverify_interval := reverify_interval v;
           trust_decay_rate := trust_decay_rate v; states := states v |}).

(** [self.states[key] = state], and every mutation of a state object that
    the dictionary holds. *)
Definition store_state (key : string) (st : VerificationState)
  : M ContinuousVerifier unit :=
  modify (fun v =>
    {| engine := engine v; reverify_interval := reverify_interval v;
       trust_decay_rate := trust_decay_rate v;
       states := dict_set String.eqb (states v) key st |}).

(** [l[-n:]] *)
Definition last_n {A} (n : nat) (l : list A) : list A :=
  skipn (length l - n) l.

Definition _trust_trend (state : VerificationState) : string :=
  let history := trust_history state in
  if (length history <? 2)%nat then "stable"
  else
    let recent := last_n 3 history in
    if (2 <=? length recent)%nat then
      let delta := last recent 0 - hd 0 recent in
      if Qltb delta (-0.1) then "degrading"
      else if Qgtb delta 0.1 then "improving"
      else "stable"
    else "stable".

Definition initialize_session (now : Q) (context : AccessContext)
  : M ContinuousVerifier (list (string * value)) :=
  decision <- on_engine (evaluate now context) ;;
  self <- get ;;
  let state :=
    {| vs_entity_id := entity_id context;
       vs_session_id := session_id context;
       initial_decision := Engine.decision decision;
       current_decision := Engine.decision decision;
       last_verified := now;
       verification_count := 0;
       escalation_count := 0;
       trust_history := [1.0 - risk_level decision] |} in
  store_state (session_key context) state ;;;
  ret [("session_id", VStr (session_id context));
       ("initial_decision", VStr (Decision_value (Engine.decision decision)));
       ("risk_level", VFloat (risk_level decision));
       ("next_verification", VFloat (now + reverify_interval self))].

(** [evaluate] cannot raise, so the assignments to the fields of the state
    object, which the source spreads over the method, are written as one
    record at the end. *)
Definition reverify (now : Q) (context : AccessContext)
  : M ContinuousVerifier (list (string * value)) :=
  let key := session_key context in
  self <- get ;;
  match dict_get String.eqb (states self) key with
  | None => initialize_session now context
  | Some state =>
      let verification_count' := (verification_count state + 1)%Z in
      decision <- on_engine (evaluate now context) ;;
      let new_trust := 1.0 - risk_level decision in
      let trust_history' := trust_history state ++ [new_trust] in
      let escalated :=
        String.ltb (Decision_value (Engine.decision decision))
                   (Decision_value (current_decision state)) in
      let escalation_count' :=
        if escalated then (escalation_count state + 1)%Z
        else escalation_count state in
      let prev_decision := current_decision state in
      let state' :=
        {| vs_entity_id := vs_entity_id state;
           vs_session_id := vs_session_id state;
           initial_decision := initial_decision state;
           current_decision := Engine.decision decision;
           last_verified := now;
           verification_count := verification_count';
           escalation_count := escalation_count';
           trust_history := trust_history' |} in
      store_state key state' ;;;
      ret [("session_id", VStr (session_id context));
           ("previous_decision", VStr (Decision_value prev_decision));
           ("current_decision",
            VStr (Decision_value (Engine.decision decision)));
           ("risk_level", VFloat (risk_level decision));
           ("trust_trend", VStr (_trust_trend state'));
           ("escalated", VBool escalated);
           ("verification_count", VInt verification_count')]
  end.

(** The spec's order of strictness: ALLOW < RESTRICT < CHALLENGE < DENY. *)
Definition strictness (d : Decision) : Z :=
  match d with
  | ALLOW => 0
  | RESTRICT => 1
  | CHALLENGE => 2
  | DENY => 3
  end.

Definition stricter (new old : Decision) : bool :=
  (strictness old <? strictness new)%Z.

End Verification.

(** ** risk/engine.py *)

Module Risk.

Record RiskScore : Type := {
  rs_entity_id : string;
  composite_score : Q;
  risk_level : string;
  components : list (string * Q);
  rs_timestamp : Q;
  factors : list string
}.

(** The three sets of the threat-intelligence store. *)
Record ThreatIntel : Type := {
  malicious_ips : list string;
  compromised_credentials : list string;
  tor_exit_nodes : list string
}.

Definition mem (x : string) (s : list string) : bool :=
  existsb (String.eqb x) s.

Definition check_ip (t : ThreatIntel) (ip : string) : Q :=
  if mem ip (malicious_ips t) then 1.0
  else if mem ip (tor_exit_nodes t) then 0.7
  else 0.0.

Definition check_credential (t : ThreatIntel) (entity_id : string) : Q :=
  if mem entity_id (compromised_credentials t) then 0.9 else 0.0.

Record RiskEngine : Type := {
  weights : list (string * Q);
  threat_intel : ThreatIntel;
  risk_history : list (string * list RiskScore);
  thresholds : list (string * Q)
}.

(** [RiskEngine()]: default weights, empty threat intelligence. *)
Definition new_risk_engine : RiskEngine :=
  {| weights := [("behavior", 0.30); ("device", 0.20); ("network", 0.15);
                 ("threat", 0.20); ("auth", 0.15)];
     threat_intel := {| malicious_ips := []; compromised_credentials := [];
                        tor_exit_nodes := [] |};
     risk_history := [];
     thresholds := [("low", 0.3); ("medium", 0.5); ("high", 0.7);
                    ("critical", 0.9)] |}.

(** The first label, from the most severe down, whose threshold the
    composite reaches; ["low"] when none is reached.  [self.thresholds[lbl]]
    on a label without a threshold is a [KeyError]. *)
Fixpoint first_level (ths : list (string * Q)) (composite : Q)
  (labels : list string) : outcome string :=
  match labels with
  | [] => Returned "low"
  | lbl :: rest =>
      match dict_get String.eqb ths lbl with
      | None => Raised KeyError
      | Some t =>
          if Qgeb composite t then Returned lbl
          else first_level ths composite rest
      end
  end.

(** [sum(components[k] * self.weights[k] for k in self.weights)]: a weight
    whose key is not a component is a [KeyError]. *)
Fixpoint weighted_sum (components ws : list (string * Q)) (acc : Q)
  : outcome Q :=
  match ws with
  | [] => Returned acc
  | (k, w) :: rest =>
      match dict_get String.eqb components k with
      | None => Raised KeyError
      | Some c => weighted_sum components rest (acc + c * w)
      end
  end.

Definition calculate (now : Q) (entity_id : string)
  (behavior_score device_health network_trust : Q) (source_ip : string)
  (auth_strength : Q) : M RiskEngine RiskScore :=
  self <- get ;;
  let factors0 :=
    if Qgtb behavior_score 0.7 then ["High behavioral anomaly"] else [] in
  let factors1 :=
    factors0 ++ (if Qltb device_health 0.5 then ["Poor device health"] else []) in
  let factors2 :=
    factors1 ++ (if Qltb network_trust 0.3 then ["Untrusted network"] else []) in
  let '(threat1, factors3) :=
    if negb (String.eqb source_ip "") then
      let ip_score := check_ip (threat_intel self) source_ip in
      if Qgtb ip_score 0 then
        (Qmax 0.0 ip_score, factors2 ++ ["Threat intel match on IP"])
      else (0.0, factors2)
    else (0.0, factors2) in
  let cred_score := check_credential (threat_intel self) entity_id in
  let '(threat_score, factors4) :=
    if Qgtb cred_score 0 then
      (Qmax threat1 cred_score, factors3 ++ ["Compromised credential"])
    else (threat1, factors3) in
  let factors5 :=
    factors4 ++ (if Qltb auth_strength 0.4 then ["Weak authentication"] else []) in
  let components :=
    [("behavior", behavior_score);
     ("device", Qmax 0.0 (1.0 - device_health));
     ("network", Qmax 0.0 (1.0 - network_trust));
     ("threat", threat_score);
     ("auth", Qmax 0.0 (1.0 - auth_strength))] in
  composite <- lift (weighted_sum components (weights self) 0) ;;
  let composite := py_round (Qmax 0.0 (Qmin 1.0 composite)) 4 in
  level <- lift (first_level (thresholds self) composite
                             ["critical"; "high"; "medium"; "low"]) ;;
  let result :=
    {| rs_entity_id := entity_id; composite_score := composite;
       risk_level := level; components := components;
       rs_timestamp := now; factors := factors5 |} in
  let history :=
    dict_get_default String.eqb (risk_history self) entity_id [] in
  put {| weights := weights self; threat_intel := threat_intel self;
         risk_history :=
           dict_set String.eqb (risk_history self) entity_id
                    (history ++ [result]);
         thresholds := thresholds self |} ;;;
  ret result.

End Risk.

(** ** policy/models.py *)

Module Policy.

Record PolicyCondition : Type := {
  field : string;
  operator : string;
  value_ : value
}.

(** The table [ops] of [PolicyCondition.evaluate]. *)
Definition ops : list (string * (value -> value -> outcome bool)) :=
  [("eq", fun a v => Returned (py_eq a v));
   ("ne", fun a v => Returned (negb (py_eq a v)));
   ("gt", py_gt);
   ("lt", py_lt);
   ("gte", py_ge);
   ("lte", py_le);
   ("in", py_in);
   ("not_in", fun a v => obind (py_in a v) (fun b => Returned (negb b)))].

Definition evaluate (c : PolicyCondition) (context : list (string * value))
  : outcome bool :=
  let actual := vget context (field c) in
  if is_none actual then Returned false
  else
    match dict_get String.eqb ops (operator c) with
    | None => Returned false
    | Some op_fn =>
        match op_fn actual (value_ c) with
        | Returned b => Returned b
        | Raised TypeError | Raised ValueError => Returned false
        | Raised e => Raised e
        end
    end.

Definition ordering_operator (op : string) : bool :=
  existsb (String.eqb op) ["gt"; "lt"; "gte"; "lte"].

(** What an ordering operator means on two numbers. *)
Definition numeric_order (op : string) (a v : Q) : bool :=
  if String.eqb op "gt" then Qltb v a
  else if String.eqb op "lt" then Qltb a v
  else if String.eqb op "gte" then Qle_bool v a
  else Qle_bool a v.

End Policy.

(** ** Built-ins used by the behavioural modules *)

Module Builtins.

(** What [int(s)] strips around the number. *)
Definition is_space (c : ascii) : bool :=
  let n := nat_of_ascii c in
  ((9 <=? n) && (n <=? 13) || (28 <=? n) && (n <=? 32))%nat.

Definition digit_of (c : ascii) : option Z :=
  let n := nat_of_ascii c in
  if ((48 <=? n) && (n <=? 57))%nat then Some (Z.of_nat (n - 48)) else None.

Fixpoint lstrip (s : string) : string :=
  match s with
  | String c r => if is_space c then lstrip r else s
  | EmptyString => s
  end.

(** Trailing white space is dropped, anything else is kept. *)
Fixpoint rstrip (s : string) : string :=
  match s with
  | EmptyString => EmptyString
  | String c r =>
      match rstrip r with
      | EmptyString => if is_space c then EmptyString else String c EmptyString
      | r' => String c r'
      end
  end.

(** Decimal digits, single underscores allowed between two digits.
    [after_digit] tells whether the previous character was a digit. *)
Fixpoint digits (acc : Z) (after_digit : bool) (s : string) : option Z :=
  match s with
  | EmptyString => if after_digit then Some acc else None
  | String c r =>
      match digit_of c with
      | Some d => digits (acc * 10 + d)%Z true r
      | None =>
          if (Ascii.eqb c "_" && after_digit)%bool then digits acc false r
          else None
      end
  end.

(** [int(s)] on an ASCII string: [None] is [ValueError]. *)
Definition int_of_str (s : string) : option Z :=
  match rstrip (lstrip s) with
  | String "-" r => option_map Z.opp (digits 0 false r)
  | String "+" r => digits 0 false r
  | r => digits 0 false r
  end.

(** [int(v)] *)
Definition py_int (v : value) : outcome Z :=
  match v with
  | VBool b => Returned (if b then 1 else 0)%Z
  | VInt z => Returned z
  | VFloat q => Returned (trunc q)
  | VStr s =>
      match int_of_str s with
      | Some z => Returned z
      | None => Raised ValueError
      end
  | VNone | VList _ | VDict _ => Raised TypeError
  end.

(** [lo <= v < hi], evaluated left to right. *)
Definition between (lo : Z) (v : value) (hi : Z) : outcome bool :=
  obind (py_le (VInt lo) v) (fun b =>
    if b then py_lt v (VInt hi) else Returned false).

(** [a[i]] on an array of length [length a]: negative indices count from
    the end, anything outside raises [IndexError]. *)
Definition array_index {A} (a : list A) (i : Z) : outcome nat :=
  let n := Z.of_nat (length a) in
  if ((0 <=? i) && (i <? n))%Z then Returned (Z.to_nat i)
  else if ((- n <=? i) && (i <? 0))%Z then Returned (Z.to_nat (n + i))
  else Raised IndexError.

(** [a[i] += d] at a position inside the array. *)
Fixpoint array_add (a : list Q) (i : nat) (d : Q) : list Q :=
  match a, i with
  | [], _ => []
  | x :: r, O => (x + d) :: r
  | x :: r, S i' => x :: array_add r i' d
  end.

(** [np.argmax]: the first position of the largest element. *)
Fixpoint argmax_from (best : Q) (best_i i : nat) (l : list Q) : nat :=
  match l with
  | [] => best_i
  | x :: r =>
      if Qltb best x then argmax_from x i (S i) r
      else argmax_from best best_i (S i) r
  end.

Definition argmax (l : list Q) : nat :=
  match l with
  | [] => O
  | x :: r => argmax_from x O 1%nat r
  end.

(** A counting dictionary keyed by hashable values. *)
Definition counter := list (value * Z).

(** [d.get(k, 0)] *)
Definition count_get (d : counter) (k : value) : outcome Z :=
  if hashable k then Returned (dict_get_default py_eq d k 0%Z)
  else Raised TypeError.

(** [d[k] = d.get(k, 0) + 1] *)
Definition count_incr (d : counter) (k : value) : outcome counter :=
  obind (count_get d k) (fun c => Returned (dict_set py_eq d k (c + 1)%Z)).

Definition Zsum (l : list Z) : Z := fold_left Z.add l 0%Z.

(** [max(l)]: [ValueError] on an empty sequence. *)
Definition Zmaximum (l : list Z) : outcome Z :=
  match l with
  | [] => Raised ValueError
  | x :: r => Returned (fold_left Z.max r x)
  end.

End Builtins.

(** ** behavioral/baseline.py *)

Module Baseline.
Import Builtins.

Record BaselineProfile : Type := {
  entity_id : string;
  entity_type : value;
  created_at : Q;
  updated_at : Q;
  observation_count : Z;
  hour_distribution : list Q;
  dow_distribution : list Q;
  resource_frequencies : counter;
  action_frequencies : counter;
  session_duration_mean : Q;
  session_duration_m2 : Q;
  session_count : Z;
  locations_seen : counter;
  source_ips : counter;
  feature_stats : list (string * (Q * Q * Z))
}.

(** [BaselineProfile(entity_id=..., entity_type=...)] *)
Definition new_profile (now : Q) (entity_id : string) (entity_type : value)
  : BaselineProfile :=
  {| entity_id := entity_id; entity_type := entity_type;
     created_at := now; updated_at := now; observation_count := 0;
     hour_distribution := repeat 0.0 24; dow_distribution := repeat 0.0 7;
     resource_frequencies := []; action_frequencies := [];
     session_duration_mean := 0.0; session_duration_m2 := 0.0;
     session_count := 0; locations_seen := []; source_ips := [];
     feature_stats := [] |}.

Definition session_duration_variance (p : BaselineProfile) : outcome Q :=
  if (session_count p <? 2)%Z then Returned 0.0
  else float_div_int (session_duration_m2 p) (session_count p - 1).

Definition hour_probabilities (p : BaselineProfile) : list Q :=
  let total := Qsum (hour_distribution p) in
  if Qeq_bool total 0 then repeat (1 / 24.0) 24
  else map (fun x => x / total) (hour_distribution p).

Definition dow_probabilities (p : BaselineProfile) : list Q :=
  let total := Qsum (dow_distribution p) in
  if Qeq_bool total 0 then repeat (1 / 7.0) 7
  else map (fun x => x / total) (dow_distribution p).

(** Field assignments on a profile. *)
Definition observed (now : Q) (p : BaselineProfile) : BaselineProfile :=
  {| entity_id := entity_id p; entity_type := entity_type p;
     created_at := created_at p; updated_at := now;
     observation_count := observation_count p + 1;
     hour_distribution := hour_distribution p;
     dow_distribution := dow_distribution p;
     resource_frequencies := resource_frequencies p;
     action_frequencies := action_frequencies p;
     session_duration_mean := session_duration_mean p;
     session_duration_m2 := session_duration_m2 p;
     session_count := session_count p;
     locations_seen := locations_seen p; source_ips := source_ips p;
     feature_stats := feature_stats p |}.

Definition set_distributions (h d : list Q) (p : BaselineProfile)
  : BaselineProfile :=
  {| entity_id := entity_id p; entity_type := entity_type p;
     created_at := created_at p; updated_at := updated_at p;
     observation_count := observation_count p;
     hour_distribution := h; dow_distribution := d;
     resource_frequencies := resource_frequencies p;
     action_frequencies := action_frequencies p;
     session_duration_mean := session_duration_mean p;
     session_duration_m2 := session_duration_m2 p;
     session_count := session_count p;
     locations_seen := locations_seen p; source_ips := source_ips p;
     feature_stats := feature_stats p |}.

Definition set_counters (res act loc ips : counter) (p : BaselineProfile)
  : BaselineProfile :=
  {| entity_id := entity_id p; entity_type := entity_type p;
     created_at := created_at p; updated_at := updated_at p;
     observation_count := observation_count p;
     hour_distribution := hour_distribution p;
     dow_distribution := dow_distribution p;
     resource_frequencies := res; action_frequencies := act;
     session_duration_mean := session_duration_mean p;
     session_duration_m2 := session_duration_m2 p;
     session_count := session_count p;
     locations_seen := loc; source_ips := ips;
     feature_stats := feature_stats p |}.

Definition set_session (mean m2 : Q) (count : Z) (p : BaselineProfile)
  : BaselineProfile :=
  {| entity_id := entity_id p; entity_type := entity_type p;
     created_at := created_at p; updated_at := updated_at p;
     observation_count := observation_count p;
     hour_distribution := hour_distribution p;
     dow_distribution := dow_distribution p;
     resource_frequencies := resource_frequencies p;
     action_frequencies := action_frequencies p;
     session_duration_mean := mean; session_duration_m2 := m2;
     session_count := count;
     locations_seen := locations_seen p; source_ips := source_ips p;
     feature_stats := feature_stats p |}.

Definition set_feature_stats (fs : list (string * (Q * Q * Z)))
  (p : BaselineProfile) : BaselineProfile :=
  {| entity_id := entity_id p; entity_type := entity_type p;
     created_at := created_at p; updated_at := updated_at p;
     observation_count := observation_count p;
     hour_distribution := hour_distribution p;
     dow_distribution := dow_distribution p;
     resource_frequencies := resource_frequencies p;
     action_frequencies := action_frequencies p;
     session_duration_mean := session_duration_mean p;
     session_duration_m2 := session_duration_m2 p;
     session_count := session_count p;
     locations_seen := locations_seen p; source_ips := source_ips p;
     feature_stats := fs |}.

Record BehavioralBaseline : Type := {
  profiles : list (string * BaselineProfile);
  decay_factor : Q
}.

(** [BehavioralBaseline()] *)
Definition new_baseline : BehavioralBaseline :=
  {| profiles := []; decay_factor := 0.995 |}.

Definition get_profile (b : BehavioralBaseline) (entity_id : string)
  : option BaselineProfile :=
  dict_get String.eqb (profiles b) entity_id.

Definition get_or_create_profile (now : Q) (entity_id : string)
  (entity_type : value) : M BehavioralBaseline unit :=
  modify (fun b =>
    if dict_mem String.eqb (profiles b) entity_id then b
    else {| profiles :=
              dict_set String.eqb (profiles b) entity_id
                       (new_profile now entity_id entity_type);
            decay_factor := decay_factor b |}).

(** The profile object of [entity_id], shared with [self.profiles]. *)
Definition profile_of (entity_id : string)
  : M BehavioralBaseline BaselineProfile :=
  fun b =>
    match get_profile b entity_id with
    | Some p => (Returned p, b)
    | None => (Raised KeyError, b)
    end.

(** A mutation of that object. *)
Definition mutate (entity_id : string)
  (f : BaselineProfile -> outcome BaselineProfile)
  : M BehavioralBaseline unit :=
  p <- profile_of entity_id ;;
  p' <- lift (f p) ;;
  modify (fun b =>
    {| profiles := dict_set String.eqb (profiles b) entity_id p';
       decay_factor := decay_factor b |}).

Definition when {S} (b : bool) (m : M S unit) : M S unit :=
  if b then m else ret tt.

(** One Welford step on a feature's [(mean, m2, count)]. *)
Definition welford (mean m2 : Q) (count : Z) (x : value)
  : outcome (Q * Q * Z) :=
  let count := (count + 1)%Z in
  obind (py_sub x (VFloat mean)) (fun delta =>
  obind (float_div_int delta count) (fun step =>
  let mean := mean + step in
  obind (py_sub x (VFloat mean)) (fun delta2 =>
  Returned (mean, m2 + delta * delta2, count)))).

(** [profile.session_count += 1] *)
Definition count_session (p : BaselineProfile) : BaselineProfile :=
  set_session (session_duration_mean p) (session_duration_m2 p)
              (session_count p + 1) p.

(** The update of [session_duration_mean] and [session_duration_m2] that
    follows it. *)
Definition observe_duration (duration : value) (p : BaselineProfile)
  : outcome BaselineProfile :=
  obind (py_sub duration (VFloat (session_duration_mean p))) (fun delta =>
  obind (float_div_int delta (session_count p)) (fun step =>
  let mean := session_duration_mean p + step in
  obind (py_sub duration (VFloat mean)) (fun delta2 =>
  Returned (set_session mean (session_duration_m2 p + delta * delta2)
                        (session_count p) p)))).

(** [if feat_name not in profile.feature_stats: ... = (0.0, 0.0, 0)] *)
Definition init_feature (feat_name : string) (p : BaselineProfile)
  : BaselineProfile :=
  if dict_mem String.eqb (feature_stats p) feat_name then p
  else set_feature_stats
         (dict_set String.eqb (feature_stats p) feat_name (0.0, 0.0, 0%Z)) p.

Definition observe_feature (feat_name : string) (feat_val : value)
  (p : BaselineProfile) : outcome BaselineProfile :=
  let '(mean, m2, count) :=
    dict_get_default String.eqb (feature_stats p) feat_name (0.0, 0.0, 0%Z) in
  obind (welford mean m2 count feat_val) (fun st =>
  Returned
    (set_feature_stats (dict_set String.eqb (feature_stats p) feat_name st)
                       p)).

Fixpoint observe_features (entity_id : string)
  (items : list (string * value)) : M BehavioralBaseline unit :=
  match items with
  | [] => ret tt
  | (feat_name, feat_val) :: rest =>
      mutate entity_id (fun p => Returned (init_feature feat_name p)) ;;;
      mutate entity_id (observe_feature feat_name feat_val) ;;;
      observe_features entity_id rest
  end.

(** The steps of [observe], in source order. *)

Definition observe_count (now : Q) (entity_id : string)
  : M BehavioralBaseline unit :=
  mutate entity_id (fun p => Returned (observed now p)).

Definition bump_hour (hour : value) (p : BaselineProfile)
  : outcome BaselineProfile :=
  obind (py_int hour) (fun h =>
  obind (array_index (hour_distribution p) h) (fun i =>
  Returned (set_distributions (array_add (hour_distribution p) i 1)
                              (dow_distribution p) p))).

Definition observe_hour (entity_id : string) (hour : value)
  : M BehavioralBaseline unit :=
  when (negb (is_none hour))
    (ok <- lift (between 0 hour 24) ;;
     when ok (mutate entity_id (bump_hour hour))).

Definition bump_dow (dow : value) (p : BaselineProfile)
  : outcome BaselineProfile :=
  obind (py_int dow) (fun d =>
  obind (array_index (dow_distribution p) d) (fun i =>
  Returned (set_distributions (hour_distribution p)
                              (array_add (dow_distribution p) i 1) p))).

Definition observe_dow (entity_id : string) (dow : value)
  : M BehavioralBaseline unit :=
  when (negb (is_none dow))
    (ok <- lift (between 0 dow 7) ;;
     when ok (mutate entity_id (bump_dow dow))).

Definition observe_resource (entity_id : string) (resource : value)
  : M BehavioralBaseline unit :=
  when (truthy resource)
    (mutate entity_id (fun p =>
       obind (count_incr (resource_frequencies p) resource) (fun c =>
       Returned (set_counters c (action_frequencies p) (locations_seen p)
                              (source_ips p) p)))).

Definition observe_action (entity_id : string) (action : value)
  : M BehavioralBaseline unit :=
  when (truthy action)
    (mutate entity_id (fun p =>
       obind (count_incr (action_frequencies p) action) (fun c =>
       Returned (set_counters (resource_frequencies p) c (locations_seen p)
                              (source_ips p) p)))).

Definition observe_session (entity_id : string) (duration : value)
  : M BehavioralBaseline unit :=
  when (negb (is_none duration))
    (mutate entity_id (fun p => Returned (count_session p)) ;;;
     mutate entity_id (observe_duration duration)).

Definition observe_location (entity_id : string) (location : value)
  : M BehavioralBaseline unit :=
  when (truthy location)
    (mutate entity_id (fun p =>
       obind (count_incr (locations_seen p) location) (fun c =>
       Returned (set_counters (resource_frequencies p) (action_frequencies p)
                              c (source_ips p) p)))).

Definition observe_source_ip (entity_id : string) (source_ip : value)
  : M BehavioralBaseline unit :=
  when (truthy source_ip)
    (mutate entity_id (fun p =>
       obind (count_incr (source_ips p) source_ip) (fun c =>
       Returned (set_counters (resource_frequencies p) (action_frequencies p)
                              (locations_seen p) c p)))).

(** [for feat_name, feat_val in features.items(): ...] *)
Definition observe_all_features (entity_id : string) (features : value)
  : M BehavioralBaseline unit :=
  match features with
  | VDict items => observe_features entity_id items
  | _ => raise AttributeError
  end.

Definition observe (now : Q) (entity_id : string)
  (event : list (string * value)) : M BehavioralBaseline BaselineProfile :=
  let entity_type :=
    dict_get_default String.eqb event "entity_type" (VStr "user") in
  get_or_create_profile now entity_id entity_type ;;;
  observe_count now entity_id ;;;
  observe_hour entity_id (vget event "hour") ;;;
  observe_dow entity_id (vget event "day_of_week") ;;;
  observe_resource entity_id (vget event "resource") ;;;
  observe_action entity_id (vget event "action") ;;;
  observe_session entity_id (vget event "session_duration") ;;;
  observe_location entity_id (vget event "location") ;;;
  observe_source_ip entity_id (vget event "source_ip") ;;;
  observe_all_features entity_id
    (dict_get_default String.eqb event "features" (VDict [])) ;;;
  profile_of entity_id.

End Baseline.

(** ** The session statistics of behavioral/baseline.py on doubles *)

Module Binary64.

(** The three session fields of [BaselineProfile], the floats as IEEE
    binary64 numbers. *)
Record SessionStats : Type := {
  session_duration_mean : PrimFloat.float;
  session_duration_m2 : PrimFloat.float;
  session_count : Z
}.

(** [BaselineProfile(...)]: both floats 0.0, no session. *)
Definition new_profile : SessionStats :=
  {| session_duration_mean := PrimFloat.zero;
     session_duration_m2 := PrimFloat.zero;
     session_count := 0 |}.

(** The conversion of an [int] between 0 and 2^53, which is exact. *)
Definition of_int (z : Z) : PrimFloat.float :=
  PrimFloat.of_uint63 (Uint63.of_Z z).

(** The session update of [observe] for an [int] duration: each
    operation rounds to the nearest double. *)
Definition observe_duration (p : SessionStats) (duration : Z)
  : SessionStats :=
  let count := (session_count p + 1)%Z in
  let delta := PrimFloat.sub (of_int duration) (session_duration_mean p) in
  let mean :=
    PrimFloat.add (session_duration_mean p)
                  (PrimFloat.div delta (of_int count)) in
  let delta2 := PrimFloat.sub (of_int duration) mean in
  {| session_duration_mean := mean;
     session_duration_m2 :=
       PrimFloat.add (session_duration_m2 p) (PrimFloat.mul delta delta2);
     session_count := count |}.

Definition session_duration_variance (p : SessionStats) : PrimFloat.float :=
  if (session_count p <? 2)%Z then PrimFloat.zero
  else PrimFloat.div (session_duration_m2 p) (of_int (session_count p - 1)).

(** The rational that a finite double stands for. *)
Definition exact (x : PrimFloat.float) : option Q :=
  match FloatOps.Prim2SF x with
  | SpecFloat.S754_zero _ => Some 0
  | SpecFloat.S754_finite s m e =>
      Some ((if s then -1 else 1) * inject_Z (Zpos m) * Qpower 2 e)
  | _ => None
  end.

(** Three sessions of about three years each, in seconds. *)
Definition long_sessions : list Z := [100000001; 100000002; 100000004]%Z.

End Binary64.

(** ** behavioral/anomaly.py *)

Module Anomaly.
Import Builtins Baseline.

Record AnomalyResult : Type := {
  ar_entity_id : string;
  anomaly_score : Q;
  is_anomalous : bool;
  details : list (string * value);
  component_scores : list (string * Q)
}.

Record AnomalyDetector : Type := {
  baseline : BehavioralBaseline;
  threshold : Q;
  weights : list (string * Q)
}.

Definition default_weights : list (string * Q) :=
  [("time", 0.2); ("resource", 0.25); ("location", 0.25); ("ip", 0.15);
   ("duration", 0.15)].

(** [AnomalyDetector(baseline_engine)] *)
Definition new_detector (b : BehavioralBaseline) : AnomalyDetector :=
  {| baseline := b; threshold := 0.7; weights := default_weights |}.

(** The helpers below receive the profile object and only read it. *)

Definition _time_anomaly (profile : BaselineProfile) (hour : Z)
  : outcome (Q * list (string * value)) :=
  let probs := hour_probabilities profile in
  obind (array_index probs hour) (fun i =>
  let prob := nth i probs 0 in
  let max_prob := Qmaximum 0 probs in
  if Qeq_bool max_prob 0 then
    Returned (0.0, [("hour", VInt hour); ("probability", VFloat 0.0)])
  else
    let relative := 1.0 - prob / max_prob in
    obind (array_index (hour_distribution profile) hour) (fun j =>
    let relative :=
      if Qeq_bool (nth j (hour_distribution profile) 0) 0
      then Qmin (relative + 0.3) 1.0 else relative in
    Returned
      (py_round relative 4,
       [("hour", VInt hour);
        ("probability", VFloat (py_round prob 4));
        ("peak_hour", VInt (Z.of_nat (argmax probs)))]))).

Definition _resource_anomaly (profile : BaselineProfile) (resource : value)
  : outcome (Q * list (string * value)) :=
  obind (count_get (resource_frequencies profile) resource) (fun count =>
  let total := Zsum (dict_values (resource_frequencies profile)) in
  if (total =? 0)%Z then
    Returned (0.5, [("resource", resource); ("seen_count", VInt 0)])
  else if (count =? 0)%Z then
    let n_unique := length (resource_frequencies profile) in
    let novelty := Qmax 0.6 (1.0 - inject_Z (Z.of_nat n_unique) / 100.0) in
    Returned
      (py_round novelty 4,
       [("resource", resource); ("seen_count", VInt 0);
        ("novel", VBool true)])
  else
    obind (int_truediv count total) (fun freq =>
    obind (Zmaximum (dict_values (resource_frequencies profile))) (fun m =>
    obind (int_truediv m total) (fun max_freq =>
    let score :=
      if Qgtb max_freq 0 then 1.0 - freq / max_freq else 0.0 in
    Returned
      (py_round (score * 0.5) 4,
       [("resource", resource); ("seen_count", VInt count);
        ("frequency", VFloat (py_round freq 4))]))))).

Definition _location_anomaly (profile : BaselineProfile) (location : value)
  : outcome (Q * list (string * value)) :=
  obind (count_get (locations_seen profile) location) (fun count =>
  if (count =? 0)%Z then
    Returned
      (0.9,
       [("location", location); ("novel", VBool true);
        ("seen_count", VInt 0)])
  else
    let total := Zsum (dict_values (locations_seen profile)) in
    obind (if (0 <? total)%Z then int_truediv count total else Returned 0.0)
          (fun freq =>
    let score := Qmax 0.0 (1.0 - freq * 5) in
    Returned
      (py_round score 4,
       [("location", location); ("seen_count", VInt count);
        ("frequency", VFloat (py_round freq 4))]))).

Definition _ip_anomaly (profile : BaselineProfile) (ip : value)
  : outcome (Q * list (string * value)) :=
  obind (count_get (source_ips profile) ip) (fun count =>
  if (count =? 0)%Z then
    Returned
      (0.8,
       [("source_ip", ip); ("novel", VBool true); ("seen_count", VInt 0)])
  else
    let total := Zsum (dict_values (source_ips profile)) in
    obind (if (0 <? total)%Z then int_truediv count total else Returned 0.0)
          (fun freq =>
    let score := Qmax 0.0 (1.0 - freq * 3) in
    Returned
      (py_round score 4,
       [("source_ip", ip); ("seen_count", VInt count);
        ("frequency", VFloat (py_round freq 4))]))).

(** Present scores combined with the detector's weights. *)
Definition weighted_composite (weights scores : list (string * Q)) : Q :=
  match scores with
  | [] => 0.0
  | _ =>
      let '(weighted_sum, weight_sum) :=
        fold_left
          (fun acc ks =>
             let w := dict_get_default String.eqb weights (fst ks) 0.1 in
             (fst acc + snd ks * w, snd acc + w))
          scores (0.0, 0.0) in
      if Qgtb weight_sum 0 then weighted_sum / weight_sum else 0.0
  end.

Section MathLibrary.

(** [math.sqrt] and [math.exp] on their domain. *)
Variable math_sqrt : Q -> Q.
Variable math_exp : Q -> Q.

(** [math.sqrt(x)]: a negative argument is a [ValueError]. *)
Definition py_sqrt (x : Q) : outcome Q :=
  if Qltb x 0 then Raised ValueError else Returned (math_sqrt x).

Definition session_duration_std (p : BaselineProfile) : outcome Q :=
  obind (session_duration_variance p) py_sqrt.

(** Sigmoid mapping of a z-score to 0-1: the logistic function at
    [1.5 (z - 2)]. *)
Definition sigmoid (z_score : Q) : Q :=
  1.0 / (1.0 + math_exp (- (1.5) * (z_score - 2.0))).

Definition _duration_anomaly (profile : BaselineProfile) (duration : value)
  : outcome (Q * list (string * value)) :=
  if (session_count profile <? 5)%Z then
    Returned (0.0, [("duration", duration); ("insufficient_data", VBool true)])
  else
    obind (session_duration_std profile) (fun std =>
    let std := if Qeq_bool std 0 then 1.0 else std in
    obind (py_sub duration (VFloat (session_duration_mean profile)))
          (fun diff =>
    let z_score := Qabs diff / std in
    let score := sigmoid z_score in
    Returned
      (py_round score 4,
       [("duration", duration);
        ("z_score", VFloat (py_round z_score 4));
        ("baseline_mean",
         VFloat (py_round (session_duration_mean profile) 2));
        ("baseline_std", VFloat (py_round std 2))]))).

(** One component of [analyze]: when its event field is present, the
    score and the detail go into the two dictionaries under [name]. *)
Definition component (present : bool) (name : string)
  (calc : outcome (Q * list (string * value)))
  (acc : list (string * Q) * list (string * value))
  : outcome (list (string * Q) * list (string * value)) :=
  if present then
    obind calc (fun '(score, detail) =>
      Returned (dict_set String.eqb (fst acc) name score,
                dict_set String.eqb (snd acc) name (VDict detail)))
  else Returned acc.

(** The five components, in the order [analyze] computes them. *)
Definition components (profile : BaselineProfile)
  (event : list (string * value))
  : outcome (list (string * Q) * list (string * value)) :=
  let hour := vget event "hour" in
  let resource := vget event "resource" in
  let location := vget event "location" in
  let source_ip := vget event "source_ip" in
  let duration := vget event "session_duration" in
  obind (component (negb (is_none hour)) "time"
           (obind (py_int hour) (_time_anomaly profile)) ([], []))
  (fun acc =>
  obind (component (truthy resource) "resource"
           (_resource_anomaly profile resource) acc)
  (fun acc =>
  obind (component (truthy location) "location"
           (_location_anomaly profile location) acc)
  (fun acc =>
  obind (component (truthy source_ip) "ip"
           (_ip_anomaly profile source_ip) acc)
  (fun acc =>
  component (negb (is_none duration)) "duration"
    (_duration_anomaly profile duration) acc)))).

Definition analyze (entity_id : string) (event : list (string * value))
  : M AnomalyDetector AnomalyResult :=
  self <- get ;;
  match get_profile (baseline self) entity_id with
  | None =>
      ret {| ar_entity_id := entity_id; anomaly_score := 0.5;
             is_anomalous := false;
             details := [("reason", VStr "insufficient_baseline")];
             component_scores := [] |}
  | Some profile =>
      if (observation_count profile <? 10)%Z then
        ret {| ar_entity_id := entity_id; anomaly_score := 0.5;
               is_anomalous := false;
               details := [("reason", VStr "insufficient_baseline")];
               component_scores := [] |}
      else
        sd <- lift (components profile event) ;;
        let '(scores, details) := sd in
        let composite := weighted_composite (weights self) scores in
        ret {| ar_entity_id := entity_id;
               anomaly_score := py_round composite 4;
               is_anomalous := Qgeb composite (threshold self);
               details := details;
               component_scores := scores |}
  end.

Fixpoint analyze_batch (entity_id : string)
  (events : list (list (string * value)))
  : M AnomalyDetector (list AnomalyResult) :=
  match events with
  | [] => ret []
  | event :: rest =>
      r <- analyze entity_id event ;;
      rs <- analyze_batch entity_id rest ;;
      ret (r :: rs)
  end.

End MathLibrary.

End Anomaly.

(** ** lateral/graph.py *)

Module Graph.

Record AccessEdge : Type := {
  src : string;
  dst : string;
  action : string;
  timestamp : Q;
  credential_type : string;
  success : bool;
  risk_score : Q
}.

Record AccessGraph : Type := {
  edges : list AccessEdge;
  adjacency : list (string * list (string * list AccessEdge));
  node_types : list (string * string);
  node_features : list (string * list Q)
}.

Definition empty_graph : AccessGraph :=
  {| edges := []; adjacency := []; node_types := []; node_features := [] |}.

Definition add_node (node_id node_type : string) (features : option (list Q))
  (g : AccessGraph) : AccessGraph :=
  {| edges := edges g; adjacency := adjacency g;
     node_types := dict_set String.eqb (node_types g) node_id node_type;
     node_features :=
       dict_set String.eqb (node_features g) node_id
         (match features with Some f => f | None => repeat 0.0 8 end) |}.

Definition add_edge (edge : AccessEdge) (g : AccessGraph) : AccessGraph :=
  let row := dict_get_default String.eqb (adjacency g) (src edge) [] in
  let cell := dict_get_default String.eqb row (dst edge) [] in
  let g1 :=
    {| edges := edges g ++ [edge];
       adjacency :=
         dict_set String.eqb (adjacency g) (src edge)
           (dict_set String.eqb row (dst edge) (cell ++ [edge]));
       node_types := node_types g; node_features := node_features g |} in
  let g2 :=
    if dict_mem String.eqb (node_types g1) (src edge) then g1
    else add_node (src edge) "entity" None g1 in
  if dict_mem String.eqb (node_types g2) (dst edge) then g2
  else add_node (dst edge) "resource" None g2.

(** The neighbours of a node; a Python set, enumerated here in the order
    the adjacency dictionary lists them. *)
Definition get_neighbors (g : AccessGraph) (node_id : string) : list string :=
  dict_keys (dict_get_default String.eqb (adjacency g) node_id []).

Definition mem (x : string) (l : list string) : bool :=
  existsb (String.eqb x) l.

(** The inner [dfs] of [all_paths].  Each call lengthens [path] by one and
    the guard stops at [max_depth], so [fuel] only makes the recursion
    structural: [all_paths] starts it high enough never to run out. *)
Fixpoint dfs (g : AccessGraph) (max_depth : nat) (fuel : nat)
  (current target : string) (path visited : list string)
  : list (list string) :=
  match fuel with
  | O => []
  | S fuel' =>
      if (max_depth <? length path)%nat then []
      else if String.eqb current target then [path]
      else
        flat_map
          (fun neighbor =>
             if mem neighbor visited then []
             else dfs g max_depth fuel' neighbor target
                      (path ++ [neighbor]) (neighbor :: visited))
          (get_neighbors g current)
  end.

Definition all_paths (g : AccessGraph) (src dst : string) (max_depth : nat)
  : list (list string) :=
  dfs g max_depth (S max_depth) src dst [src] [src].

(** Stable insertion sort: [sorted(l, key=...)]. *)
Section Sorted.
Context {A : Type} (leb : A -> A -> bool).

Fixpoint insert (x : A) (l : list A) : list A :=
  match l with
  | [] => [x]
  | y :: r => if leb x y then x :: y :: r else y :: insert x r
  end.

Definition sorted (l : list A) : list A := fold_right insert [] l.
End Sorted.

Definition matrix := list (list Q).

(** Position of a node in a list of nodes. *)
Fixpoint index_of (x : string) (l : list string) : option nat :=
  match l with
  | [] => None
  | y :: r =>
      if String.eqb x y then Some O else option_map S (index_of x r)
  end.

Definition adjacency_matrix (g : AccessGraph) : list string * matrix :=
  let nodes := sorted String.leb (dict_keys (node_types g)) in
  (nodes,
   map (fun s =>
          map (fun d =>
                 inject_Z (Z.of_nat (length
                   (dict_get_default String.eqb
                      (dict_get_default String.eqb (adjacency g) s []) d []))))
              nodes)
       nodes).

(** The results of a loop, in order; the first exception ends it. *)
Fixpoint each {A B} (f : A -> outcome B) (l : list A) : outcome (list B) :=
  match l with
  | [] => Returned []
  | x :: r =>
      obind (f x) (fun y =>
      obind (each f r) (fun ys => Returned (y :: ys)))
  end.

(** [mat[i] = v] on a row of [dim] cells: NumPy copies a vector of that
    length, repeats a single cell, and refuses any other length with a
    [ValueError]. *)
Definition fit_row (dim : nat) (v : list Q) : outcome (list Q) :=
  if (length v =? dim)%nat then Returned v
  else
    match v with
    | [x] => Returned (repeat x dim)
    | _ => Raised ValueError
    end.

(** The rows are as long as the feature vector that was stored first. *)
Definition feature_matrix (g : AccessGraph)
  : outcome (list string * matrix) :=
  let nodes := sorted String.leb (dict_keys (node_features g)) in
  match dict_values (node_features g) with
  | [] => Returned ([], [])
  | first :: _ =>
      let dim := length first in
      obind
        (each (fun n =>
                 fit_row dim
                   (dict_get_default String.eqb (node_features g) n []))
              nodes)
        (fun mat => Returned (nodes, mat))
  end.

End Graph.

(** ** lateral/detector.py *)

Module Detector.
Import Graph.

Record LateralMovementAlert : Type := {
  alert_type : string;
  severity : Q;
  path : list string;
  details : list (string * value)
}.

(** The weights come from NumPy's seeded generator; here they are the
    layer's data. *)
Record GNNLayer : Type := {
  W_self : matrix;
  W_neigh : matrix;
  bias : list Q
}.

Definition dot (u v : list Q) : Q :=
  Qsum (map (fun xy => fst xy * snd xy) (combine u v)).

Definition column (j : nat) (m : matrix) : list Q :=
  map (fun r => nth j r 0) m.

(** A 2-D array is the list of its rows; it is as wide as its first
    row, and a cell that a row lacks reads as 0. *)
Definition width (m : matrix) : nat := length (hd [] m).

(** [a @ b]: the rows of [a] must be as long as [b] has rows, or NumPy
    raises a [ValueError]. *)
Definition matmul (a b : matrix) : outcome matrix :=
  if (width a =? length b)%nat then
    Returned
      (map (fun r => map (fun j => dot r (column j b)) (seq 0 (width b))) a)
  else Raised ValueError.

(** A cell-wise operation on two 1-D arrays under NumPy's broadcasting:
    equal lengths pair up, an array of one cell is repeated, and other
    lengths are a [ValueError]. *)
Definition broadcast (f : Q -> Q -> Q) (u v : list Q) : outcome (list Q) :=
  if (length u =? length v)%nat then
    Returned (map (fun xy => f (fst xy) (snd xy)) (combine u v))
  else
    match u, v with
    | [x], _ => Returned (map (f x) v)
    | _, [y] => Returned (map (fun a => f a y) u)
    | _, _ => Raised ValueError
    end.

Definition forward (layer : GNNLayer) (features adj : matrix)
  : outcome matrix :=
  let adj_norm :=
    map (fun r =>
           let degree := Qsum r in
           let degree := if Qeq_bool degree 0 then 1 else degree in
           map (fun x => x / degree) r)
        adj in
  obind (matmul features (W_self layer)) (fun self_transform =>
  obind (matmul adj_norm features) (fun aggregated =>
  obind (matmul aggregated (W_neigh layer)) (fun neighbor_agg =>
  obind (each (fun rows => broadcast Qplus (fst rows) (snd rows))
              (combine self_transform neighbor_agg)) (fun summed =>
  obind (each (fun r => broadcast Qplus r (bias layer)) summed)
        (fun output =>
  Returned (map (map (fun x => Qmax x 0)) output)))))).

Record LateralMovementDetector : Type := {
  graph : AccessGraph;
  hop_threshold : Z;
  gnn_layer1 : GNNLayer;
  gnn_layer2 : GNNLayer;
  baseline_embeddings : list (string * list Q);
  anomaly_threshold : Q
}.

Definition compute_embeddings (d : LateralMovementDetector)
  : outcome (list string * matrix) :=
  obind (feature_matrix (graph d)) (fun nf =>
  match fst nf with
  | [] => Returned ([], [])
  | _ =>
      let adj := snd (adjacency_matrix (graph d)) in
      obind (forward (gnn_layer1 d) (snd nf) adj) (fun h1 =>
      obind (forward (gnn_layer2 d) h1 adj) (fun h2 =>
      Returned (fst nf, h2)))
  end).

(** Edges grouped by source, sources in order of first appearance. *)
Definition group_by_source (es : list AccessEdge)
  : list (string * list AccessEdge) :=
  fold_left
    (fun by_source e =>
       dict_set String.eqb by_source (src e)
         (dict_get_default String.eqb by_source (src e) [] ++ [e]))
    es [].

(** Targets in order, each kept at its first occurrence. *)
Definition unique_targets (es : list AccessEdge) : list string :=
  fold_left
    (fun seen e => if mem (dst e) seen then seen else seen ++ [dst e])
    es [].

(** [l[:n]] *)
Definition take {A} (n : Z) (l : list A) : list A :=
  if (0 <=? n)%Z then firstn (Z.to_nat n) l
  else firstn (length l - Z.to_nat (- n)) l.

Definition hopping_alert (hop : Z) (source : string)
  (es : list AccessEdge) : outcome (list LateralMovementAlert) :=
  let sorted_edges :=
    sorted (fun a b => Qle_bool (timestamp a) (timestamp b)) es in
  let targets := unique_targets sorted_edges in
  let n := Z.of_nat (length targets) in
  if (hop <=? n)%Z then
    if (hop * 2 =? 0)%Z then Raised ZeroDivisionError
    else
      let severity := Qmin 1.0 (inject_Z n / inject_Z (hop * 2)) in
      Returned
        [{| alert_type := "credential_hopping";
            severity := py_round severity 4;
            path := source :: take (hop + 2) targets;
            details := [("source", VStr source); ("hop_count", VInt n);
                        ("threshold", VInt hop)] |}]
  else Returned [].

Fixpoint collect {A B} (f : A -> outcome (list B)) (l : list A)
  : outcome (list B) :=
  match l with
  | [] => Returned []
  | x :: r =>
      obind (f x) (fun ys =>
      obind (collect f r) (fun zs => Returned (ys ++ zs)))
  end.

Definition _detect_credential_hopping (d : LateralMovementDetector)
  : outcome (list LateralMovementAlert) :=
  collect (fun se => hopping_alert (hop_threshold d) (fst se) (snd se))
          (group_by_source (edges (graph d))).

Definition high_priv_nodes (g : AccessGraph) : list string :=
  dict_keys
    (filter (fun nf => match snd nf with
                       | [] => false
                       | f0 :: _ => Qgtb f0 0.7
                       end)
            (node_features g)).

Definition low_priv_nodes (g : AccessGraph) : list string :=
  dict_keys
    (filter (fun nf => match snd nf with
                       | [] => false
                       | f0 :: _ => negb (Qgtb f0 0.7) && Qltb f0 0.3
                       end)
            (node_features g)).

Definition escalation_alert (low high : string) (p : list string)
  : list LateralMovementAlert :=
  if (3 <=? length p)%nat then
    [{| alert_type := "privilege_escalation";
        severity := py_round (0.6 + 0.1 * inject_Z (Z.of_nat (length p))) 4;
        path := p;
        details := [("source", VStr low); ("target", VStr high);
                    ("hops", VInt (Z.of_nat (length p) - 1))] |}]
  else [].

Definition _detect_privilege_escalation (d : LateralMovementDetector)
  : list LateralMovementAlert :=
  flat_map
    (fun low =>
       flat_map
         (fun high =>
            flat_map (escalation_alert low high)
                     (all_paths (graph d) low high 4))
         (high_priv_nodes (graph d)))
    (low_priv_nodes (graph d)).

Section Norm.

(** The square root inside [np.linalg.norm]. *)
Variable np_sqrt : Q -> Q.

Definition norm (v : list Q) : Q := np_sqrt (Qsum (map (fun x => x * x) v)).

(** One node of the loop of [_detect_embedding_anomalies]: the vectors
    are subtracted under broadcasting, and the severity divides by three
    times the threshold. *)
Definition embedding_alert (d : LateralMovementDetector)
  (node : string) (current : list Q) : outcome (list LateralMovementAlert) :=
  match dict_get String.eqb (baseline_embeddings d) node with
  | None => Returned []
  | Some base =>
      obind (broadcast Qminus current base) (fun difference =>
      let distance := norm difference in
      if Qgtb distance (anomaly_threshold d) then
        obind (float_div distance (anomaly_threshold d * 3)) (fun ratio =>
        let severity := Qmin 1.0 ratio in
        Returned
          [{| alert_type := "embedding_anomaly";
              severity := py_round severity 4;
              path := [node];
              details :=
                [("node", VStr node);
                 ("embedding_distance", VFloat (py_round distance 4));
                 ("threshold", VFloat (anomaly_threshold d))] |}])
      else Returned [])
  end.

Definition _detect_embedding_anomalies (d : LateralMovementDetector)
  : outcome (list LateralMovementAlert) :=
  match baseline_embeddings d with
  | [] => Returned []
  | _ =>
      obind (compute_embeddings d) (fun nc =>
      collect (fun nc => embedding_alert d (fst nc) (snd nc))
              (combine (fst nc) (snd nc)))
  end.

Definition detect (d : LateralMovementDetector)
  : outcome (list LateralMovementAlert) :=
  obind (_detect_credential_hopping d) (fun hopping =>
  let escalation := _detect_privilege_escalation d in
  obind (_detect_embedding_anomalies d) (fun embedding =>
  let alerts := hopping ++ escalation ++ embedding in
  Returned (sorted (fun a b => Qle_bool (severity b) (severity a)) alerts))).

End Norm.

End Detector.

(** ** Vocabulary of the properties *)

Module Props.
Import Context Engine Verification Builtins Baseline Anomaly.

(** Trend labels by the size of a change in trust. *)
Definition trend_of_delta (delta : Q) : string :=
  if Qltb delta (-0.1) then "degrading"
  else if Qgtb delta 0.1 then "improving"
  else "stable".

Definition arithmetic_mean (l : list Q) : Q :=
  Qsum l / inject_Z (Z.of_nat (length l)).

(** The trend as the specification words it: the mean of the last three
    history points against the earliest of them. *)
Definition trend_by_mean (history : list Q) : string :=
  let recent := last_n 3 history in
  trend_of_delta (arithmetic_mean recent - hd 0 recent).

Definition state_with_history (history : list Q) : VerificationState :=
  {| vs_entity_id := "alice"; vs_session_id := "s1";
     initial_decision := ALLOW; current_decision := ALLOW;
     last_verified := 0; verification_count := 0; escalation_count := 0;
     trust_history := history |}.

(** A fully trusted request and a fully distrusted one of one session. *)
Definition trusted_context : AccessContext :=
  {| Context.entity_id := "alice"; resource := "docs"; action := "read";
     source_ip := ""; location := ""; hour := -1; day_of_week := -1;
     device := default_device 0; behavior_score := 0.0; risk_score := 0.0;
     session_id := "s1"; authentication_method := "certificate";
     mfa_verified := true; network_zone := "internal"; timestamp := 0;
     metadata := [] |}.

Definition distrusted_context : AccessContext :=
  {| Context.entity_id := "alice"; resource := "docs"; action := "read";
     source_ip := ""; location := ""; hour := -1; day_of_week := -1;
     device := default_device 0; behavior_score := 1.0; risk_score := 1.0;
     session_id := "s1"; authentication_method := "password";
     mfa_verified := false; network_zone := "external"; timestamp := 0;
     metadata := [] |}.

(** The engine with the default thresholds, any log and sensitivities. *)
Definition default_engine (log : list AccessDecision)
  (sens : list (string * Q)) : AccessDecisionEngine :=
  {| deny_threshold := 0.3; challenge_threshold := 0.5;
     restrict_threshold := 0.7; decision_log := log;
     resource_sensitivity := sens |}.

(** The decision of [evaluate] once the resource of the request has been
    given sensitivity [level]. *)
Definition decide_at (level : Q) (now : Q) (ctx : AccessContext)
  (e : AccessDecisionEngine) : outcome Decision :=
  let '(_, e') := set_resource_sensitivity (resource ctx) level e in
  match fst (evaluate now ctx e') with
  | Returned r => Returned (decision r)
  | Raised x => Raised x
  end.

(** Sums over the durations seen so far. *)
Definition sum_sq_dev (m : Q) (l : list Q) : Q :=
  Qsum (map (fun d => (d - m) * (d - m)) l).

Definition sample_variance (l : list Q) : Q :=
  sum_sq_dev (arithmetic_mean l) l / inject_Z (Z.of_nat (length l) - 1).

Definition is_number (v : value) : bool :=
  match as_number v with Some _ => true | None => false end.

Definition number_or_none (v : value) : bool :=
  is_none v || is_number v.

(** A number that float arithmetic accepts: a [bool], a [float], or an
    [int] that converts to a [float]. *)
Definition finite_number (v : value) : bool := returns (to_float v).

Definition finite_or_none (v : value) : bool :=
  is_none v || finite_number v.

Definition key_or_falsy (v : value) : bool :=
  negb (truthy v) || hashable v.

Definition numeric_features (v : value) : bool :=
  match v with
  | VDict items => forallb (fun kv => finite_number (snd kv)) items
  | _ => false
  end.

(** An event whose known fields have the types the docstring of
    [observe] gives them, the numbers that enter the running statistics
    being floats or ints that convert to one; other keys are
    unconstrained. *)
Definition well_typed_event (event : list (string * value)) : bool :=
  number_or_none (vget event "hour") &&
  number_or_none (vget event "day_of_week") &&
  key_or_falsy (vget event "resource") &&
  key_or_falsy (vget event "action") &&
  finite_or_none (vget event "session_duration") &&
  key_or_falsy (vget event "location") &&
  key_or_falsy (vget event "source_ip") &&
  numeric_features (dict_get_default String.eqb event "features" (VDict [])).

(** The arrays of a profile have the shape [BaselineProfile] gives them. *)
Definition well_shaped (p : BaselineProfile) : Prop :=
  length (hour_distribution p) = 24%nat /\
  length (dow_distribution p) = 7%nat.

(** The feature values an event carries. *)
Definition feature_items (event : list (string * value))
  : list (string * value) :=
  match dict_get_default String.eqb event "features" (VDict []) with
  | VDict items => items
  | _ => []
  end.

(** How many updates of a running count the calls can ask for: one for
    the duration of each call and one for each of its feature values. *)
Definition updates (calls : list (Q * list (string * value))) : Z :=
  Z.of_nat
    (length calls + length (flat_map (fun c => feature_items (snd c)) calls)).

(** A running count that is not negative and still converts to a float
    after [n] more increments. *)
Definition count_has_room (n c : Z) : Prop :=
  (0 <= c /\ c + n < float_limit)%Z.

(** The session count and the feature counts of a profile have room for
    [n] more increments. *)
Definition has_room (n : Z) (p : BaselineProfile) : Prop :=
  count_has_room n (session_count p) /\
  Forall (fun s => count_has_room n (snd (snd s))) (feature_stats p).

(** A sequence of [observe] calls for one entity, each with the time of
    the call. *)
Fixpoint observe_each (entity_id : string)
  (calls : list (Q * list (string * value))) : M BehavioralBaseline unit :=
  match calls with
  | [] => ret tt
  | (now, event) :: rest =>
      observe now entity_id event ;;; observe_each entity_id rest
  end.

(** The session durations the events of the calls carry, in order. *)
Definition durations (calls : list (Q * list (string * value))) : list Q :=
  flat_map (fun c => match as_number (vget (snd c) "session_duration") with
                     | Some x => [x]
                     | None => []
                     end) calls.

Definition sum_sq (l : list Q) : Q := Qsum (map (fun d => d * d) l).

(** Welford's state after the durations [ds]. *)
Definition welford_state (ds : list Q) (p : BaselineProfile) : Prop :=
  let n := inject_Z (Z.of_nat (length ds)) in
  session_count p = Z.of_nat (length ds) /\
  session_duration_mean p * n == Qsum ds /\
  session_duration_m2 p == sum_sq ds - Qsum ds * Qsum ds / n.

(** The keys of an event that [observe] reads. *)
Definition known_keys : list string :=
  ["entity_type"; "hour"; "day_of_week"; "resource"; "action";
   "session_duration"; "location"; "source_ip"; "features"].


(** The order in which the string values of the decisions compare. *)
Definition lexical_rank (d : Decision) : Z :=
  match d with
  | ALLOW => 0
  | CHALLENGE => 1
  | DENY => 2
  | RESTRICT => 3
  end.

(** What an ordering operator answers from a three-way comparison. *)
Definition order_holds (op : string) (c : comparison) : bool :=
  if String.eqb op "gt" then match c with Gt => true | _ => false end
  else if String.eqb op "lt" then match c with Lt => true | _ => false end
  else if String.eqb op "gte" then match c with Lt => false | _ => true end
  else match c with Gt => false | _ => true end.

(** A step of [observe] that leaves the counters of observations and the
    session statistics alone. *)
Definition unchanged_stats (p p' : BaselineProfile) : Prop :=
  observation_count p' = observation_count p /\
  session_count p' = session_count p /\
  session_duration_mean p' = session_duration_mean p /\
  session_duration_m2 p' = session_duration_m2 p.

(** The Welford update of the session statistics by the duration [x]. *)
Definition session_step (x : Q) (p p' : BaselineProfile) : Prop :=
  session_count p' = (session_count p + 1)%Z /\
  session_duration_mean p' =
    session_duration_mean p
    + (x - session_duration_mean p) / inject_Z (session_count p + 1) /\
  session_duration_m2 p' =
    session_duration_m2 p
    + (x - session_duration_mean p) * (x - session_duration_mean p').

(** The effect of one event on the session statistics. *)
Definition session_effect (event : list (string * value))
  (p p' : BaselineProfile) : Prop :=
  match as_number (vget event "session_duration") with
  | Some x => session_step x p p'
  | None =>
      session_count p' = session_count p /\
      session_duration_mean p' = session_duration_mean p /\
      session_duration_m2 p' = session_duration_m2 p
  end.

(** The profile [observe] starts from: the stored one, or a fresh one. *)
Definition starting_profile (now : Q) (entity_id : string)
  (event : list (string * value)) (b : BehavioralBaseline)
  : BaselineProfile :=
  match get_profile b entity_id with
  | Some p => p
  | None =>
      new_profile now entity_id
        (dict_get_default String.eqb event "entity_type" (VStr "user"))
  end.

(** The profile that [observe] finds or creates for the entity has
    well-shaped arrays, and counts with room for [n] more increments. *)
Definition well_shaped_store (n : Z) (b : BehavioralBaseline)
  (entity_id : string) : Prop :=
  let p := starting_profile 0 entity_id [] b in
  well_shaped p /\ has_room n p.

(** A step of [observe] on the profile of [e] that returns, keeps the
    profile well shaped and leaves its statistics alone. *)
Definition quiet_step (m : M BehavioralBaseline unit) (e : string) : Prop :=
  forall b p,
    get_profile b e = Some p -> well_shaped p ->
    exists b' p',
      m b = (Returned tt, b') /\ get_profile b' e = Some p' /\
      well_shaped p' /\ unchanged_stats p p' /\
      feature_stats p' = feature_stats p.

(** The value of [session_duration_variance] where it returns. *)
Definition variance (p : BaselineProfile) : Q :=
  if (session_count p <? 2)%Z then 0.0
  else session_duration_m2 p / inject_Z (session_count p - 1).

(** The score of the duration component for a numeric duration [x]: zero
    while fewer than five sessions are known, else the rounded sigmoid of
    the z-score, whose divisor is the standard deviation, or 1 when that
    is exactly zero. *)
Definition duration_score (math_sqrt math_exp : Q -> Q)
  (p : BaselineProfile) (x : Q) : Q :=
  if (session_count p <? 5)%Z then 0.0
  else
    let sd := math_sqrt (variance p) in
    let divisor := if Qeq_bool sd 0 then 1.0 else sd in
    py_round (sigmoid math_exp (Qabs (x - session_duration_mean p) / divisor))
             4.

(** The z-score as the specification words it: the divisor is never
    below 1. *)
Definition duration_score_by_max (math_sqrt math_exp : Q -> Q)
  (p : BaselineProfile) (x : Q) : Q :=
  let sd := math_sqrt (variance p) in
  sigmoid math_exp (Qabs (x - session_duration_mean p) / Qmax sd 1).

(** An hour that [analyze] can look up: absent, or a number whose integer
    part is an index of the 24 buckets. *)
Definition hour_in_range (v : value) : bool :=
  match v with
  | VNone => true
  | VBool _ | VInt _ | VFloat _ =>
      match py_int v with
      | Returned h => ((-24 <=? h) && (h <? 24))%Z
      | Raised _ => false
      end
  | _ => false
  end.

(** An event on which the components before the duration return. *)
Definition analyzable (event : list (string * value)) : bool :=
  hour_in_range (vget event "hour") &&
  key_or_falsy (vget event "resource") &&
  key_or_falsy (vget event "location") &&
  key_or_falsy (vget event "source_ip").

(** The counters that [analyze] divides hold ints that convert to a
    float, and so does the session count. *)
Definition plain_counts (p : BaselineProfile) : Prop :=
  Forall (fun z => fits_float z = true)
         (dict_values (resource_frequencies p)) /\
  Forall (fun z => fits_float z = true) (dict_values (locations_seen p)) /\
  Forall (fun z => fits_float z = true) (dict_values (source_ips p)) /\
  (session_count p <= float_limit)%Z.

Definition score_of (r : outcome AnomalyResult * AnomalyDetector)
  : option Q :=
  match fst r with
  | Returned a => Some (anomaly_score a)
  | Raised _ => None
  end.

(** A detector over the baseline of ten observations of one location. *)
Definition seasoned_detector : AnomalyDetector :=
  new_detector
    (snd (observe_each "alice"
            (repeat (0, [("location", VStr "us-east")]) 10) new_baseline)).

(** A profile with five sessions of mean 0 and variance 1/4. *)
Definition narrow_profile : BaselineProfile :=
  set_session 0 1 5
    (observed 0 (new_profile 0 "alice" (VStr "user"))).

(** Rational stand-ins for [math.sqrt] and [math.exp], to run the model:
    Newton's iteration and a truncated power series. *)
Fixpoint newton (n : nat) (x y : Q) : Q :=
  match n with
  | O => y
  | S n' => newton n' x (Qred ((y + x / y) / 2))
  end.

Definition newton_sqrt (x : Q) : Q :=
  if Qle_bool x 0 then 0 else newton 6 x (Qmax x 1).

Fixpoint series_exp (n : nat) (k : Z) (term acc t : Q) : Q :=
  match n with
  | O => acc
  | S n' =>
      let term' := Qred (term * t / inject_Z k) in
      series_exp n' (k + 1) term' (Qred (acc + term')) t
  end.

Definition taylor_exp (t : Q) : Q := series_exp 12 1 1 1 t.

(** A detector over a baseline of ten observations at one location, five
    of them with a session duration; the store is the one [observe] leaves
    behind, evaluated once. *)
Definition busy_detector : AnomalyDetector :=
  Eval vm_compute in
  new_detector
    (snd (observe_each "alice"
            (map (fun k => (inject_Z k,
                            [("location", VStr "us-east");
                             ("session_duration", VInt (30 + 2 * k))]))
                 [0; 1; 2; 3; 4]%Z
             ++ map (fun k => (inject_Z k, [("location", VStr "us-east")]))
                    [5; 6; 7; 8; 9]%Z)
            new_baseline)).

Definition busy_profile : BaselineProfile :=
  Eval vm_compute in
  starting_profile 0 "alice" [] (baseline busy_detector).

Definition component_score (o : outcome (Q * list (string * value)))
  : option Q :=
  match o with
  | Returned r => Some (fst r)
  | Raised _ => None
  end.

Definition edge (s t : string) (time : Q) : Graph.AccessEdge :=
  {| Graph.src := s; Graph.dst := t; Graph.action := "access";
     Graph.timestamp := time; Graph.credential_type := "password";
     Graph.success := true; Graph.risk_score := 0.0 |}.

(** A guest reaching an administrator over two hosts, and fanning out. *)
Definition example_graph : Graph.AccessGraph :=
  Graph.add_edge (edge "guest" "mail" 5)
    (Graph.add_edge (edge "db" "admin" 3)
       (Graph.add_edge (edge "web" "db" 2)
          (Graph.add_edge (edge "guest" "web" 1)
             (Graph.add_node "admin" "entity" (Some (0.9 :: repeat 0.0 7))
                (Graph.add_node "guest" "entity"
                   (Some (0.1 :: repeat 0.0 7)) Graph.empty_graph))))).

Definition identity_layer : Detector.GNNLayer :=
  {| Detector.W_self := []; Detector.W_neigh := []; Detector.bias := [] |}.

Definition example_detector : Detector.LateralMovementDetector :=
  {| Detector.graph := example_graph; Detector.hop_threshold := 2;
     Detector.gnn_layer1 := identity_layer;
     Detector.gnn_layer2 := identity_layer;
     Detector.baseline_embeddings := [];
     Detector.anomaly_threshold := 2.0 |}.

End Props.

(** ** More of the code: accessors, stores and reports *)

(** *** Slices *)

Module Slices.

(** [l[-n:]]: the last [n] elements, all of them for [n = 0], and what
    follows the first [-n] for a negative [n]. *)
Definition slice_last {A} (n : Z) (l : list A) : list A :=
  if (n =? 0)%Z then l
  else if (0 <? n)%Z then skipn (length l - Z.to_nat n) l
  else skipn (Z.to_nat (- n)) l.

End Slices.

(** *** access/engine.py: the decision log *)

Module Reports.
Import Context Engine Slices.

Definition decision_stats (e : AccessDecisionEngine) : list (string * Z) :=
  fold_left
    (fun stats d =>
       dict_set String.eqb stats (Decision_value (decision d))
         (dict_get_default String.eqb stats (Decision_value (decision d)) 0
          + 1)%Z)
    (decision_log e)
    [("allow", 0%Z); ("deny", 0%Z); ("challenge", 0%Z); ("restrict", 0%Z)].

Definition recent_decisions (e : AccessDecisionEngine) (n : Z)
  : list (list (string * value)) :=
  map (fun d =>
         [("decision", VStr (Decision_value (decision d)));
          ("confidence", VFloat (confidence d));
          ("risk_level", VFloat (risk_level d));
          ("reasons", VList (map VStr (reasons d)));
          ("entity_id",
           dict_get_default String.eqb (context_summary d) "entity_id"
                            (VStr ""));
          ("resource",
           dict_get_default String.eqb (context_summary d) "resource"
                            (VStr ""))])
      (slice_last n (decision_log e)).

End Reports.

(** *** access/verification.py: session queries *)

Module Sessions.
Import Context Engine Verification.

Definition needs_reverification (now : Q) (v : ContinuousVerifier)
  (entity_id session_id : string) : bool :=
  match dict_get String.eqb (states v)
          (String.append entity_id (String.append ":" session_id)) with
  | None => true
  | Some state => Qgtb (now - last_verified state) (reverify_interval v)
  end.

Definition get_state (v : ContinuousVerifier) (entity_id session_id : string)
  : option (list (string * value)) :=
  match dict_get String.eqb (states v)
          (String.append entity_id (String.append ":" session_id)) with
  | None => None
  | Some state =>
      Some [("entity_id", VStr (vs_entity_id state));
            ("session_id", VStr (vs_session_id state));
            ("current_decision",
             VStr (Decision_value (current_decision state)));
            ("verification_count", VInt (verification_count state));
            ("escalation_count", VInt (escalation_count state));
            ("trust_trend", VStr (_trust_trend state))]
  end.

End Sessions.

(** *** risk/engine.py: the score history *)

Module History.
Import Risk Slices.

Definition get_risk_trend (e : RiskEngine) (entity_id : string) (n : Z)
  : list Q :=
  map composite_score
      (slice_last n
         (dict_get_default String.eqb (risk_history e) entity_id [])).

(** The keys of the components that [calculate] weighs, and the labels
    whose thresholds it reads. *)
Definition component_names : list string :=
  ["behavior"; "device"; "network"; "threat"; "auth"].

Definition level_names : list string := ["critical"; "high"; "medium"; "low"].

(** An engine as [RiskEngine()] keys it: every weight belongs to a
    component and every level has a threshold. *)
Definition well_keyed (e : RiskEngine) : bool :=
  forallb (fun kw => mem (fst kw) component_names) (weights e) &&
  forallb (dict_mem String.eqb (thresholds e)) level_names.

End History.

(** *** policy/models.py and policy/engine.py: rules and the engine *)

Module Rules.
Import Policy.

Inductive PolicyEffect : Type := ALLOW | DENY | CHALLENGE.

Definition PolicyEffect_value (e : PolicyEffect) : string :=
  match e with
  | ALLOW => "allow"
  | DENY => "deny"
  | CHALLENGE => "challenge"
  end.

Definition effect_eqb (a b : PolicyEffect) : bool :=
  String.eqb (PolicyEffect_value a) (PolicyEffect_value b).

Record PolicyRule : Type := {
  rule_id : string;
  rule_description : string;
  effect : PolicyEffect;
  conditions : list PolicyCondition;
  priority : Z;
  rule_enabled : bool
}.

(** [all(c.evaluate(context) for c in conditions)]: the conditions are
    evaluated in order up to the first that is false. *)
Fixpoint all_hold (cs : list PolicyCondition)
  (context : list (string * value)) : outcome bool :=
  match cs with
  | [] => Returned true
  | c :: rest =>
      obind (Policy.evaluate c context) (fun b =>
        if b then all_hold rest context else Returned false)
  end.

Definition rule_evaluate (r : PolicyRule) (context : list (string * value))
  : outcome bool :=
  if negb (rule_enabled r) then Returned false
  else all_hold (conditions r) context.

(** [Policy]; the module of the models has taken the name. *)
Record PolicyT : Type := {
  policy_id : string;
  name : string;
  description : string;
  rules : list PolicyRule;
  enabled : bool;
  tags : list string
}.

Record PolicyEngine : Type := {
  policies : list (string * PolicyT)
}.

Definition new_policy_engine : PolicyEngine := {| policies := [] |}.

Definition add_policy (p : PolicyT) : M PolicyEngine unit :=
  modify (fun e =>
    {| policies := dict_set String.eqb (policies e) (policy_id p) p |}).

(** [d.pop(k, None)] on the dictionary itself. *)
Fixpoint dict_remove {V} (d : list (string * V)) (k : string)
  : list (string * V) :=
  match d with
  | [] => []
  | (k', v) :: r =>
      if String.eqb k' k then r else (k', v) :: dict_remove r k
  end.

Definition remove_policy (policy_id : string) : M PolicyEngine bool :=
  fun e =>
    (Returned (dict_mem String.eqb (policies e) policy_id),
     {| policies := dict_remove (policies e) policy_id |}).

(** The matches of one policy's rules, in rule order. *)
Fixpoint rule_matches (pid : string) (rs : list PolicyRule)
  (context : list (string * value))
  : outcome (list (Z * PolicyRule * string)) :=
  match rs with
  | [] => Returned []
  | r :: rest =>
      obind (rule_evaluate r context) (fun b =>
      obind (rule_matches pid rest context) (fun ms =>
      Returned (if b then (priority r, r, pid) :: ms else ms)))
  end.

(** The matches over the enabled policies, in store order. *)
Fixpoint all_matches (ps : list PolicyT) (context : list (string * value))
  : outcome (list (Z * PolicyRule * string)) :=
  match ps with
  | [] => Returned []
  | p :: rest =>
      obind (if enabled p then rule_matches (policy_id p) (rules p) context
             else Returned [])
            (fun ms =>
      obind (all_matches rest context) (fun ms' => Returned (ms ++ ms')))
  end.

Definition by_priority (a b : Z * PolicyRule * string) : bool :=
  (fst (fst a) <=? fst (fst b))%Z.

Definition evaluate (e : PolicyEngine) (context : list (string * value))
  : outcome (list (string * value)) :=
  obind (all_matches (dict_values (policies e)) context) (fun matches =>
  match matches with
  | [] =>
      Returned [("decision", VStr "deny");
                ("reason", VStr "no_matching_policy");
                ("default_deny", VBool true)]
  | _ =>
      match Graph.sorted by_priority matches with
      | best :: _ =>
          Returned
            [("decision",
              VStr (PolicyEffect_value (effect (snd (fst best)))));
             ("rule_id", VStr (rule_id (snd (fst best))));
             ("policy_id", VStr (snd best));
             ("priority", VInt (fst (fst best)));
             ("description", VStr (rule_description (snd (fst best))));
             ("total_matches", VInt (Z.of_nat (length matches)))]
      | [] => Raised IndexError
      end
  end).

Definition fields_of (cs : list PolicyCondition) : list string :=
  map field cs.

Definition mem (x : string) (l : list string) : bool :=
  existsb (String.eqb x) l.

(** Two [eq] conditions on different values. *)
Definition contradict (a b : PolicyCondition) : bool :=
  String.eqb (operator a) "eq" && String.eqb (operator b) "eq" &&
  negb (py_eq (value_ a) (value_ b)).

Definition _conditions_overlap (conds1 conds2 : list PolicyCondition)
  : bool :=
  let shared :=
    filter (fun f => mem f (fields_of conds2)) (fields_of conds1) in
  match shared with
  | [] => true
  | _ =>
      negb
        (existsb
           (fun f =>
              existsb
                (fun a =>
                   existsb (contradict a)
                           (filter (fun c => String.eqb (field c) f) conds2))
                (filter (fun c => String.eqb (field c) f) conds1))
           shared)
  end.

(** The enabled rules of the enabled policies, with their policy. *)
Definition enabled_rules (e : PolicyEngine) : list (string * PolicyRule) :=
  flat_map
    (fun p =>
       if enabled p then
         map (fun r => (policy_id p, r)) (filter rule_enabled (rules p))
       else [])
    (dict_values (policies e)).

Definition conflict (a b : string * PolicyRule)
  : list (list (string * value)) :=
  let r1 := snd a in
  let r2 := snd b in
  if effect_eqb (effect r1) (effect r2) then []
  else if _conditions_overlap (conditions r1) (conditions r2) then
    [[("rule_1",
       VDict [("policy_id", VStr (fst a)); ("rule_id", VStr (rule_id r1));
              ("effect", VStr (PolicyEffect_value (effect r1)))]);
      ("rule_2",
       VDict [("policy_id", VStr (fst b)); ("rule_id", VStr (rule_id r2));
              ("effect", VStr (PolicyEffect_value (effect r2)))]);
      ("type", VStr "overlapping_conditions_different_effects");
      ("resolved_by", VStr "priority");
      ("winner",
       VStr (if (priority r1 <=? priority r2)%Z then rule_id r1
             else rule_id r2))]]
  else [].

(** Every pair [i < j], in the order of the two loops. *)
Fixpoint pairs {A} (l : list A) : list (A * A) :=
  match l with
  | [] => []
  | x :: r => map (fun y => (x, y)) r ++ pairs r
  end.

Definition detect_conflicts (e : PolicyEngine)
  : list (list (string * value)) :=
  flat_map (fun ab => conflict (fst ab) (snd ab)) (pairs (enabled_rules e)).

End Rules.

(** *** behavioral/baseline.py: decay and summaries *)

Module Decay.
Import Builtins Baseline.

Definition decay_profile (factor : Q) (p : BaselineProfile)
  : BaselineProfile :=
  set_distributions (map (fun x => x * factor) (hour_distribution p))
                    (map (fun x => x * factor) (dow_distribution p)) p.

Definition decay_profiles : M BehavioralBaseline unit :=
  modify (fun b =>
    {| profiles :=
         map (fun kp => (fst kp, decay_profile (decay_factor b) (snd kp)))
             (profiles b);
       decay_factor := decay_factor b |}).

Definition top_resources (p : BaselineProfile) (n : Z)
  : list (value * Z) :=
  Detector.take n
    (Graph.sorted (fun a b => (snd b <=? snd a)%Z) (resource_frequencies p)).

Definition all_entity_ids (b : BehavioralBaseline) : list string :=
  dict_keys (profiles b).

End Decay.

(** *** lateral/graph.py and lateral/detector.py: edges and paths *)

Module Paths.
Import Graph Detector.

Definition get_edges_between (g : AccessGraph) (s d : string)
  : list AccessEdge :=
  dict_get_default String.eqb
    (dict_get_default String.eqb (adjacency g) s []) d [].

(** The counters of [analyze_path]: edges, failures, credential changes
    and the previous credential. *)
Record Tally : Type := {
  total_edges : Z;
  failed_edges : Z;
  credential_changes : Z;
  prev_cred : option string
}.

Definition tally_edge (t : Tally) (e : AccessEdge) : Tally :=
  {| total_edges := total_edges t;
     failed_edges :=
       if success e then failed_edges t else (failed_edges t + 1)%Z;
     credential_changes :=
       match prev_cred t with
       | Some c =>
           if negb (String.eqb c "") && negb (String.eqb (credential_type e) c)
           then (credential_changes t + 1)%Z else credential_changes t
       | None => credential_changes t
       end;
     prev_cred := Some (credential_type e) |}.

Definition tally_hop (g : AccessGraph) (t : Tally) (hop : string * string)
  : Tally :=
  let es := get_edges_between g (fst hop) (snd hop) in
  fold_left tally_edge es
    {| total_edges := (total_edges t + Z.of_nat (length es))%Z;
       failed_edges := failed_edges t;
       credential_changes := credential_changes t;
       prev_cred := prev_cred t |}.

(** [(path[i], path[i + 1])] for [i] in [range(len(path) - 1)] *)
Fixpoint hops (path : list string) : list (string * string) :=
  match path with
  | a :: ((b :: _) as rest) => (a, b) :: hops rest
  | _ => []
  end.

Definition analyze_path (d : LateralMovementDetector) (path : list string)
  : list (string * value) :=
  if (length path <? 2)%nat then
    [("risk", VFloat 0.0); ("reason", VStr "path_too_short")]
  else
    let t :=
      fold_left (tally_hop (graph d)) (hops path)
        {| total_edges := 0; failed_edges := 0; credential_changes := 0;
           prev_cred := None |} in
    let risk :=
      0.0
      + Qmin 0.3 (inject_Z (Z.of_nat (length path)) * 0.05)
      + Qmin 0.3 (inject_Z (credential_changes t) * 0.1)
      + Qmin 0.3 (inject_Z (failed_edges t) * 0.05) in
    [("path", VList (map VStr path));
     ("path_length", VInt (Z.of_nat (length path)));
     ("total_edges", VInt (total_edges t));
     ("credential_changes", VInt (credential_changes t));
     ("failed_attempts", VInt (failed_edges t));
     ("risk_score", VFloat (py_round (Qmin 1.0 risk) 4))].

End Paths.

(** ** Vocabulary of the further properties *)

Module Terms.
Import Context Engine Verification.

(** How often the decision [d] occurs in a decision log. *)
Definition count_decisions (d : Decision) (log : list AccessDecision) : Z :=
  Z.of_nat
    (length
       (filter (fun r => String.eqb (Decision_value (decision r))
                                    (Decision_value d)) log)).

(** The request [c] with its MFA flag set to [b]. *)
Definition with_mfa (b : bool) (c : AccessContext) : AccessContext :=
  {| Context.entity_id := Context.entity_id c; resource := resource c;
     action := action c; source_ip := source_ip c; location := location c;
     hour := hour c; day_of_week := day_of_week c; device := device c;
     behavior_score := behavior_score c; risk_score := risk_score c;
     session_id := session_id c;
     authentication_method := authentication_method c;
     mfa_verified := b; network_zone := network_zone c;
     timestamp := timestamp c; metadata := metadata c |}.

(** The request [c] made by entity [e] in session [s]. *)
Definition with_session (e s : string) (c : AccessContext) : AccessContext :=
  {| Context.entity_id := e; resource := resource c;
     action := action c; source_ip := source_ip c; location := location c;
     hour := hour c; day_of_week := day_of_week c; device := device c;
     behavior_score := behavior_score c; risk_score := risk_score c;
     session_id := s;
     authentication_method := authentication_method c;
     mfa_verified := mfa_verified c; network_zone := network_zone c;
     timestamp := timestamp c; metadata := metadata c |}.

(** A run of [reverify] calls, each with its time and request. *)
Fixpoint reverify_each (calls : list (Q * AccessContext))
  : M ContinuousVerifier unit :=
  match calls with
  | [] => ret tt
  | (now, context) :: rest =>
      bind (reverify now context) (fun _ => reverify_each rest)
  end.

(** Whether a condition holds in a context. *)
Definition holds (context : list (string * value))
  (c : Policy.PolicyCondition) : bool :=
  match Policy.evaluate c context with
  | Returned b => b
  | Raised _ => false
  end.

(** Whether a rule applies: it is enabled and all its conditions hold. *)
Definition matching (context : list (string * value))
  (r : Rules.PolicyRule) : bool :=
  Rules.rule_enabled r && forallb (holds context) (Rules.conditions r).

(** The matching rules of the enabled policies, in store order, each with
    its priority and its policy. *)
Definition candidates (e : Rules.PolicyEngine)
  (context : list (string * value))
  : list (Z * Rules.PolicyRule * string) :=
  flat_map
    (fun p =>
       if Rules.enabled p then
         map (fun r => (Rules.priority r, r, Rules.policy_id p))
             (filter (matching context) (Rules.rules p))
       else [])
    (dict_values (Rules.policies e)).

(** The answer of the policy engine when nothing matches. *)
Definition default_deny : list (string * value) :=
  [("decision", VStr "deny"); ("reason", VStr "no_matching_policy");
   ("default_deny", VBool true)].

(** Values that are neither lists nor dictionaries. *)
Definition scalar (v : value) : bool :=
  match v with VList _ | VDict _ => false | _ => true end.

Definition condition (f op : string) (v : value) : Policy.PolicyCondition :=
  {| Policy.field := f; Policy.operator := op; Policy.value_ := v |}.

Definition rule (id : string) (eff : Rules.PolicyEffect)
  (cs : list Policy.PolicyCondition) (prio : Z) : Rules.PolicyRule :=
  {| Rules.rule_id := id; Rules.rule_description := "";
     Rules.effect := eff; Rules.conditions := cs; Rules.priority := prio;
     Rules.rule_enabled := true |}.

Definition policy (id : string) (rs : list Rules.PolicyRule)
  : Rules.PolicyT :=
  {| Rules.policy_id := id; Rules.name := id; Rules.description := "";
     Rules.rules := rs; Rules.enabled := true; Rules.tags := [] |}.

(** A store with an allow rule for administrators and a catch-all
    challenge of lower priority. *)
Definition example_policies : Rules.PolicyEngine :=
  {| Rules.policies :=
       [("base",
         policy "base"
           [rule "anyone" Rules.CHALLENGE [] 100;
            rule "admins" Rules.ALLOW
                 [condition "role" "eq" (VStr "admin")] 10])] |}.

(** Whether each node of a path is a neighbour of the node before it. *)
Definition linked (g : Graph.AccessGraph) (p : list string) : bool :=
  forallb (fun h => Graph.mem (snd h) (Graph.get_neighbors g (fst h)))
          (Paths.hops p).

(** A detector over two hosts with one feature each, its layers the
    1 x 1 identity, and a baseline learned for the first host. *)
Definition unit_layer : Detector.GNNLayer :=
  {| Detector.W_self := [[1]]; Detector.W_neigh := [[1]];
     Detector.bias := [0] |}.

Definition learned_detector : Detector.LateralMovementDetector :=
  {| Detector.graph :=
       Graph.add_edge (Props.edge "web" "db" 1)
         (Graph.add_node "db" "resource" (Some [0.5])
            (Graph.add_node "web" "entity" (Some [2]) Graph.empty_graph));
     Detector.hop_threshold := 3;
     Detector.gnn_layer1 := unit_layer;
     Detector.gnn_layer2 := unit_layer;
     Detector.baseline_embeddings := [("web", [0])];
     Detector.anomaly_threshold := 2.0 |}.

(** The embedding alerts of that detector, evaluated once. *)
Definition learned_alerts : list Detector.LateralMovementAlert :=
  Eval vm_compute in
  match Detector._detect_embedding_anomalies Props.newton_sqrt
          learned_detector with
  | Returned alerts => alerts
  | Raised _ => []
  end.

(** A step that leaves the profile of [e'] and the decay factor alone,
    whatever it returns or raises. *)
Definition frames {A} (e' : string)
  (m : M Baseline.BehavioralBaseline A) : Prop :=
  forall b,
    Baseline.get_profile (snd (m b)) e' = Baseline.get_profile b e' /\
    Baseline.decay_factor (snd (m b)) = Baseline.decay_factor b.

End Terms.

(** * Properties *)

(** ** Comparisons on rationals *)

Lemma Qltb_lt (x y : Q) : Qltb x y = true <-> x < y.
Proof.
  unfold Qltb. rewrite negb_true_iff.
  split; intro H.
  - apply Qnot_le_lt. intro L. apply Qle_bool_iff in L. congruence.
  - destruct (Qle_bool y x) eqn:E; [|reflexivity].
    apply Qle_bool_iff in E. exfalso. apply (Qlt_not_le _ _ H E).
Qed.

Lemma Qltb_ge (x y : Q) : Qltb x y = false <-> y <= x.
Proof.
  unfold Qltb. rewrite negb_false_iff. apply Qle_bool_iff.
Qed.

Lemma Qltb_mono (t x y : Q) : x <= y -> Qltb t x = true -> Qltb t y = true.
Proof.
  intros L H. apply Qltb_lt in H. apply Qltb_lt. lra.
Qed.

(** ** Dictionaries *)

Lemma dict_get_set_same {V} (d : list (string * V)) (k : string) (v : V) :
  dict_get String.eqb (dict_set String.eqb d k v) k = Some v.
Proof.
  induction d as [|[k' v'] d IH]; simpl.
  - now rewrite String.eqb_refl.
  - destruct (String.eqb k' k) eqn:E; simpl; rewrite E; auto.
Qed.

Lemma dict_get_set_other {V} (d : list (string * V)) (k k' : string) (v : V) :
  k <> k' ->
  dict_get String.eqb (dict_set String.eqb d k v) k' =
  dict_get String.eqb d k'.
Proof.
  intro N. induction d as [|[k0 v0] d IH]; simpl.
  - destruct (String.eqb k k') eqn:E; [|reflexivity].
    apply String.eqb_eq in E. contradiction.
  - destruct (String.eqb k0 k) eqn:E; simpl.
    + apply String.eqb_eq in E. subst k0.
      destruct (String.eqb k k') eqn:E'; [|reflexivity].
      apply String.eqb_eq in E'. contradiction.
    + now rewrite IH.
Qed.

(** ** The access decision engine *)

Section AccessDecisions.
Import Context Engine Verification Props.

(** [evaluate] always returns, and its decision is the first threshold,
    scaled by the sensitivity of the resource, that the trust score misses. *)
Lemma evaluate_decision (now : Q) (ctx : AccessContext)
  (e : AccessDecisionEngine) :
  exists r e',
    evaluate now ctx e = (Returned r, e') /\
    risk_level r = py_round (1.0 - _calculate_trust_score ctx) 4 /\
    decision r =
      let t := _calculate_trust_score ctx in
      let s := dict_get_default String.eqb (resource_sensitivity e)
                                (resource ctx) 0.5 in
      if Qltb t (deny_threshold e * (1 + s * 0.5)) then DENY
      else if Qltb t (challenge_threshold e * (1 + s * 0.3)) then CHALLENGE
      else if Qltb t (restrict_threshold e * (1 + s * 0.2)) then RESTRICT
      else ALLOW.
Proof.
  unfold evaluate, bind, get, put, ret. cbv zeta.
  set (t := _calculate_trust_score ctx).
  set (s := dict_get_default String.eqb (resource_sensitivity e)
                             (resource ctx) 0.5).
  destruct (Qltb t (deny_threshold e * (1 + s * 0.5))).
  { do 2 eexists. split; [reflexivity | split; reflexivity]. }
  destruct (Qltb t (challenge_threshold e * (1 + s * 0.3))).
  { do 2 eexists. split; [reflexivity | split; reflexivity]. }
  destruct (Qltb t (restrict_threshold e * (1 + s * 0.2)));
    do 2 eexists; (split; [reflexivity | split; reflexivity]).
Qed.

Lemma decide_at_value (level now : Q) (ctx : AccessContext)
  (log : list AccessDecision) (sens : list (string * Q)) :
  decide_at level now ctx (default_engine log sens) =
  Returned
    (let t := _calculate_trust_score ctx in
     let s := Qmax 0.0 (Qmin 1.0 level) in
     if Qltb t (0.3 * (1 + s * 0.5)) then DENY
     else if Qltb t (0.5 * (1 + s * 0.3)) then CHALLENGE
     else if Qltb t (0.7 * (1 + s * 0.2)) then RESTRICT
     else ALLOW).
Proof.
  unfold decide_at, set_resource_sensitivity, modify, default_engine.
  cbv beta iota.
  match goal with
  | |- context [evaluate now ctx ?e] =>
      destruct (evaluate_decision now ctx e) as [r [e' [Hr [_ Hd]]]];
      rewrite Hr; unfold fst
  end.
  rewrite Hd. cbv zeta. unfold dict_get_default.
  cbv beta iota delta [resource_sensitivity deny_threshold
                       challenge_threshold restrict_threshold].
  rewrite dict_get_set_same. reflexivity.
Qed.

(** C7. With the default thresholds, the decision for a request is at
    least as strict, in the order ALLOW < RESTRICT < CHALLENGE < DENY,
    when its resource has sensitivity 1.0 as when it has sensitivity 0.0;
    both evaluations return. *)
Theorem sensitivity_monotone (now : Q) (ctx : AccessContext)
  (log : list AccessDecision) (sens : list (string * Q)) :
  exists d0 d1,
    decide_at 0.0 now ctx (default_engine log sens) = Returned d0 /\
    decide_at 1.0 now ctx (default_engine log sens) = Returned d1 /\
    (strictness d0 <= strictness d1)%Z.
Proof.
  rewrite !decide_at_value. do 2 eexists. split; [reflexivity|].
  split; [reflexivity|]. cbv zeta.
  generalize (_calculate_trust_score ctx). intro t.
  assert (Hd : 0.3 * (1 + Qmax 0.0 (Qmin 1.0 0.0) * 0.5)
               <= 0.3 * (1 + Qmax 0.0 (Qmin 1.0 1.0) * 0.5))
    by (apply Qle_bool_iff; vm_compute; reflexivity).
  assert (Hc : 0.5 * (1 + Qmax 0.0 (Qmin 1.0 0.0) * 0.3)
               <= 0.5 * (1 + Qmax 0.0 (Qmin 1.0 1.0) * 0.3))
    by (apply Qle_bool_iff; vm_compute; reflexivity).
  assert (Hr : 0.7 * (1 + Qmax 0.0 (Qmin 1.0 0.0) * 0.2)
               <= 0.7 * (1 + Qmax 0.0 (Qmin 1.0 1.0) * 0.2))
    by (apply Qle_bool_iff; vm_compute; reflexivity).
  revert Hd Hc Hr.
  generalize (0.3 * (1 + Qmax 0.0 (Qmin 1.0 0.0) * 0.5)),
             (0.3 * (1 + Qmax 0.0 (Qmin 1.0 1.0) * 0.5)),
             (0.5 * (1 + Qmax 0.0 (Qmin 1.0 0.0) * 0.3)),
             (0.5 * (1 + Qmax 0.0 (Qmin 1.0 1.0) * 0.3)),
             (0.7 * (1 + Qmax 0.0 (Qmin 1.0 0.0) * 0.2)),
             (0.7 * (1 + Qmax 0.0 (Qmin 1.0 1.0) * 0.2)).
  intros d0 d1 c0 c1 r0 r1 Hd Hc Hr.
  destruct (Qltb t d0) eqn:D0.
  - rewrite (Qltb_mono _ _ _ Hd D0). unfold strictness. lia.
  - destruct (Qltb t c0) eqn:C0.
    + rewrite (Qltb_mono _ _ _ Hc C0).
      destruct (Qltb t d1); unfold strictness; lia.
    + destruct (Qltb t r0) eqn:R0.
      * rewrite (Qltb_mono _ _ _ Hr R0).
        destruct (Qltb t d1), (Qltb t c1); unfold strictness; lia.
      * destruct (Qltb t d1), (Qltb t c1), (Qltb t r1);
          unfold strictness; lia.
Qed.

End AccessDecisions.

(** ** The continuous verifier *)

Section ContinuousVerification.
Import Context Engine Verification Props.

Lemma hd_skipn {A} (d : A) (k : nat) (l : list A) :
  hd d (skipn k l) = nth k l d.
Proof.
  revert l. induction k as [|k IH]; intros [|x l]; simpl; auto.
Qed.

Lemma last_skipn {A} (d : A) (k : nat) (l : list A) :
  (k < length l)%nat -> last (skipn k l) d = last l d.
Proof.
  revert l. induction k as [|k IH]; intros [|x l] H; simpl in *;
    try lia; auto.
  rewrite IH by lia. destruct l; [simpl in H; lia | reflexivity].
Qed.

(** C4, as the code has it. With at least two points of history the trend
    is read from the latest point minus the earliest of the last three:
    below -0.1 "degrading", above 0.1 "improving", otherwise "stable". *)
Theorem trust_trend_latest_minus_earliest (st : VerificationState) :
  (2 <= length (trust_history st))%nat ->
  _trust_trend st =
  trend_of_delta
    (last (trust_history st) 0
     - nth (length (trust_history st) - 3) (trust_history st) 0).
Proof.
  intro H. unfold _trust_trend, last_n, trend_of_delta.
  set (h := trust_history st) in *.
  destruct (length h <? 2)%nat eqn:E1; [apply Nat.ltb_lt in E1; lia|].
  rewrite length_skipn.
  destruct (2 <=? length h - (length h - 3))%nat eqn:E2;
    [|apply Nat.leb_gt in E2; lia].
  rewrite hd_skipn, last_skipn by lia. reflexivity.
Qed.

Lemma trust_trend_latest_minus_earliest_witness :
  _trust_trend (state_with_history [0.5; 0.5; 0.75]) = "improving".
Proof.
  rewrite (trust_trend_latest_minus_earliest
             (state_with_history [0.5; 0.5; 0.75])).
  - reflexivity.
  - simpl. lia.
Defined.

(** C4, as the specification words it, fails: on the history 0.5, 0.5,
    0.75 the mean of the last three is 0.0833 above the earliest, which
    would be "stable", while the code answers "improving". *)
Lemma trust_trend_is_not_by_mean :
  _trust_trend (state_with_history [0.5; 0.5; 0.75])
  <> trend_by_mean [0.5; 0.5; 0.75].
Proof.
  vm_compute. discriminate.
Qed.

Lemma value_ltb_lexical (new old : Decision) :
  String.ltb (Decision_value new) (Decision_value old)
  = (lexical_rank new <? lexical_rank old)%Z.
Proof.
  destruct new, old; reflexivity.
Qed.

(** What [reverify] reports on a session that has a state: [escalated]
    compares the string values of the new and the previous decision. *)
Lemma reverify_escalated (now : Q) (ctx : AccessContext)
  (v : ContinuousVerifier) (st : VerificationState) :
  dict_get String.eqb (states v) (session_key ctx) = Some st ->
  exists r e' res v' st',
    evaluate now ctx (engine v) = (Returned r, e') /\
    reverify now ctx v = (Returned res, v') /\
    sget res "escalated"
      = Some (VBool (lexical_rank (decision r)
                     <? lexical_rank (current_decision st))%Z) /\
    dict_get String.eqb (states v') (session_key ctx) = Some st' /\
    current_decision st' = decision r /\
    escalation_count st' =
      (if (lexical_rank (decision r) <? lexical_rank (current_decision st))%Z
       then escalation_count st + 1 else escalation_count st)%Z.
Proof.
  intro H.
  destruct (evaluate_decision now ctx (engine v)) as [r [e' [Hr _]]].
  unfold reverify, bind, get, on_engine, store_state, modify, ret.
  rewrite H, Hr. rewrite value_ltb_lexical.
  do 5 eexists. split; [reflexivity|]. split; [reflexivity|].
  split; [reflexivity|].
  cbv beta iota delta [states]. rewrite dict_get_set_same.
  split; [reflexivity|]. split; reflexivity.
Qed.

(** C1 at a failing input.  A session opened by a trusted request holds
    ALLOW; re-verified with a distrusted request the new decision is DENY,
    which is stricter, yet [escalated] is false and [escalation_count]
    stays 0. *)
Theorem reverify_allow_then_deny_not_escalated :
  let '(_, v1) := initialize_session 0 trusted_context new_verifier in
  let '(res, v2) := reverify 1 distrusted_context v1 in
  exists fields,
    res = Returned fields /\
    sget fields "previous_decision" = Some (VStr "allow") /\
    sget fields "current_decision" = Some (VStr "deny") /\
    stricter DENY ALLOW = true /\
    sget fields "escalated" = Some (VBool false) /\
    option_map escalation_count
      (dict_get String.eqb (states v2) "alice:s1") = Some 0%Z.
Proof.
  vm_compute. eexists. repeat split.
Qed.

(** The reverse step, DENY relaxed to ALLOW, is the one reported. *)
Lemma reverify_deny_then_allow_escalated :
  let '(_, v1) := initialize_session 0 distrusted_context new_verifier in
  let '(res, v2) := reverify 1 trusted_context v1 in
  exists fields,
    res = Returned fields /\
    sget fields "previous_decision" = Some (VStr "deny") /\
    sget fields "current_decision" = Some (VStr "allow") /\
    sget fields "escalated" = Some (VBool true).
Proof.
  vm_compute. eexists. repeat split.
Qed.

End ContinuousVerification.

(** ** The risk engine *)

Section RiskScores.
Import Risk.

(** C6, as the code has it. With default weights and empty threat
    intelligence, behaviour 0.1, device health 0.95, network trust 0.8,
    authentication strength 0.9 and no source address give the composite
    score 0.085 and the level "low". *)
Theorem low_risk_scenario (now : Q) :
  exists r e',
    calculate now "alice" 0.1 0.95 0.8 "" 0.9 new_risk_engine
      = (Returned r, e') /\
    composite_score r == 0.085 /\
    risk_level r = "low".
Proof.
  remember (calculate now "alice" 0.1 0.95 0.8 "" 0.9 new_risk_engine)
    as p eqn:E.
  vm_compute in E. subst p.
  do 2 eexists. split; [reflexivity|]. split; reflexivity.
Qed.

(** C6, as the specification words it, fails: the composite score is not
    within 0.005 of 0.094. *)
Lemma composite_is_not_0_094 :
  ~ (exists r e',
       calculate 0 "alice" 0.1 0.95 0.8 "" 0.9 new_risk_engine
         = (Returned r, e') /\
       Qabs (composite_score r - 0.094) <= 0.005).
Proof.
  intros [r [e' [H L]]].
  vm_compute in H. injection H as <- _.
  apply Qle_bool_iff in L. vm_compute in L. discriminate.
Qed.

End RiskScores.

(** ** Policy conditions *)

Section PolicyConditions.
Import Policy Props.

Lemma ordering_operator_cases (op : string) :
  ordering_operator op = true ->
  op = "gt" \/ op = "lt" \/ op = "gte" \/ op = "lte".
Proof.
  unfold ordering_operator. simpl. rewrite !orb_true_iff.
  intros [H|[H|[H|[H|H]]]]; try discriminate;
    apply String.eqb_eq in H; auto.
Qed.

Lemma ordering_evaluate (c : PolicyCondition)
  (context : list (string * value)) :
  ordering_operator (operator c) = true ->
  evaluate c context =
  Returned
    (if is_none (vget context (field c)) then false
     else match py_cmp (vget context (field c)) (value_ c) with
          | Some cmp => order_holds (operator c) cmp
          | None => false
          end).
Proof.
  intro H. unfold evaluate.
  destruct (is_none (vget context (field c))); [reflexivity|].
  destruct (ordering_operator_cases _ H) as [E|[E|[E|E]]]; rewrite E;
    cbn [ops dict_get String.eqb Ascii.eqb Bool.eqb];
    unfold py_gt, py_lt, py_ge, py_le, cmp_op, order_holds;
    destruct (py_cmp (vget context (field c)) (value_ c)) as [[]|];
    reflexivity.
Qed.


Lemma py_cmp_numbers (x y : value) (a b : Q) :
  as_number x = Some a -> as_number y = Some b ->
  py_cmp x y = Some (Qcompare a b).
Proof.
  destruct x; simpl; try discriminate; intros [= <-] ->; reflexivity.
Qed.

Lemma py_cmp_mismatch (x y : value) :
  is_number x = negb (is_number y) -> py_cmp x y = None.
Proof.
  unfold is_number.
  destruct x, y; simpl; try reflexivity; discriminate.
Qed.

Lemma order_holds_numeric (op : string) (a v : Q) :
  ordering_operator op = true ->
  order_holds op (Qcompare a v) = numeric_order op a v.
Proof.
  intro H. unfold order_holds, numeric_order.
  assert (Lt_ : Qcompare a v = Lt <-> a < v) by (symmetry; apply Qlt_alt).
  assert (Gt_ : Qcompare a v = Gt <-> v < a) by (symmetry; apply Qgt_alt).
  assert (Eq_ : Qcompare a v = Eq <-> a == v) by (symmetry; apply Qeq_alt).
  destruct (ordering_operator_cases _ H) as [E|[E|[E|E]]]; subst op;
    cbn [String.eqb Ascii.eqb Bool.eqb andb];
    destruct (Qcompare a v);
    repeat match goal with
    | H : _ <-> _ |- _ => destruct H
    end;
    symmetry;
    first [ apply Qltb_lt; auto; fail
          | apply Qltb_ge; try lra;
            try (assert (a == v) by auto; lra);
            try (assert (a < v) by auto; lra);
            try (assert (v < a) by auto; lra); fail
          | apply Qle_bool_iff; try lra;
            try (assert (a == v) by auto; lra);
            try (assert (a < v) by auto; lra);
            try (assert (v < a) by auto; lra); fail
          | apply not_true_is_false; rewrite Qle_bool_iff; intro;
            try (assert (a < v) by auto; lra);
            try (assert (v < a) by auto; lra) ].
Qed.

(** C5, as the code has it. For an ordering operator the evaluation never
    raises; a field that is missing (or None) gives false; two numbers are
    compared numerically; a number against a value that is not a number
    gives false; two strings are compared lexically. *)
Theorem ordering_condition (c : PolicyCondition)
  (context : list (string * value)) :
  ordering_operator (operator c) = true ->
  (exists b, evaluate c context = Returned b) /\
  (vget context (field c) = VNone -> evaluate c context = Returned false) /\
  (forall a v,
     as_number (vget context (field c)) = Some a ->
     as_number (value_ c) = Some v ->
     evaluate c context = Returned (numeric_order (operator c) a v)) /\
  (is_none (vget context (field c)) = false ->
   is_number (vget context (field c)) = negb (is_number (value_ c)) ->
   evaluate c context = Returned false) /\
  (forall s t,
     vget context (field c) = VStr s -> value_ c = VStr t ->
     evaluate c context
     = Returned (order_holds (operator c) (String.compare s t))).
Proof.
  intro H. rewrite (ordering_evaluate c context H).
  split; [eexists; reflexivity|].
  split; [intros ->; reflexivity|].
  split.
  { intros a v Ha Hv.
    destruct (vget context (field c)) eqn:E; try discriminate;
      cbn [is_none]; rewrite <- E in Ha |- *;
      rewrite (py_cmp_numbers _ _ _ _ Ha Hv);
      now rewrite order_holds_numeric. }
  split.
  { intros N M. rewrite N, (py_cmp_mismatch _ _ M). reflexivity. }
  intros s t -> ->. reflexivity.
Qed.

Lemma ordering_condition_witness :
  evaluate {| field := "risk_score"; operator := "gt";
              value_ := VFloat 0.7 |}
           [("risk_score", VFloat 0.9)]
  = Returned true.
Proof.
  destruct (ordering_condition
              {| field := "risk_score"; operator := "gt";
                 value_ := VFloat 0.7 |}
              [("risk_score", VFloat 0.9)] eq_refl)
    as [_ [_ [N _]]].
  exact (N 0.9 0.7 eq_refl eq_refl).
Defined.

(** C5, as the specification words it, fails: two strings under an
    ordering operator are compared lexically, so "a" < "b" matches. *)
Lemma ordering_of_strings_is_lexical :
  evaluate {| field := "name"; operator := "lt"; value_ := VStr "b" |}
           [("name", VStr "a")]
  <> Returned false.
Proof.
  vm_compute. discriminate.
Qed.

End PolicyConditions.

(** ** The baseline observer *)

Section Observation.
Import Builtins Baseline Props.

Lemma bind_returned {S A B} (m : M S A) (k : A -> M S B) (s s' : S) (a : A) :
  m s = (Returned a, s') -> bind m k s = k a s'.
Proof.
  intro H. unfold bind. now rewrite H.
Qed.

Lemma bind_raised {S A B} (m : M S A) (k : A -> M S B) (s s' : S) (e : exn) :
  m s = (Raised e, s') -> bind m k s = (Raised e, s').
Proof.
  intro H. unfold bind. now rewrite H.
Qed.

Lemma mutate_step (b : BehavioralBaseline) (e : string)
  (f : BaselineProfile -> outcome BaselineProfile) (p p' : BaselineProfile) :
  get_profile b e = Some p -> f p = Returned p' ->
  exists b', mutate e f b = (Returned tt, b') /\ get_profile b' e = Some p'.
Proof.
  intros Hp Hf. unfold mutate, profile_of, bind, lift, modify.
  rewrite Hp, Hf. eexists. split; [reflexivity|].
  unfold get_profile. cbn [profiles]. apply dict_get_set_same.
Qed.

Lemma unchanged_stats_refl (p : BaselineProfile) : unchanged_stats p p.
Proof. repeat split. Qed.

Lemma unchanged_stats_trans (p q r : BaselineProfile) :
  unchanged_stats p q -> unchanged_stats q r -> unchanged_stats p r.
Proof.
  unfold unchanged_stats. intuition congruence.
Qed.

Lemma quiet_ret (e : string) : quiet_step (ret tt) e.
Proof.
  intros b p Hp Hs. exists b, p. repeat split; auto; apply Hs.
Qed.

Lemma quiet_mutate (e : string)
  (f : BaselineProfile -> outcome BaselineProfile) :
  (forall p, well_shaped p ->
     exists p', f p = Returned p' /\ well_shaped p' /\ unchanged_stats p p' /\
                feature_stats p' = feature_stats p) ->
  quiet_step (mutate e f) e.
Proof.
  intros Hf b p Hp Hs. destruct (Hf p Hs) as [p' [E [S' [U F]]]].
  destruct (mutate_step b e f p p' Hp E) as [b' [Hm Hg]].
  exists b', p'. auto.
Qed.

(** Counts that a step leaves alone keep their room. *)
Lemma has_room_kept (n : Z) (p p' : BaselineProfile) :
  unchanged_stats p p' -> feature_stats p' = feature_stats p ->
  has_room n p -> has_room n p'.
Proof.
  intros [_ [C _]] F [R1 R2]. unfold has_room. now rewrite C, F.
Qed.

Lemma has_room_less (n m : Z) (p : BaselineProfile) :
  (0 <= m <= n)%Z -> has_room n p -> has_room m p.
Proof.
  intros H [[R0 R1] R2]. split; [unfold count_has_room; lia|].
  eapply Forall_impl; [|exact R2].
  intros s [A B]. unfold count_has_room. lia.
Qed.


Lemma py_cmp_int_number (lo : Z) (v : value) (x : Q) :
  as_number v = Some x ->
  py_cmp (VInt lo) v = Some (Qcompare (inject_Z lo) x).
Proof.
  intro H. apply py_cmp_numbers; auto.
Qed.

Lemma between_number (lo hi : Z) (v : value) (x : Q) :
  as_number v = Some x ->
  exists ok,
    between lo v hi = Returned ok /\
    (ok = true -> inject_Z lo <= x /\ x < inject_Z hi).
Proof.
  intro H. unfold between, py_le, py_lt, cmp_op.
  rewrite (py_cmp_int_number lo v x H).
  rewrite (py_cmp_numbers v (VInt hi) x (inject_Z hi) H eq_refl).
  destruct (Qcompare (inject_Z lo) x) eqn:C1; cbn [obind];
    destruct (Qcompare x (inject_Z hi)) eqn:C2;
    eexists; (split; [reflexivity|]); intro T; try discriminate;
    apply Qlt_alt in C2; split; auto.
  - apply Qeq_alt in C1. lra.
  - apply Qlt_alt in C1. lra.
Qed.

Lemma py_int_in_range (lo hi : Z) (v : value) (x : Q) :
  as_number v = Some x -> (0 <= lo)%Z ->
  inject_Z lo <= x -> x < inject_Z hi ->
  exists h, py_int v = Returned h /\ (lo <= h < hi)%Z.
Proof.
  intros H L0 L U. destruct v; try discriminate; simpl in H;
    injection H as <-.
  - exists (if b then 1 else 0)%Z. split; [reflexivity|].
    destruct b; unfold Qle, Qlt in L, U; simpl in L, U; lia.
  - exists z. split; [reflexivity|].
    unfold Qle, Qlt in L, U; simpl in L, U; lia.
  - exists (Qfloor q). unfold py_int, trunc.
    assert (Z0 : 0 <= q).
    { apply Qle_trans with (inject_Z lo); auto.
      unfold Qle; simpl; lia. }
    apply Qle_bool_iff in Z0. rewrite Z0. split; [reflexivity|]. split.
    + rewrite <- (Qfloor_Z lo). now apply Qfloor_resp_le.
    + rewrite Zlt_Qlt. apply Qle_lt_trans with q; auto. apply Qfloor_le.
Qed.

Lemma array_index_in_range {A} (a : list A) (h : Z) :
  (0 <= h < Z.of_nat (length a))%Z ->
  array_index a h = Returned (Z.to_nat h).
Proof.
  intro H. unfold array_index.
  destruct (0 <=? h)%Z eqn:E1; [|apply Z.leb_gt in E1; lia].
  destruct (h <? Z.of_nat (length a))%Z eqn:E2;
    [reflexivity | apply Z.ltb_ge in E2; lia].
Qed.

Lemma array_add_length (a : list Q) (i : nat) (d : Q) :
  length (array_add a i d) = length a.
Proof.
  revert i. induction a as [|x a IH]; intros [|i]; simpl; auto.
Qed.

Lemma number_not_none (v : value) (x : Q) :
  as_number v = Some x -> is_none v = false.
Proof. destruct v; simpl; congruence. Qed.

Lemma number_or_none_cases (v : value) :
  number_or_none v = true -> v = VNone \/ exists x, as_number v = Some x.
Proof.
  unfold number_or_none, is_number. destruct v; simpl; intro H;
    try discriminate; eauto.
Qed.

Lemma quiet_observe_hour (e : string) (hour : value) :
  number_or_none hour = true -> quiet_step (observe_hour e hour) e.
Proof.
  intro H. unfold observe_hour.
  destruct (number_or_none_cases _ H) as [->|[x Hx]]; [apply quiet_ret|].
  rewrite (number_not_none _ _ Hx). cbn [negb when].
  destruct (between_number 0 24 hour x Hx) as [ok [B R]].
  intros b p Hp Hs. unfold bind at 1. unfold lift. rewrite B.
  destruct ok; [|apply quiet_ret; auto]. cbn [when].
  destruct (R eq_refl) as [L U].
  destruct (py_int_in_range 0 24 hour x Hx (Z.le_refl 0) L U) as [h [I Rh]].
  apply quiet_mutate; auto.
  intros q [Sh Sd]. unfold bump_hour. rewrite I. cbn [obind].
  rewrite array_index_in_range by (rewrite Sh; simpl; lia).
  eexists. split; [reflexivity|]. split.
  - split; cbn [hour_distribution dow_distribution set_distributions]; auto.
    now rewrite array_add_length.
  - repeat split.
Qed.

Lemma quiet_observe_dow (e : string) (dow : value) :
  number_or_none dow = true -> quiet_step (observe_dow e dow) e.
Proof.
  intro H. unfold observe_dow.
  destruct (number_or_none_cases _ H) as [->|[x Hx]]; [apply quiet_ret|].
  rewrite (number_not_none _ _ Hx). cbn [negb when].
  destruct (between_number 0 7 dow x Hx) as [ok [B R]].
  intros b p Hp Hs. unfold bind at 1. unfold lift. rewrite B.
  destruct ok; [|apply quiet_ret; auto]. cbn [when].
  destruct (R eq_refl) as [L U].
  destruct (py_int_in_range 0 7 dow x Hx (Z.le_refl 0) L U) as [h [I Rh]].
  apply quiet_mutate; auto.
  intros q [Sh Sd]. unfold bump_dow. rewrite I. cbn [obind].
  rewrite array_index_in_range by (rewrite Sd; simpl; lia).
  eexists. split; [reflexivity|]. split.
  - split; cbn [hour_distribution dow_distribution set_distributions]; auto.
    now rewrite array_add_length.
  - repeat split.
Qed.

Lemma count_incr_hashable (d : counter) (k : value) :
  hashable k = true -> exists d', count_incr d k = Returned d'.
Proof.
  intro H. unfold count_incr, count_get. rewrite H. cbn [obind]. eauto.
Qed.

Ltac quiet_counter H :=
  match type of H with
  | key_or_falsy ?v = true =>
      unfold key_or_falsy in H;
      destruct (truthy v); [|apply quiet_ret];
      cbn [negb orb when] in *;
      apply quiet_mutate; intros q Sq;
      match goal with
      | |- context [count_incr ?d v] =>
          destruct (count_incr_hashable d v H) as [d' E]; rewrite E
      end;
      cbn [obind]; eexists; split; [reflexivity|];
      split; [exact Sq | repeat split]
  end.

Lemma quiet_observe_resource (e : string) (v : value) :
  key_or_falsy v = true -> quiet_step (observe_resource e v) e.
Proof. intro H. unfold observe_resource. quiet_counter H. Qed.

Lemma quiet_observe_action (e : string) (v : value) :
  key_or_falsy v = true -> quiet_step (observe_action e v) e.
Proof. intro H. unfold observe_action. quiet_counter H. Qed.

Lemma quiet_observe_location (e : string) (v : value) :
  key_or_falsy v = true -> quiet_step (observe_location e v) e.
Proof. intro H. unfold observe_location. quiet_counter H. Qed.

Lemma quiet_observe_source_ip (e : string) (v : value) :
  key_or_falsy v = true -> quiet_step (observe_source_ip e v) e.
Proof. intro H. unfold observe_source_ip. quiet_counter H. Qed.


Lemma finite_number_value (v : value) :
  finite_number v = true ->
  exists x, to_float v = Returned x /\ as_number v = Some x.
Proof.
  unfold finite_number. destruct v; cbn [to_float as_number returns];
    try discriminate; eauto.
  destruct (fits_float z); [eauto | discriminate].
Qed.

Lemma finite_or_none_cases (v : value) :
  finite_or_none v = true ->
  v = VNone \/ exists x, to_float v = Returned x /\ as_number v = Some x.
Proof.
  unfold finite_or_none. intro H. apply orb_true_iff in H as [H|H].
  - left. destruct v; try discriminate. reflexivity.
  - right. now apply finite_number_value.
Qed.

Lemma py_sub_float (v : value) (x m : Q) :
  to_float v = Returned x -> py_sub v (VFloat m) = Returned (x - m).
Proof.
  intro H. destruct v; cbn [to_float] in H; try discriminate;
    unfold py_sub; cbn [to_float obind].
  - now injection H as <-.
  - destruct (fits_float z); [|discriminate]. cbn [obind].
    now injection H as <-.
  - now injection H as <-.
Qed.

Lemma fits_float_positive (k : Z) :
  (0 <= k < float_limit)%Z -> fits_float k = true.
Proof.
  intro H. unfold fits_float. apply Z.ltb_lt. rewrite Z.abs_eq; lia.
Qed.

Lemma float_div_int_positive (x : Q) (k : Z) :
  (0 < k < float_limit)%Z -> float_div_int x k = Returned (x / inject_Z k).
Proof.
  intro H. unfold float_div_int.
  rewrite fits_float_positive by lia. cbn [negb].
  destruct (k =? 0)%Z eqn:E; [apply Z.eqb_eq in E; lia | reflexivity].
Qed.

(** One Welford step on a count with room returns, and uses one
    increment. *)
Lemma welford_returns (mean m2 : Q) (count n : Z) (v : value) (x : Q) :
  to_float v = Returned x -> (0 <= n)%Z -> count_has_room (n + 1) count ->
  exists mean' m2',
    welford mean m2 count v = Returned (mean', m2', (count + 1)%Z) /\
    count_has_room n (count + 1).
Proof.
  intros Hx Hn [R0 R1]. unfold welford.
  rewrite (py_sub_float _ _ _ Hx). cbn [obind].
  rewrite float_div_int_positive by lia. cbn [obind].
  rewrite (py_sub_float _ _ _ Hx). cbn [obind].
  do 2 eexists. split; [reflexivity|]. unfold count_has_room. lia.
Qed.

Lemma dict_set_Forall {V} (P : string * V -> Prop)
  (d : list (string * V)) (k : string) (v : V) :
  Forall P d -> (forall k', P (k', v)) -> Forall P (dict_set String.eqb d k v).
Proof.
  intros H Hv. induction H as [|[k' v'] d Hx Hd IH]; cbn [dict_set].
  - constructor; [apply Hv | constructor].
  - destruct (String.eqb k' k); constructor; auto.
Qed.

Lemma dict_get_Forall {V} (P : string * V -> Prop)
  (d : list (string * V)) (k : string) (v : V) :
  Forall P d -> dict_get String.eqb d k = Some v -> exists k', P (k', v).
Proof.
  intros H. induction H as [|[k' v'] d Hx Hd IH]; cbn [dict_get];
    [discriminate|].
  destruct (String.eqb k' k); [|exact IH].
  intros [= <-]. eauto.
Qed.

(** The features of an event: every value is folded into its running
    statistics, each using one increment of a feature count. *)
Lemma observe_features_effect (e : string) (items : list (string * value)) :
  forallb (fun kv => finite_number (snd kv)) items = true ->
  forall (b : BehavioralBaseline) (p : BaselineProfile) (n : Z),
    (0 <= n)%Z ->
    get_profile b e = Some p -> well_shaped p ->
    has_room (n + Z.of_nat (length items)) p ->
    exists b' p',
      observe_features e items b = (Returned tt, b') /\
      get_profile b' e = Some p' /\ well_shaped p' /\
      unchanged_stats p p' /\ has_room n p'.
Proof.
  induction items as [|[k v] items IH]; intros H b p n Hn Hp Sp Rp.
  - exists b, p. cbn [observe_features length] in *.
    rewrite Z.add_0_r in Rp. split; [reflexivity|]. split; [exact Hp|].
    split; [exact Sp|]. split; [apply unchanged_stats_refl | exact Rp].
  - cbn [forallb snd] in H. apply andb_true_iff in H as [Hv Hr].
    destruct (finite_number_value _ Hv) as [x [Hx _]].
    cbn [observe_features].
    cbn [length] in Rp. rewrite Nat2Z.inj_succ in Rp.
    set (m := (n + Z.of_nat (length items))%Z) in *.
    assert (Rp' : has_room (m + 1) p)
      by (replace (m + 1)%Z with (n + Z.succ (Z.of_nat (length items)))%Z
            by (unfold m; lia); exact Rp).
    assert (Hm : (0 <= m)%Z) by (unfold m; lia).
    destruct (mutate_step b e (fun p => Returned (init_feature k p)) p
                (init_feature k p) Hp eq_refl) as [b1 [E1 G1]].
    rewrite (bind_returned _ _ _ _ _ E1).
    assert (R1 : has_room (m + 1) (init_feature k p)).
    { unfold init_feature. destruct (dict_mem _ _ _); [exact Rp'|].
      destruct Rp' as [Rc Rf]. split; [exact Rc|].
      cbn [feature_stats set_feature_stats].
      apply dict_set_Forall; [exact Rf|].
      intro k'. cbn [snd]. destruct Rc. unfold count_has_room. lia. }
    assert (F : exists p2,
               observe_feature k v (init_feature k p) = Returned p2 /\
               well_shaped p2 /\ unchanged_stats p p2 /\ has_room m p2).
    { unfold observe_feature.
      assert (D : exists mean m2 count,
                 dict_get_default String.eqb
                   (feature_stats (init_feature k p)) k (0.0, 0.0, 0%Z)
                 = (mean, m2, count) /\ count_has_room (m + 1) count).
      { unfold dict_get_default.
        destruct (dict_get String.eqb (feature_stats (init_feature k p)) k)
          as [[[mean m2] count]|] eqn:G.
        - exists mean, m2, count. split; [reflexivity|].
          destruct R1 as [_ Rf].
          destruct (dict_get_Forall _ _ _ _ Rf G) as [k' Pk]. exact Pk.
        - exists 0.0, 0.0, 0%Z. split; [reflexivity|].
          destruct R1 as [[? ?] _]. unfold count_has_room. lia. }
      destruct D as [mean [m2 [count [D Rc]]]]. rewrite D.
      destruct (welford_returns mean m2 count m v x Hx Hm Rc)
        as [mean' [m2' [W Rc']]].
      rewrite W. cbn [obind]. eexists. split; [reflexivity|].
      split; [unfold init_feature; destruct (dict_mem _ _ _); apply Sp|].
      split.
      { unfold init_feature; destruct (dict_mem _ _ _); repeat split. }
      destruct R1 as [[Rs0 Rs1] Rf]. split.
      - cbn [session_count set_feature_stats].
        unfold count_has_room. lia.
      - cbn [feature_stats set_feature_stats].
        apply dict_set_Forall.
        + eapply Forall_impl; [|exact Rf].
          intros s [A B]. unfold count_has_room. lia.
        + intro k'. exact Rc'. }
    destruct F as [p2 [E2 [S2 [U2 R2]]]].
    destruct (mutate_step b1 e _ _ p2 G1 E2) as [b2 [E3 G3]].
    rewrite (bind_returned _ _ _ _ _ E3).
    destruct (IH Hr b2 p2 n Hn G3 S2 R2) as [b' [p' [E' [G' [S' [U' R']]]]]].
    exists b', p'. split; [exact E'|]. split; [exact G'|].
    split; [exact S'|]. split; [|exact R'].
    eapply unchanged_stats_trans; eauto.
Qed.

(** The session step: the count goes up by one, then mean and m2 follow
    Welford's update; an event without a duration leaves all three. *)
Lemma observe_session_effect (e : string) (duration : value)
  (b : BehavioralBaseline) (p : BaselineProfile) (n : Z) :
  finite_or_none duration = true -> (0 <= n)%Z ->
  get_profile b e = Some p -> well_shaped p -> has_room (n + 1) p ->
  exists b' p',
    observe_session e duration b = (Returned tt, b') /\
    get_profile b' e = Some p' /\ well_shaped p' /\ has_room n p' /\
    observation_count p' = observation_count p /\
    match as_number duration with
    | Some x => session_step x p p'
    | None =>
        session_count p' = session_count p /\
        session_duration_mean p' = session_duration_mean p /\
        session_duration_m2 p' = session_duration_m2 p
    end.
Proof.
  intros H Hn Hp Sp Rp. unfold observe_session.
  destruct (finite_or_none_cases _ H) as [->|[x [Hx Ax]]].
  - exists b, p. cbn. repeat split; auto; try apply Sp.
    + destruct Rp as [[? ?] _]. lia.
    + destruct Rp as [[? ?] _]. lia.
    + destruct Rp as [_ Rf]. eapply Forall_impl; [|exact Rf].
      intros s [A B]. unfold count_has_room. lia.
  - rewrite (number_not_none _ _ Ax), Ax. cbn [negb when].
    destruct (mutate_step b e (fun p => Returned (count_session p)) p
                (count_session p) Hp eq_refl) as [b1 [E1 G1]].
    rewrite (bind_returned _ _ _ _ _ E1).
    assert (F : exists p', observe_duration duration (count_session p)
                           = Returned p' /\ well_shaped p' /\
                           has_room n p' /\
                           observation_count p' = observation_count p /\
                           session_step x p p').
    { unfold observe_duration.
      cbn [session_duration_mean session_duration_m2 session_count
           count_session set_session].
      destruct Rp as [[R0 R1] Rf].
      rewrite (py_sub_float _ _ _ Hx). cbn [obind].
      rewrite float_div_int_positive by lia. cbn [obind].
      rewrite (py_sub_float _ _ _ Hx). cbn [obind].
      eexists. split; [reflexivity|]. split; [apply Sp|]. split.
      - split.
        + cbn [session_count set_session]. unfold count_has_room. lia.
        + cbn [feature_stats set_session count_session].
          eapply Forall_impl; [|exact Rf].
          intros s [A B]. unfold count_has_room. lia.
      - repeat split. }
    destruct F as [p' [E2 [S2 [R2 [O2 W2]]]]].
    destruct (mutate_step b1 e _ _ p' G1 E2) as [b2 [E3 G3]].
    exists b2, p'. auto 10.
Qed.

Lemma get_or_create_profile_effect (now : Q) (e : string)
  (event : list (string * value)) (b : BehavioralBaseline) :
  exists b0,
    get_or_create_profile now e
      (dict_get_default String.eqb event "entity_type" (VStr "user")) b
    = (Returned tt, b0) /\
    get_profile b0 e = Some (starting_profile now e event b).
Proof.
  unfold get_or_create_profile, modify, starting_profile, dict_mem,
    get_profile.
  destruct (dict_get String.eqb (profiles b) e) eqn:E;
    eexists; (split; [reflexivity|]); auto.
  cbn [profiles]. apply dict_get_set_same.
Qed.

(** Shape and room of the profile [observe] starts from do not depend on
    the time or the event of the call. *)
Lemma well_shaped_store_start (n : Z) (b : BehavioralBaseline) (e : string)
  (now : Q) (event : list (string * value)) :
  well_shaped_store n b e ->
  well_shaped (starting_profile now e event b) /\
  has_room n (starting_profile now e event b).
Proof.
  unfold well_shaped_store, starting_profile.
  destruct (get_profile b e); auto.
Qed.

Lemma well_shaped_store_stored (n : Z) (b : BehavioralBaseline) (e : string)
  (p : BaselineProfile) :
  get_profile b e = Some p -> well_shaped p -> has_room n p ->
  well_shaped_store n b e.
Proof.
  intros G S R. unfold well_shaped_store, starting_profile. now rewrite G.
Qed.

(** The quiet steps keep the room of the counts. *)
Lemma quiet_room (m : M BehavioralBaseline unit) (e : string)
  (b : BehavioralBaseline) (p : BaselineProfile) (n : Z) :
  quiet_step m e -> get_profile b e = Some p -> well_shaped p ->
  has_room n p ->
  exists b' p',
    m b = (Returned tt, b') /\ get_profile b' e = Some p' /\
    well_shaped p' /\ unchanged_stats p p' /\ has_room n p'.
Proof.
  intros Q G S R. destruct (Q b p G S) as [b' [p' [E [G' [S' [U F]]]]]].
  exists b', p'. repeat split; auto; try apply S'; try apply U.
  all: eapply has_room_kept; eauto.
Qed.

(** What one call of [observe] does on a well-typed event: [n] is the
    room that is left afterwards. *)
Lemma observe_effect (now : Q) (e : string) (event : list (string * value))
  (b : BehavioralBaseline) (n : Z) :
  (0 <= n)%Z ->
  well_shaped_store (n + updates [(now, event)]) b e ->
  well_typed_event event = true ->
  exists p' b',
    observe now e event b = (Returned p', b') /\
    get_profile b' e = Some p' /\ well_shaped p' /\ has_room n p' /\
    observation_count p' =
      (observation_count (starting_profile now e event b) + 1)%Z /\
    session_effect event (starting_profile now e event b) p'.
Proof.
  intros Hn Wb Wt. unfold well_typed_event in Wt.
  repeat (apply andb_true_iff in Wt as [Wt ?]).
  destruct (get_or_create_profile_effect now e event b) as [b0 [E0 G0]].
  destruct (well_shaped_store_start _ _ _ now event Wb) as [S0 R0].
  set (p0 := starting_profile now e event b) in *.
  unfold updates in R0. cbn [length flat_map snd] in R0.
  rewrite app_nil_r in R0.
  set (k := Z.of_nat (length (feature_items event))) in *.
  assert (R0' : has_room (n + k + 1) p0).
  { eapply has_room_less; [|exact R0]. unfold k. lia. }
  clear R0.
  unfold observe. rewrite (bind_returned _ _ _ _ _ E0).
  destruct (mutate_step b0 e (fun p => Returned (observed now p)) p0
              (observed now p0) G0 eq_refl) as [b1 [E1 G1]].
  unfold observe_count. rewrite (bind_returned _ _ _ _ _ E1).
  assert (S1 : well_shaped (observed now p0)) by exact S0.
  assert (R1 : has_room (n + k + 1) (observed now p0)) by exact R0'.
  destruct (quiet_room _ e b1 _ _ (quiet_observe_hour e _ Wt) G1 S1 R1)
    as [b2 [p2 [E2 [G2 [S2 [U2 R2]]]]]].
  rewrite (bind_returned _ _ _ _ _ E2).
  destruct (quiet_room _ e b2 _ _
              (quiet_observe_dow e (vget event "day_of_week")
                 ltac:(assumption)) G2 S2 R2)
    as [b3 [p3 [E3 [G3 [S3 [U3 R3]]]]]].
  rewrite (bind_returned _ _ _ _ _ E3).
  destruct (quiet_room _ e b3 _ _
              (quiet_observe_resource e (vget event "resource")
                 ltac:(assumption)) G3 S3 R3)
    as [b4 [p4 [E4 [G4 [S4 [U4 R4]]]]]].
  rewrite (bind_returned _ _ _ _ _ E4).
  destruct (quiet_room _ e b4 _ _
              (quiet_observe_action e (vget event "action")
                 ltac:(assumption)) G4 S4 R4)
    as [b5 [p5 [E5 [G5 [S5 [U5 R5]]]]]].
  rewrite (bind_returned _ _ _ _ _ E5).
  destruct (observe_session_effect e (vget event "session_duration")
              b5 p5 (n + k) ltac:(assumption) ltac:(unfold k; lia) G5 S5 R5)
    as [b6 [p6 [E6 [G6 [S6 [R6 [O6 W6]]]]]]].
  rewrite (bind_returned _ _ _ _ _ E6).
  destruct (quiet_room _ e b6 _ _
              (quiet_observe_location e (vget event "location")
                 ltac:(assumption)) G6 S6 R6)
    as [b7 [p7 [E7 [G7 [S7 [U7 R7]]]]]].
  rewrite (bind_returned _ _ _ _ _ E7).
  destruct (quiet_room _ e b7 _ _
              (quiet_observe_source_ip e (vget event "source_ip")
                 ltac:(assumption)) G7 S7 R7)
    as [b8 [p8 [E8 [G8 [S8 [U8 R8]]]]]].
  rewrite (bind_returned _ _ _ _ _ E8).
  assert (F : exists b9 p9,
             observe_all_features e
               (dict_get_default String.eqb event "features" (VDict [])) b8
             = (Returned tt, b9) /\
             get_profile b9 e = Some p9 /\ well_shaped p9 /\
             unchanged_stats p8 p9 /\ has_room n p9).
  { unfold k, feature_items in R8.
    match goal with
    | Hf : numeric_features ?f = true |- _ =>
        unfold numeric_features in Hf; destruct f; try discriminate Hf;
        exact (observe_features_effect e d Hf b8 p8 n Hn G8 S8 R8)
    end. }
  destruct F as [b9 [p9 [E9 [G9 [S9 [U9 R9]]]]]].
  rewrite (bind_returned _ _ _ _ _ E9).
  exists p9, b9. unfold profile_of. rewrite G9.
  split; [reflexivity|]. split; [reflexivity|]. split; [exact S9|].
  split; [exact R9|].
  pose proof (unchanged_stats_trans _ _ _
                (unchanged_stats_trans _ _ _ U2 U3)
                (unchanged_stats_trans _ _ _ U4 U5)) as Ua.
  pose proof (unchanged_stats_trans _ _ _
                (unchanged_stats_trans _ _ _ U7 U8) U9) as Ub.
  destruct Ua as [Oa [Ca [Ma Qa]]]. destruct Ub as [Ob [Cb [Mb Qb]]].
  cbn [observation_count session_count session_duration_mean
       session_duration_m2 observed] in Oa, Ca, Ma, Qa.
  split; [congruence|].
  unfold session_effect, session_step in *.
  destruct (as_number (vget event "session_duration")).
  - destruct W6 as [W1 [W2 W3]].
    rewrite Cb, Mb, Qb, W1, W3, W2, Ca, Ma, Qa. repeat split.
  - destruct W6 as [W1 [W2 W3]].
    rewrite Cb, Mb, Qb, W1, W2, W3, Ca, Ma, Qa. repeat split.
Qed.

End Observation.

(** ** Welford's running statistics *)

Section Welford.
Import Builtins Baseline Props.

Lemma fold_plus_shift (l : list Q) (a : Q) :
  fold_left Qplus l a == a + fold_left Qplus l 0.
Proof.
  revert a. induction l as [|x l IH]; intro a; simpl.
  - ring.
  - rewrite (IH (a + x)), (IH (0 + x)). ring.
Qed.

Lemma Qsum_cons (x : Q) (l : list Q) : Qsum (x :: l) == x + Qsum l.
Proof.
  unfold Qsum. simpl. rewrite fold_plus_shift. ring.
Qed.

Lemma Qsum_snoc (l : list Q) (x : Q) : Qsum (l ++ [x]) = Qsum l + x.
Proof.
  unfold Qsum. now rewrite fold_left_app.
Qed.

Lemma Qsum_app (l m : list Q) : Qsum (l ++ m) == Qsum l + Qsum m.
Proof.
  unfold Qsum. rewrite fold_left_app. apply fold_plus_shift.
Qed.

Lemma sum_sq_snoc (l : list Q) (x : Q) : sum_sq (l ++ [x]) = sum_sq l + x * x.
Proof.
  unfold sum_sq. rewrite map_app. apply Qsum_snoc.
Qed.

(** Sum of squared deviations from any centre, by the sums of the data. *)
Lemma sum_sq_dev_expand (m : Q) (l : list Q) :
  sum_sq_dev m l ==
  sum_sq l - 2 * m * Qsum l + inject_Z (Z.of_nat (length l)) * m * m.
Proof.
  unfold sum_sq_dev, sum_sq. induction l as [|x l IH].
  - simpl. unfold Qsum. simpl. ring.
  - cbn [map length]. rewrite !Qsum_cons, IH.
    rewrite Nat2Z.inj_succ, <- Z.add_1_r, inject_Z_plus. ring.
Qed.

Lemma welford_mean_step (n mean s1 x : Q) :
  0 <= n -> mean * n == s1 ->
  (mean + (x - mean) / (n + 1)) * (n + 1) == s1 + x.
Proof.
  intros Hn H. rewrite <- H. field. lra.
Qed.

Lemma welford_m2_step (n mean m2 s1 s2 x : Q) :
  0 <= n -> mean * n == s1 -> m2 == s2 - s1 * s1 / n ->
  m2 + (x - mean) * (x - (mean + (x - mean) / (n + 1)))
  == s2 + x * x - (s1 + x) * (s1 + x) / (n + 1).
Proof.
  intros Hn H1 H2.
  destruct (Qeq_dec n 0) as [Z|NZ].
  - assert (S : s1 == 0) by (rewrite <- H1, Z; ring).
    rewrite H2, Z, S.
    setoid_replace (0 * 0 / 0) with 0 by reflexivity. field.
  - rewrite H2, <- H1. field. split; lra.
Qed.

Lemma nat_Q_nonneg (k : nat) : 0 <= inject_Z (Z.of_nat k).
Proof.
  change 0 with (inject_Z 0). rewrite <- Zle_Qle. lia.
Qed.

(** One duration more keeps Welford's state. *)
Lemma welford_state_step (ds : list Q) (x : Q) (p p' : BaselineProfile) :
  welford_state ds p -> session_step x p p' -> welford_state (ds ++ [x]) p'.
Proof.
  unfold welford_state, session_step. cbv zeta.
  intros [C [M V]] [C' [M' V']].
  rewrite length_app, Nat.add_1_r, Nat2Z.inj_succ, <- Z.add_1_r.
  rewrite inject_Z_plus. change (inject_Z 1) with 1.
  rewrite C in C', M'. rewrite inject_Z_plus in M'.
  change (inject_Z 1) with 1 in M'.
  set (n := inject_Z (Z.of_nat (length ds))) in *.
  pose proof (nat_Q_nonneg (length ds)) as Hn. fold n in Hn.
  split; [exact C'|]. rewrite Qsum_snoc, sum_sq_snoc. split.
  - rewrite M'. now apply welford_mean_step.
  - rewrite V', M'. now apply welford_m2_step.
Qed.


Lemma starting_profile_stored (now : Q) (e : string)
  (event : list (string * value)) (b : BehavioralBaseline)
  (p : BaselineProfile) :
  get_profile b e = Some p -> starting_profile now e event b = p.
Proof.
  intro H. unfold starting_profile. now rewrite H.
Qed.

Lemma updates_cons (c : Q * list (string * value))
  (calls : list (Q * list (string * value))) :
  updates (c :: calls) = (updates calls + updates [c])%Z.
Proof.
  unfold updates. cbn [length flat_map]. rewrite app_nil_r, length_app. lia.
Qed.

Lemma updates_nonneg (calls : list (Q * list (string * value))) :
  (0 <= updates calls)%Z.
Proof. unfold updates. lia. Qed.

(** Welford's state is kept along any sequence of well-typed calls. *)
Lemma observe_each_welford (e : string)
  (calls : list (Q * list (string * value))) :
  forallb (fun c => well_typed_event (snd c)) calls = true ->
  forall (b : BehavioralBaseline) (ds : list Q) (n : Z),
    (0 <= n)%Z ->
    well_shaped_store (n + updates calls) b e ->
    (forall now ev, welford_state ds (starting_profile now e ev b)) ->
    exists b',
      observe_each e calls b = (Returned tt, b') /\
      well_shaped_store n b' e /\
      (forall now ev,
         welford_state (ds ++ durations calls)
                       (starting_profile now e ev b')) /\
      (calls <> [] -> exists p, get_profile b' e = Some p).
Proof.
  induction calls as [|[now event] calls IH]; intros Wt b ds n Hn Wb Ws.
  - exists b. cbn [observe_each durations flat_map]. rewrite app_nil_r.
    split; [reflexivity|]. split.
    { unfold updates in Wb. cbn [length flat_map Nat.add Z.of_nat] in Wb.
      now rewrite Z.add_0_r in Wb. }
    split; [exact Ws|].
    intro N. now contradiction N.
  - cbn [forallb snd] in Wt. apply andb_true_iff in Wt as [Wt Wr].
    rewrite updates_cons, Z.add_assoc in Wb.
    pose proof (updates_nonneg calls) as U.
    destruct (observe_effect now e event b (n + updates calls)
                ltac:(lia) Wb Wt)
      as [p1 [b1 [E1 [G1 [S1 [R1 [_ F1]]]]]]].
    assert (Wb1 : well_shaped_store (n + updates calls) b1 e)
      by (eapply well_shaped_store_stored; eauto).
    assert (Ws1 : forall now' ev',
               welford_state
                 (ds ++ match as_number (vget event "session_duration") with
                        | Some x => [x]
                        | None => []
                        end)
                 (starting_profile now' e ev' b1)).
    { intros now' ev'. rewrite (starting_profile_stored _ _ _ _ _ G1).
      specialize (Ws now event). unfold session_effect in F1.
      destruct (as_number (vget event "session_duration")) as [x|].
      - eapply welford_state_step; eauto.
      - rewrite app_nil_r. destruct F1 as [C [M V]].
        unfold welford_state in *. now rewrite C, M, V. }
    destruct (IH Wr b1 _ n Hn Wb1 Ws1) as [b' [E' [Wb' [Ws' P']]]].
    exists b'. cbn [observe_each].
    rewrite (bind_returned _ _ _ _ _ E1). split; [exact E'|].
    split; [exact Wb'|]. split.
    + intros now' ev'. specialize (Ws' now' ev').
      cbn [durations flat_map snd]. fold (durations calls).
      now rewrite <- app_assoc in Ws'.
    + intros _.
      destruct calls as [|c calls'].
      * cbn [observe_each] in E'. unfold ret in E'.
        injection E' as <-. eauto.
      * apply P'. discriminate.
Qed.

Lemma welford_state_mean (ds : list Q) (p : BaselineProfile) :
  welford_state ds p -> (1 <= length ds)%nat ->
  session_duration_mean p == arithmetic_mean ds.
Proof.
  intros [_ [M _]] H. unfold arithmetic_mean.
  assert (0 < inject_Z (Z.of_nat (length ds))).
  { change 0 with (inject_Z 0). rewrite <- Zlt_Qlt. lia. }
  rewrite <- M. field. lra.
Qed.

Lemma welford_state_m2 (ds : list Q) (p : BaselineProfile) :
  welford_state ds p -> (1 <= length ds)%nat ->
  session_duration_m2 p == sum_sq_dev (arithmetic_mean ds) ds.
Proof.
  intros [_ [_ V]] H. rewrite sum_sq_dev_expand, V. unfold arithmetic_mean.
  assert (0 < inject_Z (Z.of_nat (length ds))).
  { change 0 with (inject_Z 0). rewrite <- Zlt_Qlt. lia. }
  field. lra.
Qed.

Lemma fresh_store_has_room (n : Z) (b : BehavioralBaseline) (e : string) :
  get_profile b e = None -> (0 <= n < float_limit)%Z ->
  well_shaped_store n b e.
Proof.
  intros G H. unfold well_shaped_store, starting_profile. rewrite G.
  split; [split; reflexivity|]. split.
  - cbn [session_count new_profile]. unfold count_has_room. lia.
  - constructor.
Qed.

Lemma variance_returns (p : BaselineProfile) :
  (0 <= session_count p <= float_limit)%Z ->
  session_duration_variance p = Returned (variance p).
Proof.
  intro H. unfold session_duration_variance, variance.
  destruct (session_count p <? 2)%Z eqn:L; [reflexivity|].
  apply Z.ltb_ge in L. apply float_div_int_positive. lia.
Qed.

(** C8, as the code has it. After the calls of [observe] for one entity,
    starting without a profile, on well-typed events carrying the
    durations d1..dn, with fewer updates than a count can take: over exact
    arithmetic the session count is n, the mean is the arithmetic mean,
    and m2/(n-1), which [session_duration_variance] returns, is the sample
    variance. *)
Theorem welford_mean_and_variance (e : string)
  (calls : list (Q * list (string * value))) (b : BehavioralBaseline) :
  get_profile b e = None ->
  forallb (fun c => well_typed_event (snd c)) calls = true ->
  (updates calls < float_limit)%Z ->
  calls <> [] ->
  exists b' p,
    observe_each e calls b = (Returned tt, b') /\
    get_profile b' e = Some p /\
    let ds := durations calls in
    session_count p = Z.of_nat (length ds) /\
    ((1 <= length ds)%nat ->
     session_duration_mean p == arithmetic_mean ds) /\
    ((2 <= length ds)%nat ->
     session_duration_m2 p / inject_Z (Z.of_nat (length ds) - 1)
       == sample_variance ds /\
     exists v,
       session_duration_variance p = Returned v /\ v == sample_variance ds).
Proof.
  intros Hn Wt Hu Ne.
  pose proof (updates_nonneg calls) as U.
  assert (Wb : well_shaped_store (0 + updates calls) b e)
    by (apply fresh_store_has_room; [exact Hn | lia]).
  assert (Ws : forall now ev,
             welford_state [] (starting_profile now e ev b)).
  { intros now ev. unfold starting_profile. rewrite Hn.
    repeat split; reflexivity. }
  destruct (observe_each_welford e calls Wt b [] 0 (Z.le_refl 0) Wb Ws)
    as [b' [E [Wb' [W P]]]].
  destruct (P Ne) as [p Hp]. exists b', p.
  split; [exact E|]. split; [exact Hp|]. cbv zeta.
  specialize (W 0 []). rewrite (starting_profile_stored _ _ _ _ _ Hp) in W.
  cbn [app] in W. split; [apply W|]. split.
  - now apply welford_state_mean.
  - intro H2.
    assert (V : session_duration_m2 p
                / inject_Z (Z.of_nat (length (durations calls)) - 1)
                == sample_variance (durations calls)).
    { unfold sample_variance.
      rewrite (welford_state_m2 _ _ W) by lia. reflexivity. }
    split; [exact V|].
    exists (variance p). split.
    + apply variance_returns.
      destruct (well_shaped_store_start _ _ _ 0 [] Wb') as [_ [[R0 R1] _]].
      rewrite (starting_profile_stored _ _ _ _ _ Hp) in R0, R1. lia.
    + unfold variance. destruct W as [C _]. rewrite C.
      destruct (Z.of_nat (length (durations calls)) <? 2)%Z eqn:L;
        [apply Z.ltb_lt in L; lia | exact V].
Qed.

Lemma welford_mean_and_variance_witness :
  exists b' p,
    observe_each "alice"
      [(0, [("session_duration", VInt 2)]);
       (1, [("hour", VInt 9); ("session_duration", VFloat 4)]);
       (2, [("resource", VStr "db")]);
       (3, [("session_duration", VInt 9)])] new_baseline
    = (Returned tt, b') /\
    get_profile b' "alice" = Some p /\
    session_duration_mean p == 5 /\
    exists v, session_duration_variance p = Returned v /\ v == 13.
Proof.
  destruct (welford_mean_and_variance "alice"
              [(0, [("session_duration", VInt 2)]);
               (1, [("hour", VInt 9); ("session_duration", VFloat 4)]);
               (2, [("resource", VStr "db")]);
               (3, [("session_duration", VInt 9)])] new_baseline
              eq_refl eq_refl eq_refl ltac:(discriminate))
    as [b' [p [E [G [_ [M V]]]]]].
  exists b', p. split; [exact E|]. split; [exact G|]. split.
  - rewrite (M ltac:(simpl; lia)). reflexivity.
  - destruct (V ltac:(simpl; lia)) as [_ [v [Ev V']]].
    exists v. split; [exact Ev|]. rewrite V'. reflexivity.
Defined.

(** C8, as the specification words it, fails under floating point.  On
    doubles the durations 100000001, 100000002 and 100000004 leave a
    variance that misses their sample variance, 7/3, by more than 6e-9:
    six times the tolerance of 1e-9. *)
Lemma binary64_variance_misses_tolerance :
  exists v,
    Binary64.exact
      (Binary64.session_duration_variance
         (fold_left Binary64.observe_duration Binary64.long_sessions
                    Binary64.new_profile))
    = Some v /\
    sample_variance (map inject_Z Binary64.long_sessions) == 7 # 3 /\
    6e-9 < Qabs (v - sample_variance (map inject_Z Binary64.long_sessions)).
Proof.
  eexists. split; [vm_compute; reflexivity|].
  split; vm_compute; reflexivity.
Qed.

End Welford.

(** ** Totality of the observer *)

Section ObserveTotality.
Import Builtins Baseline Props.

Lemma vget_unknown (k k' : string) (v : value)
  (event : list (string * value)) :
  String.eqb k k' = false -> vget ((k, v) :: event) k' = vget event k'.
Proof.
  intro H. unfold vget, dict_get_default. cbn [dict_get]. now rewrite H.
Qed.

Lemma get_default_unknown (k k' : string) (v d : value)
  (event : list (string * value)) :
  String.eqb k k' = false ->
  dict_get_default String.eqb ((k, v) :: event) k' d
  = dict_get_default String.eqb event k' d.
Proof.
  intro H. unfold dict_get_default. cbn [dict_get]. now rewrite H.
Qed.

(** An hour that is neither [None] nor a number stops [observe] at the
    comparison [0 <= hour]: the observation has been counted, and nothing
    else of the event is recorded. *)
Lemma observe_malformed_hour (now : Q) (e : string)
  (event : list (string * value)) (b : BehavioralBaseline) :
  number_or_none (vget event "hour") = false ->
  exists b',
    observe now e event b = (Raised TypeError, b') /\
    get_profile b' e = Some (observed now (starting_profile now e event b)).
Proof.
  intro H.
  destruct (get_or_create_profile_effect now e event b) as [b0 [E0 G0]].
  unfold observe. rewrite (bind_returned _ _ _ _ _ E0).
  destruct (mutate_step b0 e (fun p => Returned (observed now p)) _
              (observed now (starting_profile now e event b)) G0 eq_refl)
    as [b1 [E1 G1]].
  unfold observe_count. rewrite (bind_returned _ _ _ _ _ E1).
  exists b1. split; [|exact G1].
  apply bind_raised. unfold observe_hour.
  unfold number_or_none, is_number in H.
  destruct (vget event "hour"); try discriminate H; reflexivity.
Qed.

(** C2, as the code has it. When the profile that [observe] finds or
    creates has its array shapes and room in its counts, [observe] returns
    for every event whose known fields are well typed, with the
    observation counted; a key that [observe] does not know changes
    nothing; and an hour that is neither [None] nor a number raises
    [TypeError] once the observation is counted, before any other field is
    recorded. *)
Theorem observe_total_on_well_typed_events (now : Q) (e : string)
  (event : list (string * value)) (b : BehavioralBaseline) :
  (well_shaped_store (updates [(now, event)]) b e ->
   well_typed_event event = true ->
   exists p' b',
     observe now e event b = (Returned p', b') /\
     get_profile b' e = Some p' /\
     observation_count p' =
       (observation_count (starting_profile now e event b) + 1)%Z) /\
  (forall k v,
     existsb (String.eqb k) known_keys = false ->
     observe now e ((k, v) :: event) b = observe now e event b) /\
  (number_or_none (vget event "hour") = false ->
   exists b',
     observe now e event b = (Raised TypeError, b') /\
     get_profile b' e
       = Some (observed now (starting_profile now e event b))).
Proof.
  split; [|split].
  - intros Wb Wt.
    destruct (observe_effect now e event b 0 (Z.le_refl 0) Wb Wt)
      as [p' [b' [E [G [_ [_ [O _]]]]]]].
    exists p', b'. auto.
  - intros k v H. unfold known_keys in H. cbn [existsb] in H.
    repeat (apply orb_false_iff in H as [? H]).
    unfold observe.
    rewrite !vget_unknown, !get_default_unknown by assumption.
    reflexivity.
  - apply observe_malformed_hour.
Qed.

Lemma observe_total_on_well_typed_events_witness :
  (exists p' b',
     observe 0 "alice"
       [("hour", VInt 9); ("resource", VStr "db");
        ("session_duration", VFloat 30);
        ("features", VDict [("n", VInt 3)])]
       new_baseline
     = (Returned p', b') /\
     get_profile b' "alice" = Some p' /\
     observation_count p' = 1%Z) /\
  (exists b',
     observe 0 "alice" [("hour", VList []); ("resource", VStr "db")]
             new_baseline
     = (Raised TypeError, b') /\
     option_map resource_frequencies (get_profile b' "alice") = Some []).
Proof.
  split.
  - refine (proj1 (observe_total_on_well_typed_events 0 "alice"
                     [("hour", VInt 9); ("resource", VStr "db");
                      ("session_duration", VFloat 30);
                      ("features", VDict [("n", VInt 3)])]
                     new_baseline) _ eq_refl).
    apply fresh_store_has_room; [reflexivity | split; [discriminate|]].
    reflexivity.
  - destruct (proj2 (proj2 (observe_total_on_well_typed_events 0 "alice"
                              [("hour", VList []); ("resource", VStr "db")]
                              new_baseline)) eq_refl) as [b' [E G]].
    exists b'. split; [exact E|]. rewrite G. reflexivity.
Defined.

(** C2, as the specification words it, fails: an hour that is a string
    raises [TypeError], and the resource of the same event is not
    counted. *)
Lemma observe_raises_on_malformed_hour :
  let '(r, b') :=
    observe 0 "alice" [("hour", VStr "abc"); ("resource", VStr "db")]
            new_baseline in
  r = Raised TypeError /\
  option_map resource_frequencies (get_profile b' "alice") = Some [].
Proof.
  vm_compute. split; reflexivity.
Qed.

End ObserveTotality.

(** ** The anomaly detector *)

Section AnomalyDetection.
Import Builtins Baseline Anomaly Props.

Variable math_sqrt : Q -> Q.
Variable math_exp : Q -> Q.

Lemma analyze_state (e : string) (event : list (string * value))
  (d : AnomalyDetector) :
  snd (analyze math_sqrt math_exp e event d) = d.
Proof.
  unfold analyze, bind, get, ret, lift.
  destruct (get_profile (baseline d) e) as [p|]; [|reflexivity].
  destruct (observation_count p <? 10)%Z; [reflexivity|].
  destruct (components math_sqrt math_exp p event) as [[s dt]|x];
    reflexivity.
Qed.

Lemma analyze_batch_state (e : string)
  (events : list (list (string * value))) (d : AnomalyDetector) :
  snd (analyze_batch math_sqrt math_exp e events d) = d.
Proof.
  induction events as [|event events IH]; [reflexivity|].
  cbn [analyze_batch]. unfold bind at 1.
  pose proof (analyze_state e event d) as A.
  destruct (analyze math_sqrt math_exp e event d) as [[r|x] d1];
    cbn [snd] in A; subst d1; [|reflexivity].
  unfold bind at 1.
  destruct (analyze_batch math_sqrt math_exp e events d) as [[rs|x] d2];
    cbn [snd] in IH; subst d2; reflexivity.
Qed.

(** C10. [analyze], and [analyze_batch] after it, leave the detector as it
    was, exception or not: the profile store has the same profiles with
    the same fields afterwards. *)
Theorem analyze_leaves_the_baseline (e : string)
  (event : list (string * value)) (events : list (list (string * value)))
  (d : AnomalyDetector) :
  snd (analyze math_sqrt math_exp e event d) = d /\
  profiles (baseline (snd (analyze math_sqrt math_exp e event d)))
    = profiles (baseline d) /\
  snd (analyze_batch math_sqrt math_exp e events d) = d /\
  profiles (baseline (snd (analyze_batch math_sqrt math_exp e events d)))
    = profiles (baseline d).
Proof.
  rewrite analyze_state, analyze_batch_state. repeat split.
Qed.


Lemma array_index_wraps {A} (a : list A) (h : Z) :
  (- Z.of_nat (length a) <= h < Z.of_nat (length a))%Z ->
  exists i, array_index a h = Returned i.
Proof.
  intro H. unfold array_index.
  destruct ((0 <=? h) && (h <? Z.of_nat (length a)))%Z eqn:E1; [eauto|].
  destruct ((- Z.of_nat (length a) <=? h) && (h <? 0))%Z eqn:E2; [eauto|].
  exfalso. apply andb_false_iff in E1, E2.
  rewrite Z.leb_gt, Z.ltb_ge in E1, E2. lia.
Qed.

Lemma hour_probabilities_length (p : BaselineProfile) :
  well_shaped p -> length (hour_probabilities p) = 24%nat.
Proof.
  intros [H _]. unfold hour_probabilities.
  destruct (Qeq_bool _ 0); [reflexivity | now rewrite length_map].
Qed.

Lemma time_anomaly_returns (p : BaselineProfile) (h : Z) :
  well_shaped p -> (-24 <= h < 24)%Z ->
  exists r, _time_anomaly p h = Returned r.
Proof.
  intros Sp H. unfold _time_anomaly.
  destruct (array_index_wraps (hour_probabilities p) h) as [i Ei].
  { rewrite hour_probabilities_length by exact Sp. simpl. lia. }
  rewrite Ei. cbn [obind].
  destruct (Qeq_bool (Qmaximum 0 (hour_probabilities p)) 0); [eauto|].
  destruct (array_index_wraps (hour_distribution p) h) as [j Ej].
  { destruct Sp as [Sh _]. rewrite Sh. simpl. lia. }
  rewrite Ej. cbn [obind]. eauto.
Qed.

Lemma count_get_hashable (c : counter) (k : value) :
  hashable k = true -> exists n, count_get c k = Returned n.
Proof.
  intro H. unfold count_get. rewrite H. eauto.
Qed.

(** A quotient of two ints is no larger than its numerator, so it
    converts whenever the numerator does. *)
Lemma int_truediv_returns (a b : Z) :
  fits_float a = true -> b <> 0%Z ->
  int_truediv a b = Returned (inject_Z a / inject_Z b).
Proof.
  intros F N. unfold int_truediv.
  destruct (b =? 0)%Z eqn:E; [apply Z.eqb_eq in E; contradiction|].
  cbv zeta.
  destruct (Qle_bool (inject_Z float_limit)
                     (Qabs (inject_Z a / inject_Z b))) eqn:L;
    [|reflexivity].
  exfalso. apply Qle_bool_iff in L.
  unfold fits_float in F. apply Z.ltb_lt in F.
  assert (B : 1 <= Qabs (inject_Z b)).
  { change (Qabs (inject_Z b)) with (inject_Z (Z.abs b)).
    change 1 with (inject_Z 1). rewrite <- Zle_Qle. lia. }
  assert (A : Qabs (inject_Z a / inject_Z b) <= Qabs (inject_Z a)).
  { unfold Qdiv. rewrite Qabs_Qmult, Qabs_Qinv.
    apply Qle_shift_div_r; [lra|].
    pose proof (Qabs_nonneg (inject_Z a)). nra. }
  change (Qabs (inject_Z a)) with (inject_Z (Z.abs a)) in A.
  assert (C : inject_Z float_limit <= inject_Z (Z.abs a))
    by (eapply Qle_trans; eauto).
  rewrite <- Zle_Qle in C. lia.
Qed.

Lemma count_get_fits (c : counter) (k : value) (n : Z) :
  Forall (fun z => fits_float z = true) (dict_values c) ->
  count_get c k = Returned n -> fits_float n = true.
Proof.
  intros F. unfold count_get. destruct (hashable k); [|discriminate].
  intros [= <-]. unfold dict_get_default.
  induction c as [|[k' z] c IH]; cbn [dict_get]; [reflexivity|].
  cbn [dict_values map snd] in F. inversion F as [|? ? Hz Hc]; subst.
  destruct (py_eq k' k); [exact Hz | now apply IH].
Qed.

Lemma fold_max_In (l : list Z) (x : Z) : In (fold_left Z.max l x) (x :: l).
Proof.
  revert x. induction l as [|y l IH]; intro x; cbn [fold_left].
  - now left.
  - destruct (IH (Z.max x y)) as [H|H].
    + rewrite <- H. destruct (Z.max_spec x y) as [[_ ->]|[_ ->]];
        [right; now left | now left].
    + right. now right.
Qed.

Lemma resource_anomaly_returns (p : BaselineProfile) (v : value) :
  Forall (fun z => fits_float z = true)
         (dict_values (resource_frequencies p)) ->
  hashable v = true -> exists r, _resource_anomaly p v = Returned r.
Proof.
  intros F H. unfold _resource_anomaly.
  destruct (count_get_hashable (resource_frequencies p) v H) as [n E].
  rewrite E. cbn [obind].
  destruct (Zsum (dict_values (resource_frequencies p)) =? 0)%Z eqn:T;
    [eauto|].
  destruct (n =? 0)%Z; [eauto|].
  apply Z.eqb_neq in T.
  rewrite (int_truediv_returns _ _ (count_get_fits _ _ _ F E) T).
  cbn [obind].
  destruct (dict_values (resource_frequencies p)) as [|x l] eqn:D;
    [now contradiction T|].
  cbn [Zmaximum obind].
  rewrite int_truediv_returns; [cbn [obind]; eauto | | exact T].
  rewrite Forall_forall in F. apply F, fold_max_In.
Qed.

Lemma frequency_returns (c : counter) (n : Z) (k : value) :
  Forall (fun z => fits_float z = true) (dict_values c) ->
  count_get c k = Returned n ->
  exists freq,
    (if (0 <? Zsum (dict_values c))%Z
     then int_truediv n (Zsum (dict_values c)) else Returned 0.0)
    = Returned freq.
Proof.
  intros F E. destruct (0 <? Zsum (dict_values c))%Z eqn:T; [|eauto].
  apply Z.ltb_lt in T.
  rewrite (int_truediv_returns _ _ (count_get_fits _ _ _ F E)) by lia.
  eauto.
Qed.

Lemma location_anomaly_returns (p : BaselineProfile) (v : value) :
  Forall (fun z => fits_float z = true) (dict_values (locations_seen p)) ->
  hashable v = true -> exists r, _location_anomaly p v = Returned r.
Proof.
  intros F H. unfold _location_anomaly.
  destruct (count_get_hashable (locations_seen p) v H) as [n E].
  rewrite E. cbn [obind]. destruct (n =? 0)%Z; [eauto|].
  destruct (frequency_returns _ _ _ F E) as [freq Ef]. rewrite Ef.
  cbn [obind]. eauto.
Qed.

Lemma ip_anomaly_returns (p : BaselineProfile) (v : value) :
  Forall (fun z => fits_float z = true) (dict_values (source_ips p)) ->
  hashable v = true -> exists r, _ip_anomaly p v = Returned r.
Proof.
  intros F H. unfold _ip_anomaly.
  destruct (count_get_hashable (source_ips p) v H) as [n E].
  rewrite E. cbn [obind]. destruct (n =? 0)%Z; [eauto|].
  destruct (frequency_returns _ _ _ F E) as [freq Ef]. rewrite Ef.
  cbn [obind]. eauto.
Qed.

Lemma component_returns (present : bool) (name : string)
  (calc : outcome (Q * list (string * value)))
  (acc : list (string * Q) * list (string * value)) :
  (present = true -> exists r, calc = Returned r) ->
  exists acc', component present name calc acc = Returned acc'.
Proof.
  intro H. unfold component. destruct present; [|eauto].
  destruct (H eq_refl) as [[s dt] E]. rewrite E. cbn [obind]. eauto.
Qed.

Lemma keyed_component_returns (name : string) (v : value)
  (calc : outcome (Q * list (string * value)))
  (acc : list (string * Q) * list (string * value)) :
  key_or_falsy v = true ->
  (hashable v = true -> exists r, calc = Returned r) ->
  exists acc', component (truthy v) name calc acc = Returned acc'.
Proof.
  intros K H. apply component_returns. intro T.
  unfold key_or_falsy in K. rewrite T in K. auto.
Qed.

(** The duration component on a numeric duration. *)
Lemma duration_anomaly_score (p : BaselineProfile) (v : value) (x : Q) :
  to_float v = Returned x -> (session_count p <= float_limit)%Z ->
  0 <= variance p ->
  exists detail,
    _duration_anomaly math_sqrt math_exp p v
    = Returned (duration_score math_sqrt math_exp p x, detail).
Proof.
  intros Hx Hc Hv. unfold _duration_anomaly, duration_score.
  destruct (session_count p <? 5)%Z eqn:L; [eauto|].
  apply Z.ltb_ge in L.
  unfold session_duration_std.
  rewrite variance_returns by lia. cbn [obind]. unfold py_sqrt.
  apply Qltb_ge in Hv. rewrite Hv. cbn [obind].
  rewrite (py_sub_float _ _ _ Hx). cbn [obind]. eauto.
Qed.

(** C3, as the code has it. For an established baseline and an event with
    a numeric session duration x whose other fields can be analysed,
    [analyze] returns; the duration component is present among the scores
    that the weighted composite averages, with score 0.0 when fewer than
    five sessions are known and otherwise the sigmoid of the z-score,
    rounded to four decimals, where the z-score divides |x - mean| by the
    standard deviation, or by 1 when that is exactly zero. *)
Theorem duration_component (e : string) (event : list (string * value))
  (d : AnomalyDetector) (p : BaselineProfile) (x : Q) :
  get_profile (baseline d) e = Some p ->
  (10 <= observation_count p)%Z ->
  well_shaped p ->
  plain_counts p ->
  0 <= variance p ->
  analyzable event = true ->
  to_float (vget event "session_duration") = Returned x ->
  exists r,
    analyze math_sqrt math_exp e event d = (Returned r, d) /\
    sget (component_scores r) "duration"
      = Some (duration_score math_sqrt math_exp p x) /\
    anomaly_score r
      = py_round (weighted_composite (weights d) (component_scores r)) 4 /\
    is_anomalous r
      = Qgeb (weighted_composite (weights d) (component_scores r))
             (threshold d).
Proof.
  intros Hp Ho Sp [Fr [Fl [Fi Hc]]] Hv Ha Hx. unfold analyzable in Ha.
  repeat (apply andb_true_iff in Ha as [Ha ?]).
  unfold analyze, bind, get, lift, ret. rewrite Hp.
  destruct (observation_count p <? 10)%Z eqn:E;
    [apply Z.ltb_lt in E; lia|].
  unfold components.
  destruct (component_returns (negb (is_none (vget event "hour"))) "time"
              (obind (py_int (vget event "hour")) (_time_anomaly p))
              ([], [])) as [a1 E1].
  { intro T. unfold hour_in_range in Ha.
    destruct (vget event "hour"); try discriminate T; try discriminate Ha;
      (destruct (py_int _) as [h|]; [|discriminate Ha]);
      cbn [obind]; apply time_anomaly_returns; auto;
      apply andb_true_iff in Ha as [L U];
      apply Z.leb_le in L; apply Z.ltb_lt in U; lia. }
  rewrite E1. cbn [obind].
  destruct (keyed_component_returns "resource" (vget event "resource")
              (_resource_anomaly p (vget event "resource")) a1)
    as [a2 E2]; [assumption | now apply resource_anomaly_returns |].
  rewrite E2. cbn [obind].
  destruct (keyed_component_returns "location" (vget event "location")
              (_location_anomaly p (vget event "location")) a2)
    as [a3 E3]; [assumption | now apply location_anomaly_returns |].
  rewrite E3. cbn [obind].
  destruct (keyed_component_returns "ip" (vget event "source_ip")
              (_ip_anomaly p (vget event "source_ip")) a3)
    as [a4 E4]; [assumption | now apply ip_anomaly_returns |].
  rewrite E4. cbn [obind].
  assert (Nn : is_none (vget event "session_duration") = false)
    by (destruct (vget event "session_duration"); try discriminate Hx;
        reflexivity).
  rewrite Nn. cbn [negb component].
  destruct (duration_anomaly_score p _ x Hx Hc Hv) as [detail Ed].
  rewrite Ed. cbn [obind fst snd].
  eexists. split; [reflexivity|].
  cbn [component_scores anomaly_score is_anomalous].
  split; [apply dict_get_set_same|]. split; reflexivity.
Qed.

End AnomalyDetection.

Section DurationScenarios.
Import Builtins Baseline Anomaly Props.

Lemma round_half_even_comp (x y : Q) :
  x == y -> round_half_even x = round_half_even y.
Proof.
  intro H. unfold round_half_even. rewrite (Qfloor_comp x y H).
  now rewrite H.
Qed.

Lemma py_round_comp (x y : Q) (n : nat) :
  x == y -> py_round x n = py_round y n.
Proof.
  intro H. unfold py_round.
  rewrite (round_half_even_comp (x * inject_Z (10 ^ Z.of_nat n))
                                (y * inject_Z (10 ^ Z.of_nat n)));
    [reflexivity | now rewrite H].
Qed.

Lemma duration_component_witness :
  exists r,
    analyze newton_sqrt taylor_exp "alice"
      [("location", VStr "us-east"); ("session_duration", VInt 60)]
      busy_detector
    = (Returned r, busy_detector) /\
    sget (component_scores r) "duration"
    = Some (duration_score newton_sqrt taylor_exp busy_profile
                           (inject_Z 60)).
Proof.
  destruct (duration_component newton_sqrt taylor_exp "alice"
              [("location", VStr "us-east"); ("session_duration", VInt 60)]
              busy_detector busy_profile (inject_Z 60)
              ltac:(vm_compute; reflexivity)
              ltac:(vm_compute; discriminate)
              ltac:(split; vm_compute; reflexivity)
              ltac:(repeat split; repeat constructor; discriminate)
              ltac:(apply Qle_bool_iff; vm_compute; reflexivity)
              eq_refl eq_refl)
    as [r [A [B _]]].
  exists r. split; [exact A | exact B].
Defined.

(** C3, as the specification words it, fails twice.  With fewer than five
    sessions the duration still enters the weighted composite: a novel
    location alone scores 0.9, with a duration beside it 0.5625, whatever
    the mathematical library.  And with a standard deviation of 1/2 the
    code divides by 1/2, not by 1: for a library with sqrt(1/4) = 1/2,
    exp(0) = 1 and exp(3/2) > 4 the score is 0.5, not the logistic value
    at the z-score capped by max(sd, 1). *)
Lemma duration_is_neither_skipped_nor_capped :
  (~ exists math_sqrt math_exp,
       score_of (analyze math_sqrt math_exp "alice"
                   [("location", VStr "moon-base");
                    ("session_duration", VInt 100)] seasoned_detector)
       = score_of (analyze math_sqrt math_exp "alice"
                     [("location", VStr "moon-base")] seasoned_detector))
  /\
  (~ exists math_sqrt math_exp s,
       math_sqrt (variance narrow_profile) == 1 # 2 /\
       (forall t, t == 0 -> math_exp t == 1) /\
       (forall t, t == 3 # 2 -> 4 < math_exp t) /\
       component_score
         (_duration_anomaly math_sqrt math_exp narrow_profile (VInt 1))
       = Some s /\
       s == duration_score_by_max math_sqrt math_exp narrow_profile 1).
Proof.
  split.
  - intros [f [g H]]. vm_compute in H. discriminate.
  - intros [f [g [s [Hs [E0 [E1 [C Heq]]]]]]].
    unfold _duration_anomaly, session_duration_std in C.
    change (session_count narrow_profile <? 5)%Z with false in C.
    rewrite (variance_returns narrow_profile) in C
      by (split; discriminate).
    cbn [obind] in C. unfold py_sqrt in C.
    change (Qltb (variance narrow_profile) 0) with false in C.
    cbv beta iota in C. cbn [obind] in C.
    set (sd := f (variance narrow_profile)) in *.
    destruct (Qeq_bool sd 0) eqn:Z.
    { apply Qeq_bool_eq in Z. rewrite Hs in Z. discriminate Z. }
    rewrite (py_sub_float (VInt 1) (inject_Z 1) _ eq_refl) in C.
    cbn [obind component_score fst] in C.
    injection C as <-.
    match type of Heq with
    | py_round (sigmoid g ?t) 4 == _ => set (z := t) in *
    end.
    assert (Hz : z == 2).
    { unfold z. rewrite Hs. reflexivity. }
    assert (Hc : sigmoid g z == 1 # 2).
    { unfold sigmoid. rewrite (E0 (- (1.5) * (z - 2.0))).
      - reflexivity.
      - rewrite Hz. reflexivity. }
    rewrite (py_round_comp _ _ 4 Hc) in Heq.
    unfold duration_score_by_max in Heq. cbv zeta in Heq. fold sd in Heq.
    set (z' := Qabs (1 - session_duration_mean narrow_profile) / Qmax sd 1)
      in *.
    assert (Hz' : z' == 1).
    { unfold z'. rewrite Q.max_r by (rewrite Hs; discriminate).
      reflexivity. }
    assert (Hg : 4 < g (- (1.5) * (z' - 2.0))).
    { apply E1. rewrite Hz'. reflexivity. }
    unfold sigmoid in Heq.
    set (y := g (- (1.5) * (z' - 2.0))) in *.
    assert (Hlt : 1.0 / (1.0 + y) < 1 # 5).
    { apply Qlt_shift_div_r; lra. }
    assert (Hr : py_round (1 # 2) 4 == 1 # 2) by reflexivity.
    rewrite Hr in Heq. lra.
Qed.

End DurationScenarios.

(** ** Lateral-movement alerts *)

Section LateralMovement.
Import Graph Detector Props.

Lemma round_half_even_le (x : Q) (k : Z) :
  x <= inject_Z k -> (round_half_even x <= k)%Z.
Proof.
  intro H. unfold round_half_even.
  pose proof (Qfloor_le x) as F.
  assert (Fk : (Qfloor x <= k)%Z).
  { rewrite Zle_Qle. lra. }
  assert (Up : 1 # 2 <= x - inject_Z (Qfloor x) -> (Qfloor x + 1 <= k)%Z).
  { intro G. assert (inject_Z (Qfloor x) < inject_Z k) by lra.
    rewrite <- Zlt_Qlt in H0. lia. }
  destruct (Qcompare (x - inject_Z (Qfloor x)) (1 # 2)) eqn:C.
  - apply Qeq_alt in C. destruct (Z.even (Qfloor x)); [exact Fk|].
    apply Up. lra.
  - exact Fk.
  - apply Qgt_alt in C. apply Up. lra.
Qed.

Lemma py_round_le_1 (x : Q) : x <= 1 -> py_round x 4 <= 1.
Proof.
  intro H. unfold py_round.
  change (inject_Z (10 ^ Z.of_nat 4)) with (inject_Z 10000).
  assert (R : (round_half_even (x * inject_Z 10000) <= 10000)%Z).
  { apply round_half_even_le.
    setoid_replace (inject_Z 10000) with 10000 by reflexivity. lra. }
  apply Qle_shift_div_r; [reflexivity|].
  rewrite Zle_Qle in R. lra.
Qed.

Lemma Qmin_one_le (x : Q) : Qmin 1.0 x <= 1.
Proof.
  apply Qle_trans with 1.0; [apply Q.le_min_l | discriminate].
Qed.

Lemma In_insert {A} (leb : A -> A -> bool) (a x : A) (l : list A) :
  In a (insert leb x l) -> a = x \/ In a l.
Proof.
  induction l as [|y l IH]; simpl.
  - intros [->|[]]. now left.
  - destruct (leb x y); simpl.
    + intros [->|H]; auto.
    + intros [->|H]; auto. destruct (IH H); auto.
Qed.

Lemma In_sorted {A} (leb : A -> A -> bool) (a : A) (l : list A) :
  In a (sorted leb l) -> In a l.
Proof.
  induction l as [|x l IH]; simpl; [auto|].
  intro H. destruct (In_insert _ _ _ _ H) as [->|H']; auto.
Qed.

(** No path that [dfs] returns is longer than [max_depth]. *)
Lemma dfs_length (g : AccessGraph) (max_depth fuel : nat)
  (target : string) :
  forall (current : string) (path visited p : list string),
    In p (dfs g max_depth fuel current target path visited) ->
    (length p <= max_depth)%nat.
Proof.
  induction fuel as [|fuel IH]; intros current path visited p H;
    [destruct H|].
  cbn [dfs] in H.
  destruct (max_depth <? length path)%nat eqn:G; [destruct H|].
  apply Nat.ltb_ge in G.
  destruct (String.eqb current target).
  - destruct H as [<-|[]]. exact G.
  - apply in_flat_map in H as [n [_ H]].
    destruct (mem n visited); [destruct H|]. eapply IH; eauto.
Qed.

(** More fuel than the depth bound leaves changes nothing: the recursion
    of [all_paths] never runs out. *)
Lemma dfs_fuel (g : AccessGraph) (max_depth : nat) (target : string) :
  forall (fuel : nat) (current : string) (path visited : list string),
    (S max_depth - length path <= fuel)%nat ->
    dfs g max_depth (S fuel) current target path visited
    = dfs g max_depth fuel current target path visited.
Proof.
  induction fuel as [|fuel IH]; intros current path visited H.
  - cbn [dfs].
    destruct (max_depth <? length path)%nat eqn:G; [reflexivity|].
    apply Nat.ltb_ge in G. lia.
  - change (dfs g max_depth (S (S fuel)) current target path visited)
      with (if (max_depth <? length path)%nat then []
            else if String.eqb current target then [path]
            else flat_map
                   (fun neighbor =>
                      if mem neighbor visited then []
                      else dfs g max_depth (S fuel) neighbor target
                               (path ++ [neighbor]) (neighbor :: visited))
                   (get_neighbors g current)).
    cbn [dfs].
    destruct (max_depth <? length path)%nat; [reflexivity|].
    destruct (String.eqb current target); [reflexivity|].
    apply flat_map_ext. intro n.
    destruct (mem n visited); [reflexivity|].
    apply IH. rewrite length_app. cbn [length]. lia.
Qed.

Lemma all_paths_fuel (g : AccessGraph) (s t : string)
  (max_depth extra : nat) :
  dfs g max_depth (extra + S max_depth) s t [s] [s]
  = all_paths g s t max_depth.
Proof.
  unfold all_paths. induction extra as [|extra IH]; [reflexivity|].
  cbn [Nat.add]. rewrite dfs_fuel; [exact IH | cbn [length]; lia].
Qed.

Lemma all_paths_length (g : AccessGraph) (s t : string) (max_depth : nat)
  (p : list string) :
  In p (all_paths g s t max_depth) -> (length p <= max_depth)%nat.
Proof.
  apply dfs_length.
Qed.

Lemma escalation_severity (low high : string) (p : list string)
  (a : LateralMovementAlert) :
  (length p <= 4)%nat -> In a (escalation_alert low high p) ->
  severity a <= 1.
Proof.
  intros L H. unfold escalation_alert in H.
  destruct (3 <=? length p)%nat; [|destruct H].
  destruct H as [<-|[]]. cbn [severity]. apply py_round_le_1.
  assert (inject_Z (Z.of_nat (length p)) <= 4).
  { setoid_replace 4 with (inject_Z 4) by reflexivity.
    rewrite <- Zle_Qle. lia. }
  lra.
Qed.

Lemma privilege_escalation_severity (d : LateralMovementDetector)
  (a : LateralMovementAlert) :
  In a (_detect_privilege_escalation d) -> severity a <= 1.
Proof.
  unfold _detect_privilege_escalation. intro H.
  apply in_flat_map in H as [low [_ H]].
  apply in_flat_map in H as [high [_ H]].
  apply in_flat_map in H as [p [Hp H]].
  apply all_paths_length in Hp. eapply escalation_severity; eauto.
Qed.

Lemma collect_In {A B} (f : A -> outcome (list B)) (l : list A)
  (r : list B) (b : B) :
  collect f l = Returned r -> In b r ->
  exists x ys, In x l /\ f x = Returned ys /\ In b ys.
Proof.
  revert r. induction l as [|x l IH]; intros r H Hb; cbn [collect] in H.
  - injection H as <-. destruct Hb.
  - destruct (f x) as [ys|] eqn:Fx; [|discriminate H]. cbn [obind] in H.
    destruct (collect f l) as [zs|] eqn:C; [|discriminate H].
    cbn [obind] in H. injection H as <-.
    apply in_app_or in Hb as [Hb|Hb].
    + exists x, ys. simpl. auto.
    + destruct (IH zs eq_refl Hb) as [x' [ys' [I [F' I']]]].
      exists x', ys'. simpl. auto.
Qed.

Lemma hopping_severity (hop : Z) (source : string) (es : list AccessEdge)
  (r : list LateralMovementAlert) (a : LateralMovementAlert) :
  hopping_alert hop source es = Returned r -> In a r -> severity a <= 1.
Proof.
  unfold hopping_alert. cbv zeta.
  destruct (hop <=? _)%Z.
  - destruct (hop * 2 =? 0)%Z; [discriminate|].
    intros [= <-] [<-|[]]. cbn [severity].
    apply py_round_le_1. apply Qmin_one_le.
  - intros [= <-] [].
Qed.

Section WithNorm.
Variable np_sqrt : Q -> Q.

Lemma embedding_alert_severity (d : LateralMovementDetector)
  (node : string) (current : list Q) (r : list LateralMovementAlert)
  (a : LateralMovementAlert) :
  embedding_alert np_sqrt d node current = Returned r -> In a r ->
  severity a <= 1.
Proof.
  unfold embedding_alert.
  destruct (dict_get String.eqb (baseline_embeddings d) node) as [base|];
    [|intros [= <-] []].
  destruct (broadcast Qminus current base) as [difference|];
    [|discriminate]. cbn [obind]. cbv zeta.
  destruct (Qgtb _ _); [|intros [= <-] []].
  destruct (float_div _ _) as [ratio|]; [|discriminate]. cbn [obind].
  intros [= <-] [<-|[]]. cbn [severity].
  apply py_round_le_1. apply Qmin_one_le.
Qed.

Lemma embedding_severity (d : LateralMovementDetector)
  (r : list LateralMovementAlert) (a : LateralMovementAlert) :
  _detect_embedding_anomalies np_sqrt d = Returned r -> In a r ->
  severity a <= 1.
Proof.
  unfold _detect_embedding_anomalies.
  destruct (baseline_embeddings d) eqn:B; [intros [= <-] []|]. clear B.
  destruct (compute_embeddings d) as [nc|]; [|discriminate].
  cbn [obind]. intros H Ha.
  destruct (collect_In _ _ _ _ H Ha) as [[node cur] [ys [_ [F I]]]].
  eapply embedding_alert_severity; eauto.
Qed.

(** C9. Every alert that [detect] returns has severity at most 1.0: the
    credential-hopping and embedding severities are capped by [min], and
    the privilege-escalation severity 0.6 + 0.1 len(path) because
    [all_paths] with depth 4 returns no path of more than 4 nodes. *)
Theorem alert_severity_at_most_one (d : LateralMovementDetector)
  (alerts : list LateralMovementAlert) (a : LateralMovementAlert) :
  detect np_sqrt d = Returned alerts -> In a alerts -> severity a <= 1.
Proof.
  unfold detect. intros H Ha.
  destruct (_detect_credential_hopping d) as [hopping|] eqn:Hh;
    [|discriminate H].
  cbn [obind] in H. cbv zeta in H.
  destruct (_detect_embedding_anomalies np_sqrt d) as [embedding|] eqn:He;
    [|discriminate H].
  cbn [obind] in H. injection H as <-. apply In_sorted in Ha.
  apply in_app_or in Ha as [Ha|Ha].
  - unfold _detect_credential_hopping in Hh.
    destruct (collect_In _ _ _ _ Hh Ha) as [[s es] [ys [_ [F I]]]].
    eapply hopping_severity; eauto.
  - apply in_app_or in Ha as [Ha|Ha].
    + now apply (privilege_escalation_severity d).
    + now apply (embedding_severity d embedding).
Qed.

(** The credential-hopping detector returns whenever the hop threshold is
    not zero. *)
Lemma hopping_returns (d : LateralMovementDetector) :
  hop_threshold d <> 0%Z ->
  exists hopping, _detect_credential_hopping d = Returned hopping.
Proof.
  intro H. unfold _detect_credential_hopping.
  assert (C : forall l, exists r,
             collect (fun se => hopping_alert (hop_threshold d)
                                              (fst se) (snd se)) l
             = Returned r).
  { induction l as [|x l [r IH]]; cbn [collect]; [eauto|].
    unfold hopping_alert at 1. cbv zeta.
    destruct (hop_threshold d <=? _)%Z.
    - destruct (hop_threshold d * 2 =? 0)%Z eqn:Z;
        [apply Z.eqb_eq in Z; lia|].
      cbn [obind]. rewrite IH. cbn [obind]. eauto.
    - cbn [obind]. rewrite IH. cbn [obind]. eauto. }
  apply C.
Qed.

End WithNorm.

Lemma alert_severity_at_most_one_witness :
  match detect newton_sqrt example_detector with
  | Returned (a :: _) => severity a == 1 /\ severity a <= 1
  | _ => False
  end.
Proof.
  pose proof (alert_severity_at_most_one newton_sqrt example_detector) as T.
  remember (detect newton_sqrt example_detector) as r eqn:E.
  vm_compute in E. subst r. split; [reflexivity|].
  apply (T _ _ eq_refl). left. reflexivity.
Defined.

End LateralMovement.

(** ** Rounding *)

Section Rounding.

Lemma round_half_even_ge (x : Q) (k : Z) :
  inject_Z k <= x -> (k <= round_half_even x)%Z.
Proof.
  intro H. unfold round_half_even.
  assert (F : (k <= Qfloor x)%Z).
  { pose proof (Qfloor_resp_le _ _ H) as G. now rewrite Qfloor_Z in G. }
  destruct (Qcompare (x - inject_Z (Qfloor x)) (1 # 2)).
  - destruct (Z.even (Qfloor x)); lia.
  - exact F.
  - lia.
Qed.

Lemma round_half_even_mono (x y : Q) :
  x <= y -> (round_half_even x <= round_half_even y)%Z.
Proof.
  intro H.
  pose proof (Qfloor_resp_le _ _ H) as F.
  destruct (Z.eq_dec (Qfloor x) (Qfloor y)) as [E|N].
  - unfold round_half_even. rewrite <- E.
    destruct (Qcompare (x - inject_Z (Qfloor x)) (1 # 2)) eqn:Cx;
      destruct (Qcompare (y - inject_Z (Qfloor x)) (1 # 2)) eqn:Cy;
      try (destruct (Z.even (Qfloor x)); lia); try lia.
    + apply Qeq_alt in Cx. apply Qlt_alt in Cy. lra.
    + apply Qgt_alt in Cx. apply Qeq_alt in Cy. lra.
    + apply Qgt_alt in Cx. apply Qlt_alt in Cy. lra.
  - apply Z.le_trans with (Qfloor y).
    + apply round_half_even_le.
      apply Qle_trans with (inject_Z (Qfloor x + 1)).
      * apply Qlt_le_weak, Qlt_floor.
      * rewrite <- Zle_Qle. lia.
    + apply round_half_even_ge, Qfloor_le.
Qed.

Lemma scale_pos (n : nat) : 0 < inject_Z (10 ^ Z.of_nat n).
Proof.
  replace 0 with (inject_Z 0) by reflexivity. rewrite <- Zlt_Qlt.
  apply Z.pow_pos_nonneg; lia.
Qed.

Lemma py_round_mono (x y : Q) (n : nat) :
  x <= y -> py_round x n <= py_round y n.
Proof.
  intro H. unfold py_round.
  pose proof (scale_pos n) as S.
  set (s := inject_Z (10 ^ Z.of_nat n)) in *.
  assert (R : (round_half_even (x * s) <= round_half_even (y * s))%Z).
  { apply round_half_even_mono. nra. }
  rewrite Zle_Qle in R.
  apply Qle_shift_div_l; [exact S|].
  apply Qle_trans with (inject_Z (round_half_even (x * s))); [|exact R].
  apply Qle_lteq. right. field. lra.
Qed.

Lemma py_round_integer (k : Z) (n : nat) :
  py_round (inject_Z k) n == inject_Z k.
Proof.
  unfold py_round.
  pose proof (scale_pos n) as S.
  set (s := (10 ^ Z.of_nat n)%Z) in *.
  assert (E : round_half_even (inject_Z k * inject_Z s) = (k * s)%Z).
  { rewrite (round_half_even_comp _ (inject_Z (k * s)))
      by (now rewrite inject_Z_mult).
    apply Z.le_antisymm.
    - apply round_half_even_le, Qle_refl.
    - apply round_half_even_ge, Qle_refl. }
  rewrite E, inject_Z_mult. field. lra.
Qed.

Lemma py_round_nonneg (x : Q) (n : nat) : 0 <= x -> 0 <= py_round x n.
Proof.
  intro H. rewrite <- (py_round_integer 0 n) at 1.
  now apply py_round_mono.
Qed.

Lemma py_round_le_one (x : Q) (n : nat) : x <= 1 -> py_round x n <= 1.
Proof.
  intro H. rewrite <- (py_round_integer 1 n).
  now apply py_round_mono.
Qed.

End Rounding.

(** ** Slices *)

Section Slicing.
Import Slices.

Lemma slice_last_snoc {A} (n : Z) (l : list A) (x : A) :
  (0 < n)%Z ->
  slice_last n (l ++ [x]) =
  skipn (length l - (Z.to_nat n - 1)) l ++ [x].
Proof.
  intro N. unfold slice_last.
  destruct (n =? 0)%Z eqn:E0; [lia|].
  destruct (0 <? n)%Z eqn:E1; [|lia].
  rewrite length_app. cbn [length].
  replace (length l + 1 - Z.to_nat n)%nat
    with (length l - (Z.to_nat n - 1))%nat by lia.
  rewrite skipn_app.
  replace (length l - (Z.to_nat n - 1) - length l)%nat with 0%nat by lia.
  reflexivity.
Qed.

Lemma slice_last_after_append {A} (n : Z) (l : list A) (x : A) :
  (0 < n)%Z ->
  slice_last n (l ++ [x]) =
  (if (n =? 1)%Z then [] else slice_last (n - 1) l) ++ [x].
Proof.
  intro N. rewrite slice_last_snoc by exact N. f_equal.
  destruct (n =? 1)%Z eqn:E.
  - apply Z.eqb_eq in E. subst n. cbn [Z.to_nat Pos.to_nat Pos.iter_op].
    rewrite Nat.sub_0_r. apply skipn_all.
  - apply Z.eqb_neq in E. unfold slice_last.
    destruct (n - 1 =? 0)%Z eqn:E0; [apply Z.eqb_eq in E0; lia|].
    destruct (0 <? n - 1)%Z eqn:E1; [|apply Z.ltb_ge in E1; lia].
    f_equal. lia.
Qed.

End Slicing.

(** ** Sorting *)

Section Sorting.

Lemma insert_perm {A} (leb : A -> A -> bool) (x : A) (l : list A) :
  Permutation (x :: l) (Graph.insert leb x l).
Proof.
  induction l as [|y l IH]; cbn [Graph.insert]; [reflexivity|].
  destruct (leb x y); [reflexivity|].
  rewrite perm_swap. now constructor.
Qed.

Lemma sorted_perm {A} (leb : A -> A -> bool) (l : list A) :
  Permutation l (Graph.sorted leb l).
Proof.
  induction l as [|x l IH]; [reflexivity|].
  unfold Graph.sorted in *. cbn [fold_right].
  rewrite <- insert_perm. now constructor.
Qed.

(** The stable insertion sort sorts, for a total and transitive order. *)
Lemma sorted_sorted {A} (leb : A -> A -> bool) (l : list A) :
  (forall a b, leb a b = false -> leb b a = true) ->
  (forall a b c, leb a b = true -> leb b c = true -> leb a c = true) ->
  StronglySorted (fun a b => leb a b = true) (Graph.sorted leb l).
Proof.
  intros Tot Tr.
  assert (Ins : forall x s,
             StronglySorted (fun a b => leb a b = true) s ->
             StronglySorted (fun a b => leb a b = true)
                            (Graph.insert leb x s)).
  { intros x s. induction 1 as [|y s S IH F]; cbn [Graph.insert].
    - repeat constructor.
    - destruct (leb x y) eqn:E.
      + constructor; [now constructor|]. constructor; [exact E|].
        rewrite Forall_forall in *. intros z Hz. eauto.
      + constructor; [exact IH|].
        rewrite Forall_forall in *. intros z Hz.
        apply (Permutation_in _ (Permutation_sym (insert_perm leb x s)))
          in Hz.
        destruct Hz as [<-|Hz]; [now apply Tot | now apply F]. }
  induction l as [|x l IH]; [constructor|].
  unfold Graph.sorted in *. cbn [fold_right]. now apply Ins.
Qed.

End Sorting.

(** ** The access engine: ranges, log and order *)

Section AccessEngine.
Import Context Engine Verification Props Reports Terms.

Lemma trust_score_bounds (ctx : AccessContext) :
  0 <= _calculate_trust_score ctx /\ _calculate_trust_score ctx <= 1.
Proof.
  unfold _calculate_trust_score. cbv zeta. split.
  - apply py_round_nonneg.
    apply Qle_trans with 0.0; [discriminate | apply Q.le_max_l].
  - apply py_round_le_one. apply Q.max_lub; [discriminate|].
    apply Qmin_one_le.
Qed.

(** [evaluate] returns, logs what it returns and touches nothing else. *)
Lemma evaluate_result (now : Q) (ctx : AccessContext)
  (e : AccessDecisionEngine) :
  exists r,
    evaluate now ctx e =
      (Returned r,
       {| deny_threshold := deny_threshold e;
          challenge_threshold := challenge_threshold e;
          restrict_threshold := restrict_threshold e;
          decision_log := decision_log e ++ [r];
          resource_sensitivity := resource_sensitivity e |}) /\
    confidence r = Qmin 1.0 (Qabs (_calculate_trust_score ctx - 0.5) * 2) /\
    risk_level r = py_round (1.0 - _calculate_trust_score ctx) 4 /\
    decision r =
      let t := _calculate_trust_score ctx in
      let s := dict_get_default String.eqb (resource_sensitivity e)
                                (resource ctx) 0.5 in
      if Qltb t (deny_threshold e * (1 + s * 0.5)) then DENY
      else if Qltb t (challenge_threshold e * (1 + s * 0.3)) then CHALLENGE
      else if Qltb t (restrict_threshold e * (1 + s * 0.2)) then RESTRICT
      else ALLOW.
Proof.
  unfold evaluate, bind, get, put, ret. cbv zeta.
  set (t := _calculate_trust_score ctx).
  set (s := dict_get_default String.eqb (resource_sensitivity e)
                             (resource ctx) 0.5).
  destruct (Qltb t (deny_threshold e * (1 + s * 0.5))).
  { eexists. split; [reflexivity | repeat split]. }
  destruct (Qltb t (challenge_threshold e * (1 + s * 0.3))).
  { eexists. split; [reflexivity | repeat split]. }
  destruct (Qltb t (restrict_threshold e * (1 + s * 0.2)));
    eexists; (split; [reflexivity | repeat split]).
Qed.

(** X1. [evaluate] returns for every request and engine; the confidence
    and the risk level of its decision lie between 0 and 1, and the
    decision is appended to the decision log. *)
Theorem evaluate_confidence_and_risk_in_range (now : Q)
  (ctx : AccessContext) (e : AccessDecisionEngine) :
  exists r e',
    evaluate now ctx e = (Returned r, e') /\
    0 <= confidence r /\ confidence r <= 1 /\
    0 <= risk_level r /\ risk_level r <= 1 /\
    decision_log e' = decision_log e ++ [r].
Proof.
  destruct (evaluate_result now ctx e) as [r [E [C [R _]]]].
  destruct (trust_score_bounds ctx) as [T0 T1].
  exists r. eexists. split; [exact E|].
  rewrite C, R. clear E C R.
  generalize dependent (_calculate_trust_score ctx). intros t T0 T1.
  repeat split.
  - apply Q.min_glb; [discriminate|].
    pose proof (Qabs_nonneg (t - 0.5)). lra.
  - apply Qmin_one_le.
  - apply py_round_nonneg. lra.
  - apply py_round_le_one. lra.
Qed.

Lemma count_decisions_cons (d : Decision) (x : AccessDecision)
  (log : list AccessDecision) :
  count_decisions d (x :: log) =
  ((if String.eqb (Decision_value (decision x)) (Decision_value d)
    then 1 else 0) + count_decisions d log)%Z.
Proof.
  unfold count_decisions. cbn [filter].
  destruct (String.eqb _ _); cbn [length]; lia.
Qed.

Lemma decision_stats_fold (log : list AccessDecision) (a d c r : Z) :
  fold_left
    (fun stats x =>
       dict_set String.eqb stats (Decision_value (decision x))
         (dict_get_default String.eqb stats (Decision_value (decision x)) 0
          + 1)%Z)
    log [("allow", a); ("deny", d); ("challenge", c); ("restrict", r)]
  = [("allow", (a + count_decisions ALLOW log)%Z);
     ("deny", (d + count_decisions DENY log)%Z);
     ("challenge", (c + count_decisions CHALLENGE log)%Z);
     ("restrict", (r + count_decisions RESTRICT log)%Z)].
Proof.
  revert a d c r. induction log as [|x log IH]; intros a d c r.
  - unfold count_decisions. cbn. now rewrite !Z.add_0_r.
  - cbn [fold_left]. rewrite !count_decisions_cons.
    destruct (decision x);
      cbn [dict_set dict_get_default dict_get Decision_value
           String.eqb Ascii.eqb Bool.eqb];
      rewrite IH, ?Z.add_0_l, ?Z.add_assoc; reflexivity.
Qed.

(** X2. [decision_stats] gives, under each of the four decision values,
    the number of decisions of that kind in the log, so its four counts
    add up to the length of the log. *)
Theorem decision_stats_counts (e : AccessDecisionEngine) :
  decision_stats e =
    [("allow", count_decisions ALLOW (decision_log e));
     ("deny", count_decisions DENY (decision_log e));
     ("challenge", count_decisions CHALLENGE (decision_log e));
     ("restrict", count_decisions RESTRICT (decision_log e))] /\
  Builtins.Zsum (dict_values (decision_stats e))
  = Z.of_nat (length (decision_log e)).
Proof.
  unfold decision_stats. rewrite decision_stats_fold.
  split; [reflexivity|].
  unfold dict_values, Builtins.Zsum. cbn [map snd fold_left].
  induction (decision_log e) as [|x log IH].
  - reflexivity.
  - rewrite !count_decisions_cons. cbn [length].
    destruct (decision x);
      cbn [Decision_value String.eqb Ascii.eqb Bool.eqb]; lia.
Qed.

Lemma evaluate_summary (now : Q) (ctx : AccessContext)
  (e : AccessDecisionEngine) :
  exists r,
    evaluate now ctx e =
      (Returned r,
       {| deny_threshold := deny_threshold e;
          challenge_threshold := challenge_threshold e;
          restrict_threshold := restrict_threshold e;
          decision_log := decision_log e ++ [r];
          resource_sensitivity := resource_sensitivity e |}) /\
    context_summary r = to_dict ctx.
Proof.
  unfold evaluate, bind, get, put, ret. cbv zeta.
  set (t := _calculate_trust_score ctx).
  set (s := dict_get_default String.eqb (resource_sensitivity e)
                             (resource ctx) 0.5).
  destruct (Qltb t (deny_threshold e * (1 + s * 0.5))).
  { eexists. split; reflexivity. }
  destruct (Qltb t (challenge_threshold e * (1 + s * 0.3))).
  { eexists. split; reflexivity. }
  destruct (Qltb t (restrict_threshold e * (1 + s * 0.2)));
    eexists; split; reflexivity.
Qed.

(** X3. After [evaluate], [recent_decisions] with a positive [n] is what
    [recent_decisions] with [n - 1] gave before (nothing for [n = 1]),
    followed by the summary of the new decision, which carries the entity
    and the resource of the request; with [n = 0] it returns the whole
    log, not nothing. *)
Theorem recent_decisions_after_evaluate (now : Q) (ctx : AccessContext)
  (e : AccessDecisionEngine) (n : Z) :
  exists r e',
    evaluate now ctx e = (Returned r, e') /\
    let summary :=
      [("decision", VStr (Decision_value (decision r)));
       ("confidence", VFloat (confidence r));
       ("risk_level", VFloat (risk_level r));
       ("reasons", VList (map VStr (reasons r)));
       ("entity_id", VStr (Context.entity_id ctx));
       ("resource", VStr (resource ctx))] in
    ((0 < n)%Z ->
     recent_decisions e' n =
     (if (n =? 1)%Z then [] else recent_decisions e (n - 1)) ++ [summary]) /\
    recent_decisions e' 0 = recent_decisions e 0 ++ [summary] /\
    length (recent_decisions e' 0) = S (length (decision_log e)).
Proof.
  destruct (evaluate_summary now ctx e) as [r [E S]].
  exists r. eexists. split; [exact E|]. cbv zeta.
  unfold recent_decisions. cbn [decision_log].
  split; [|split].
  - intro N. rewrite slice_last_after_append by exact N.
    rewrite map_app. cbn [map]. rewrite S.
    destruct (n =? 1)%Z; reflexivity.
  - unfold Slices.slice_last. cbn [Z.eqb]. rewrite map_app. cbn [map].
    rewrite S. reflexivity.
  - unfold Slices.slice_last. cbn [Z.eqb].
    rewrite length_map, length_app. cbn [length]. lia.
Qed.

End AccessEngine.

Section AccessOrder.
Import Context Engine Verification Props Reports Terms.

Ltac order_cases :=
  repeat match goal with
         | H : Qltb _ _ = true |- _ => apply Qltb_lt in H
         | H : Qltb _ _ = false |- _ => apply Qltb_ge in H
         end;
  unfold strictness; first [lia | exfalso; lra].

(** The cascade of thresholds is antitone in the trust score and monotone
    in the thresholds. *)
Lemma cascade_order (t1 t2 d1 d2 c1 c2 r1 r2 : Q) :
  t1 <= t2 -> d2 <= d1 -> c2 <= c1 -> r2 <= r1 ->
  (strictness
     (if Qltb t2 d2 then DENY
      else if Qltb t2 c2 then CHALLENGE
      else if Qltb t2 r2 then RESTRICT else ALLOW)
   <= strictness
        (if Qltb t1 d1 then DENY
         else if Qltb t1 c1 then CHALLENGE
         else if Qltb t1 r1 then RESTRICT else ALLOW))%Z.
Proof.
  intros T D C R.
  destruct (Qltb t2 d2) eqn:A2, (Qltb t2 c2) eqn:B2, (Qltb t2 r2) eqn:C2,
           (Qltb t1 d1) eqn:A1, (Qltb t1 c1) eqn:B1, (Qltb t1 r1) eqn:C1;
    order_cases.
Qed.

Lemma trust_score_mono (c1 c2 : AccessContext) :
  auth_strength c1 <= auth_strength c2 ->
  health_score (device c1) <= health_score (device c2) ->
  behavior_score c2 <= behavior_score c1 ->
  network_trust c1 <= network_trust c2 ->
  risk_score c2 <= risk_score c1 ->
  _calculate_trust_score c1 <= _calculate_trust_score c2.
Proof.
  unfold _calculate_trust_score. cbv zeta.
  generalize (auth_strength c1), (auth_strength c2),
             (health_score (device c1)), (health_score (device c2)),
             (behavior_score c1), (behavior_score c2),
             (network_trust c1), (network_trust c2),
             (risk_score c1), (risk_score c2).
  intros a1 a2 h1 h2 b1 b2 n1 n2 k1 k2 A H B N K.
  cbv [Qsum map fold_left trust_weights dict_get_default dict_get fst snd
       String.eqb Ascii.eqb Bool.eqb].
  apply py_round_mono.
  apply Q.max_le_compat_l, Q.min_le_compat_l.
  assert (Mb : Qmax 0.0 (1.0 - b1) <= Qmax 0.0 (1.0 - b2))
    by (apply Q.max_le_compat_l; lra).
  assert (Mk : Qmax 0.0 (1.0 - k1) <= Qmax 0.0 (1.0 - k2))
    by (apply Q.max_le_compat_l; lra).
  revert Mb Mk.
  generalize (Qmax 0.0 (1.0 - b1)), (Qmax 0.0 (1.0 - b2)),
             (Qmax 0.0 (1.0 - k1)), (Qmax 0.0 (1.0 - k2)).
  intros. lra.
Qed.

Lemma evaluate_order (now1 now2 : Q) (c1 c2 : AccessContext)
  (e : AccessDecisionEngine) :
  resource c1 = resource c2 ->
  _calculate_trust_score c1 <= _calculate_trust_score c2 ->
  exists r1 r2 e1 e2,
    evaluate now1 c1 e = (Returned r1, e1) /\
    evaluate now2 c2 e = (Returned r2, e2) /\
    (strictness (decision r2) <= strictness (decision r1))%Z.
Proof.
  intros R T.
  destruct (evaluate_result now1 c1 e) as [r1 [E1 [_ [_ D1]]]].
  destruct (evaluate_result now2 c2 e) as [r2 [E2 [_ [_ D2]]]].
  exists r1, r2. do 2 eexists.
  split; [exact E1|]. split; [exact E2|].
  rewrite D1, D2, R. cbv zeta.
  apply cascade_order; [exact T | apply Qle_refl ..].
Qed.

(** X4. A request whose signals are all at least as good as those of
    another request for the same resource (authentication, device health
    and network trust no lower, behaviour and risk scores no higher) is
    never decided more strictly by the same engine, in the order
    ALLOW < RESTRICT < CHALLENGE < DENY. *)
Theorem better_signals_never_stricter (now1 now2 : Q)
  (c1 c2 : AccessContext) (e : AccessDecisionEngine) :
  resource c1 = resource c2 ->
  auth_strength c1 <= auth_strength c2 ->
  health_score (device c1) <= health_score (device c2) ->
  behavior_score c2 <= behavior_score c1 ->
  network_trust c1 <= network_trust c2 ->
  risk_score c2 <= risk_score c1 ->
  exists r1 r2 e1 e2,
    evaluate now1 c1 e = (Returned r1, e1) /\
    evaluate now2 c2 e = (Returned r2, e2) /\
    (strictness (decision r2) <= strictness (decision r1))%Z.
Proof.
  intros R A H B N K.
  apply evaluate_order; [exact R|].
  now apply trust_score_mono.
Qed.

Lemma better_signals_never_stricter_witness :
  exists r1 r2 e1 e2,
    evaluate 0 distrusted_context new_engine = (Returned r1, e1) /\
    evaluate 1 trusted_context new_engine = (Returned r2, e2) /\
    (strictness (decision r2) <= strictness (decision r1))%Z.
Proof.
  apply (better_signals_never_stricter 0 1 distrusted_context
           trusted_context new_engine);
    try reflexivity; apply Qle_bool_iff; vm_compute; reflexivity.
Defined.

Lemma auth_base_le_one (m : string) :
  dict_get_default String.eqb auth_table m 0.3 <= 1.
Proof.
  unfold dict_get_default, auth_table, dict_get.
  repeat (destruct (String.eqb _ m); [discriminate|]).
  discriminate.
Qed.

(** X5. Verifying MFA never makes a decision stricter: for every request
    and engine, the decision with [mfa_verified] set is at most as strict
    as the decision for the same request without it. *)
Theorem mfa_never_stricter (now : Q) (ctx : AccessContext)
  (e : AccessDecisionEngine) :
  exists r0 r1 e0 e1,
    evaluate now (with_mfa false ctx) e = (Returned r0, e0) /\
    evaluate now (with_mfa true ctx) e = (Returned r1, e1) /\
    (strictness (decision r1) <= strictness (decision r0))%Z.
Proof.
  apply evaluate_order; [reflexivity|].
  apply trust_score_mono; try apply Qle_refl.
  unfold auth_strength.
  cbn [with_mfa mfa_verified authentication_method].
  pose proof (auth_base_le_one (authentication_method ctx)) as B.
  revert B.
  generalize (dict_get_default String.eqb auth_table
                (authentication_method ctx) 0.3).
  intros b B. apply Q.min_glb; lra.
Qed.

Lemma decide_at_cascade (level now : Q) (ctx : AccessContext)
  (e : AccessDecisionEngine) :
  decide_at level now ctx e =
  Returned
    (let t := _calculate_trust_score ctx in
     let s := Qmax 0.0 (Qmin 1.0 level) in
     if Qltb t (deny_threshold e * (1 + s * 0.5)) then DENY
     else if Qltb t (challenge_threshold e * (1 + s * 0.3)) then CHALLENGE
     else if Qltb t (restrict_threshold e * (1 + s * 0.2)) then RESTRICT
     else ALLOW).
Proof.
  unfold decide_at, set_resource_sensitivity, modify.
  cbv beta iota.
  match goal with
  | |- context [evaluate now ctx ?e] =>
      destruct (evaluate_result now ctx e) as [r [Hr [_ [_ Hd]]]];
      rewrite Hr; unfold fst
  end.
  rewrite Hd. cbv zeta. unfold dict_get_default.
  cbv beta iota delta [resource_sensitivity deny_threshold
                       challenge_threshold restrict_threshold].
  rewrite dict_get_set_same. reflexivity.
Qed.

(** X6. For an engine whose three thresholds are not negative, giving the
    resource of a request a higher sensitivity level never relaxes the
    decision: with levels [l1 <= l2] set by [set_resource_sensitivity],
    the decision at [l2] is at least as strict as the one at [l1]. *)
Theorem raising_sensitivity_never_relaxes (l1 l2 now : Q)
  (ctx : AccessContext) (e : AccessDecisionEngine) :
  0 <= deny_threshold e -> 0 <= challenge_threshold e ->
  0 <= restrict_threshold e -> l1 <= l2 ->
  exists d1 d2,
    decide_at l1 now ctx e = Returned d1 /\
    decide_at l2 now ctx e = Returned d2 /\
    (strictness d1 <= strictness d2)%Z.
Proof.
  intros D C R L. rewrite !decide_at_cascade.
  do 2 eexists. split; [reflexivity|]. split; [reflexivity|].
  cbv zeta.
  assert (S : Qmax 0.0 (Qmin 1.0 l1) <= Qmax 0.0 (Qmin 1.0 l2))
    by (apply Q.max_le_compat_l, Q.min_le_compat_l, L).
  revert S.
  generalize (Qmax 0.0 (Qmin 1.0 l1)), (Qmax 0.0 (Qmin 1.0 l2)),
             (_calculate_trust_score ctx).
  revert D C R.
  generalize (deny_threshold e), (challenge_threshold e),
             (restrict_threshold e).
  intros d c r D C R s1 s2 t S.
  apply cascade_order; [apply Qle_refl | nra ..].
Qed.

Lemma raising_sensitivity_never_relaxes_witness :
  exists d1 d2,
    decide_at 0.2 0 trusted_context new_engine = Returned d1 /\
    decide_at 0.9 0 trusted_context new_engine = Returned d2 /\
    (strictness d1 <= strictness d2)%Z.
Proof.
  apply (raising_sensitivity_never_relaxes 0.2 0.9 0 trusted_context
           new_engine);
    apply Qle_bool_iff; vm_compute; reflexivity.
Defined.

(** X7. [set_resource_sensitivity] stores a level between 0 and 1 (the
    given one when it already lies there), leaves the levels of the other
    resources as they were, and changes neither thresholds nor log. *)
Theorem set_resource_sensitivity_clamps (r : string) (level : Q)
  (e : AccessDecisionEngine) :
  exists v e',
    set_resource_sensitivity r level e = (Returned tt, e') /\
    dict_get String.eqb (resource_sensitivity e') r = Some v /\
    0 <= v /\ v <= 1 /\
    (0 <= level -> level <= 1 -> v == level) /\
    (forall r', r <> r' ->
       dict_get String.eqb (resource_sensitivity e') r'
       = dict_get String.eqb (resource_sensitivity e) r') /\
    deny_threshold e' = deny_threshold e /\
    challenge_threshold e' = challenge_threshold e /\
    restrict_threshold e' = restrict_threshold e /\
    decision_log e' = decision_log e.
Proof.
  unfold set_resource_sensitivity, modify. do 2 eexists.
  split; [reflexivity|].
  cbv beta iota delta [resource_sensitivity deny_threshold
                       challenge_threshold restrict_threshold decision_log].
  split; [apply dict_get_set_same|].
  split; [apply Qle_trans with 0.0; [discriminate | apply Q.le_max_l]|].
  split; [apply Q.max_lub; [discriminate | apply Qmin_one_le]|].
  split.
  - intros L0 L1.
    rewrite Q.min_r by (apply Qle_trans with 1; [exact L1 | discriminate]).
    apply Q.max_r. apply Qle_trans with 0; [discriminate | exact L0].
  - split; [intros r' N; now apply dict_get_set_other | repeat split].
Qed.

End AccessOrder.

(** ** The verifier: counts, timing and session keys *)

Section VerifierSessions.
Import Context Engine Verification Props Sessions Terms.

Lemma initialize_session_effect (now : Q) (ctx : AccessContext)
  (v : ContinuousVerifier) :
  exists r res v' st,
    initialize_session now ctx v = (Returned res, v') /\
    engine v' = snd (evaluate now ctx (engine v)) /\
    fst (evaluate now ctx (engine v)) = Returned r /\
    reverify_interval v' = reverify_interval v /\
    states v' = dict_set String.eqb (states v) (session_key ctx) st /\
    verification_count st = 0%Z /\
    last_verified st = now /\
    vs_entity_id st = Context.entity_id ctx /\
    vs_session_id st = session_id ctx /\
    current_decision st = decision r /\
    length (trust_history st) = 1%nat.
Proof.
  destruct (evaluate_result now ctx (engine v)) as [r [Hr _]].
  unfold initialize_session, bind, get, on_engine, store_state, modify, ret.
  rewrite Hr.
  exists r. do 3 eexists.
  split; [reflexivity|]. repeat split.
Qed.

Lemma reverify_effect (now : Q) (ctx : AccessContext)
  (v : ContinuousVerifier) (st : VerificationState) :
  dict_get String.eqb (states v) (session_key ctx) = Some st ->
  exists r res v' st',
    reverify now ctx v = (Returned res, v') /\
    engine v' = snd (evaluate now ctx (engine v)) /\
    fst (evaluate now ctx (engine v)) = Returned r /\
    reverify_interval v' = reverify_interval v /\
    states v' = dict_set String.eqb (states v) (session_key ctx) st' /\
    verification_count st' = (verification_count st + 1)%Z /\
    last_verified st' = now /\
    vs_entity_id st' = vs_entity_id st /\
    vs_session_id st' = vs_session_id st /\
    current_decision st' = decision r /\
    length (trust_history st') = S (length (trust_history st)).
Proof.
  intro H.
  destruct (evaluate_result now ctx (engine v)) as [r [Hr _]].
  unfold reverify, bind, get, on_engine, store_state, modify, ret.
  rewrite H, Hr.
  exists r. do 3 eexists.
  split; [reflexivity|]. repeat split.
  cbv beta iota delta [trust_history]. rewrite length_app. cbn [length]. lia.
Qed.

Lemma reverify_each_counts (calls : list (Q * AccessContext)) (key : string) :
  Forall (fun c => session_key (snd c) = key) calls ->
  forall (v : ContinuousVerifier) (st : VerificationState),
    dict_get String.eqb (states v) key = Some st ->
    exists v' st',
      reverify_each calls v = (Returned tt, v') /\
      dict_get String.eqb (states v') key = Some st' /\
      verification_count st' =
        (verification_count st + Z.of_nat (length calls))%Z /\
      length (trust_history st') =
        (length (trust_history st) + length calls)%nat /\
      length (decision_log (engine v')) =
        (length (decision_log (engine v)) + length calls)%nat.
Proof.
  induction 1 as [|[now ctx] calls K _ IH]; intros v st H.
  - exists v, st. cbn [reverify_each length]. unfold ret.
    repeat split; [exact H | lia | lia | lia].
  - cbn [snd] in K. subst key.
    destruct (reverify_effect now ctx v st H)
      as [r [res [v1 [st1 [R [E1 [E2 [_ [S1 [C1 [_ [_ [_ [_ L1]]]]]]]]]]]]]].
    assert (H1 : dict_get String.eqb (states v1) (session_key ctx) = Some st1)
      by (rewrite S1; apply dict_get_set_same).
    destruct (IH v1 st1 H1) as [v' [st' [R' [G [C [L D]]]]]].
    exists v', st'. cbn [reverify_each]. unfold bind at 1. rewrite R.
    split; [exact R'|]. split; [exact G|].
    rewrite C, L, D, C1, L1, E1. cbn [length].
    destruct (evaluate_result now ctx (engine v)) as [r' [Hr _]].
    rewrite Hr. cbn [snd decision_log]. rewrite length_app. cbn [length].
    repeat split; lia.
Qed.

(** X8. After [initialize_session] and then any number of [reverify] calls
    for the same entity and session, the state of the session counts
    exactly the re-verifications, holds one trust-history point per
    evaluation, and the engine has logged one decision per evaluation. *)
Theorem reverify_counts_verifications (now : Q) (ctx : AccessContext)
  (calls : list (Q * AccessContext)) (v : ContinuousVerifier) :
  Forall (fun c => session_key (snd c) = session_key ctx) calls ->
  exists v' st,
    (initialize_session now ctx ;;; reverify_each calls) v
      = (Returned tt, v') /\
    dict_get String.eqb (states v') (session_key ctx) = Some st /\
    verification_count st = Z.of_nat (length calls) /\
    length (trust_history st) = S (length calls) /\
    length (decision_log (engine v')) =
      S (length (decision_log (engine v)) + length calls).
Proof.
  intro K.
  destruct (initialize_session_effect now ctx v)
    as [r [res [v0 [st0 [I [E1 [E2 [_ [S0 [C0 [_ [_ [_ [_ L0]]]]]]]]]]]]]].
  assert (H0 : dict_get String.eqb (states v0) (session_key ctx) = Some st0)
    by (rewrite S0; apply dict_get_set_same).
  destruct (reverify_each_counts calls (session_key ctx) K v0 st0 H0)
    as [v' [st' [R [G [C [L D]]]]]].
  exists v', st'. unfold bind. rewrite I.
  split; [exact R|]. split; [exact G|].
  rewrite C, L, D, C0, L0, E1.
  destruct (evaluate_result now ctx (engine v)) as [r' [Hr _]].
  rewrite Hr. cbn [snd decision_log]. rewrite length_app. cbn [length].
  repeat split; lia.
Qed.

Lemma reverify_counts_verifications_witness :
  exists v' st,
    (initialize_session 0 trusted_context ;;;
     reverify_each [(1, distrusted_context); (2, trusted_context)])
      new_verifier
      = (Returned tt, v') /\
    dict_get String.eqb (states v') (session_key trusted_context) = Some st /\
    verification_count st = 2%Z /\
    length (trust_history st) = 3%nat /\
    length (decision_log (engine v')) = 3%nat.
Proof.
  apply (reverify_counts_verifications 0 trusted_context
           [(1, distrusted_context); (2, trusted_context)] new_verifier).
  repeat constructor.
Defined.

(** X9. Once [reverify] has run for a session at time [now] (opening the
    session if it had no state), [needs_reverification] at a later time
    [now'] answers whether strictly more than [reverify_interval] has
    passed since [now]. *)
Theorem needs_reverification_after_reverify (now now' : Q)
  (ctx : AccessContext) (v : ContinuousVerifier) :
  exists res v',
    reverify now ctx v = (Returned res, v') /\
    needs_reverification now' v' (Context.entity_id ctx) (session_id ctx)
    = Qgtb (now' - now) (reverify_interval v).
Proof.
  unfold needs_reverification.
  change (String.append (Context.entity_id ctx)
            (String.append ":" (session_id ctx)))
    with (session_key ctx).
  destruct (dict_get String.eqb (states v) (session_key ctx)) as [st|] eqn:H.
  - destruct (reverify_effect now ctx v st H)
      as [r [res [v' [st' [R [_ [_ [I [S [_ [T _]]]]]]]]]]].
    exists res, v'. split; [exact R|].
    rewrite S, dict_get_set_same, T, I. reflexivity.
  - destruct (initialize_session_effect now ctx v)
      as [r [res [v' [st' [R [_ [_ [I [S [_ [T _]]]]]]]]]]].
    exists res, v'. split.
    + unfold reverify, bind, get. rewrite H. exact R.
    + rewrite S, dict_get_set_same, T, I. reflexivity.
Qed.

Lemma append_assoc (a b c : string) :
  String.append (String.append a b) c = String.append a (String.append b c).
Proof.
  induction a as [|x a IH]; cbn; [reflexivity | now rewrite IH].
Qed.

(** X10. The key of a session is the entity and the session identifier
    joined by a colon, so it does not keep the two apart: the session
    [s2] that entity [e:s1] opens is also what [get_state] reports, with
    that entity's identifiers, for entity [e] and session [s1:s2]. *)
Theorem session_keys_collide (now : Q) (e s1 s2 : string)
  (ctx : AccessContext) (v : ContinuousVerifier) :
  exists res v' fields,
    initialize_session now
      (with_session (String.append e (String.append ":" s1)) s2 ctx) v
      = (Returned res, v') /\
    get_state v' e (String.append s1 (String.append ":" s2)) = Some fields /\
    get_state v' (String.append e (String.append ":" s1)) s2 = Some fields /\
    sget fields "entity_id"
      = Some (VStr (String.append e (String.append ":" s1))) /\
    sget fields "session_id" = Some (VStr s2).
Proof.
  set (c := with_session (String.append e (String.append ":" s1)) s2 ctx).
  destruct (initialize_session_effect now c v)
    as [r [res [v' [st [R [_ [_ [_ [S [_ [_ [E1 [E2 _]]]]]]]]]]]]].
  assert (K1 : String.append e
                 (String.append ":" (String.append s1 (String.append ":" s2)))
               = session_key c).
  { unfold session_key, c.
    cbn [with_session Context.entity_id session_id].
    rewrite append_assoc. reflexivity. }
  assert (K2 : String.append (String.append e (String.append ":" s1))
                             (String.append ":" s2)
               = session_key c) by reflexivity.
  exists res, v'. eexists. split; [exact R|].
  unfold get_state. rewrite K1, K2.
  rewrite S, dict_get_set_same.
  split; [reflexivity|]. split; [reflexivity|].
  rewrite E1, E2. split; reflexivity.
Qed.

End VerifierSessions.

(** ** The risk engine: range, history and order *)

Section RiskHistory.
Import Risk History Slices.

Lemma weighted_sum_returns (cs ws : list (string * Q)) (acc : Q) :
  forallb (fun kw => dict_mem String.eqb cs (fst kw)) ws = true ->
  exists c,
    weighted_sum cs ws acc = Returned c /\
    c == acc + Qsum (map (fun kw =>
                            dict_get_default String.eqb cs (fst kw) 0
                            * snd kw) ws).
Proof.
  revert acc. induction ws as [|[k w] ws IH]; intros acc H.
  - exists acc. split; [reflexivity|]. unfold Qsum. cbn. ring.
  - cbn [forallb fst] in H. apply andb_true_iff in H as [Hk Hr].
    cbn [weighted_sum]. unfold dict_mem in Hk.
    destruct (dict_get String.eqb cs k) as [c0|] eqn:G; [|discriminate].
    destruct (IH (acc + c0 * w) Hr) as [c [E V]].
    exists c. split; [exact E|]. rewrite V. cbn [map fst snd].
    rewrite Qsum_cons. unfold dict_get_default. rewrite G. ring.
Qed.

Lemma weighted_sum_raises (cs ws : list (string * Q)) (acc : Q) :
  forallb (fun kw => dict_mem String.eqb cs (fst kw)) ws = false ->
  weighted_sum cs ws acc = Raised KeyError.
Proof.
  revert acc. induction ws as [|[k w] ws IH]; intros acc H;
    [discriminate|].
  cbn [forallb fst] in H. cbn [weighted_sum]. unfold dict_mem in H.
  destruct (dict_get String.eqb cs k); [|reflexivity].
  cbn [andb] in H. now apply IH.
Qed.

Lemma first_level_returns (ths : list (string * Q)) (c : Q)
  (labels : list string) :
  forallb (dict_mem String.eqb ths) labels = true ->
  exists l,
    first_level ths c labels = Returned l /\ (In l labels \/ l = "low").
Proof.
  induction labels as [|lbl labels IH]; intro H.
  - exists "low". split; [reflexivity | now right].
  - cbn [forallb] in H. apply andb_true_iff in H as [Hl Hr].
    cbn [first_level]. unfold dict_mem in Hl.
    destruct (dict_get String.eqb ths lbl) as [t|]; [|discriminate].
    destruct (Qgeb c t).
    + exists lbl. split; [reflexivity | left; now left].
    + destruct (IH Hr) as [l [E [I|I]]]; exists l; (split; [exact E|]).
      * left. now right.
      * now right.
Qed.

Lemma forallb_pointwise {A} (f g : A -> bool) (l : list A) :
  (forall x, f x = g x) -> forallb f l = forallb g l.
Proof.
  intro H. induction l as [|x l IH]; [reflexivity|].
  cbn [forallb]. now rewrite H, IH.
Qed.

(** The five components are keyed by the component names, whatever their
    values. *)
Lemma components_keyed (ws : list (string * Q)) (b d n t a : Q) :
  forallb (fun kw => mem (fst kw) component_names) ws = true ->
  forallb (fun kw =>
             dict_mem String.eqb
               [("behavior", b); ("device", d); ("network", n);
                ("threat", t); ("auth", a)] (fst kw)) ws = true.
Proof.
  intro H. rewrite forallb_forall in *. intros kw I. specialize (H kw I).
  unfold mem, component_names in H. cbn [existsb] in H.
  unfold dict_mem. cbn [dict_get].
  repeat (apply orb_true_iff in H as [H|H];
          [apply String.eqb_eq in H; rewrite H; reflexivity|]).
  discriminate H.
Qed.

(** What [calculate] returns on a well-keyed engine: the weighted sum of
    the five components, clamped and rounded, and the level it reaches. *)
Lemma calculate_result (now : Q) (id : string) (b d n : Q) (ip : string)
  (a : Q) (e : RiskEngine) :
  well_keyed e = true ->
  exists r threat,
    calculate now id b d n ip a e =
      (Returned r,
       {| weights := weights e; threat_intel := threat_intel e;
          risk_history :=
            dict_set String.eqb (risk_history e) id
              (dict_get_default String.eqb (risk_history e) id [] ++ [r]);
          thresholds := thresholds e |}) /\
    rs_entity_id r = id /\
    components r =
      [("behavior", b); ("device", Qmax 0.0 (1.0 - d));
       ("network", Qmax 0.0 (1.0 - n)); ("threat", threat);
       ("auth", Qmax 0.0 (1.0 - a))] /\
    (forall b', exists r',
        fst (calculate now id b' d n ip a e) = Returned r' /\
        components r' =
          [("behavior", b'); ("device", Qmax 0.0 (1.0 - d));
           ("network", Qmax 0.0 (1.0 - n)); ("threat", threat);
           ("auth", Qmax 0.0 (1.0 - a))] /\
        exists c',
          composite_score r' = py_round (Qmax 0.0 (Qmin 1.0 c')) 4 /\
          c' == Qsum (map (fun kw =>
                             dict_get_default String.eqb (components r')
                                              (fst kw) 0 * snd kw)
                          (weights e))) /\
    (exists c,
       composite_score r = py_round (Qmax 0.0 (Qmin 1.0 c)) 4 /\
       c == Qsum (map (fun kw =>
                         dict_get_default String.eqb (components r)
                                          (fst kw) 0 * snd kw)
                      (weights e))) /\
    In (risk_level r) level_names.
Proof.
  intro K. unfold well_keyed in K. apply andb_true_iff in K as [Kw Kt].
  assert (R : forall b0 t,
             exists c l,
               weighted_sum
                 [("behavior", b0); ("device", Qmax 0.0 (1.0 - d));
                  ("network", Qmax 0.0 (1.0 - n)); ("threat", t);
                  ("auth", Qmax 0.0 (1.0 - a))] (weights e) 0
               = Returned c /\
               c == Qsum (map (fun kw =>
                                 dict_get_default String.eqb
                                   [("behavior", b0);
                                    ("device", Qmax 0.0 (1.0 - d));
                                    ("network", Qmax 0.0 (1.0 - n));
                                    ("threat", t);
                                    ("auth", Qmax 0.0 (1.0 - a))]
                                   (fst kw) 0 * snd kw) (weights e)) /\
               first_level (thresholds e)
                 (py_round (Qmax 0.0 (Qmin 1.0 c)) 4) level_names
               = Returned l /\ In l level_names).
  { intros b0 t.
    destruct (weighted_sum_returns _ (weights e) 0
                (components_keyed (weights e) b0 (Qmax 0.0 (1.0 - d))
                   (Qmax 0.0 (1.0 - n)) t (Qmax 0.0 (1.0 - a)) Kw))
      as [c [Ec Vc]].
    destruct (first_level_returns (thresholds e)
                (py_round (Qmax 0.0 (Qmin 1.0 c)) 4) level_names Kt)
      as [l [El Il]].
    exists c, l. split; [exact Ec|]. split; [rewrite Vc; ring|].
    split; [exact El|].
    destruct Il as [I| ->]; [exact I|]. cbn. tauto. }
  unfold calculate, bind, get, put, ret, lift. cbv zeta.
  fold level_names.
  destruct (negb (String.eqb ip "")),
           (Qgtb (check_ip (threat_intel e) ip) 0),
           (Qgtb (check_credential (threat_intel e) id) 0);
    match goal with
    | |- context [weighted_sum
                    [_; _; _; ("threat", ?t); _] _ _] =>
        destruct (R b t) as [c [l [Ec [Vc [El Il]]]]];
        rewrite Ec, El;
        do 2 eexists;
        (split; [reflexivity|]);
        (split; [reflexivity|]);
        (split; [reflexivity|]);
        (split;
         [intro b';
          destruct (R b' t) as [c' [l' [Ec' [Vc' [El' Il']]]]];
          rewrite Ec', El'; eexists;
          (split; [reflexivity|]); (split; [reflexivity|]);
          exists c'; split; [reflexivity | exact Vc']|]);
        split; [exists c; split; [reflexivity | exact Vc] | exact Il]
    end.
Qed.

(** X11. On an engine keyed as [RiskEngine()] keys it, [calculate]
    returns for every input; the composite score lies between 0 and 1,
    the level is one of the four labels, and the score is appended to the
    history of its entity.  With a weight under a key that is not a
    component it raises [KeyError] and records nothing. *)
Theorem composite_score_in_unit_interval (now : Q) (id : string)
  (b d n : Q) (ip : string) (a : Q) (e : RiskEngine) :
  (well_keyed e = true ->
   exists r e',
     calculate now id b d n ip a e = (Returned r, e') /\
     0 <= composite_score r /\ composite_score r <= 1 /\
     In (risk_level r) level_names /\
     dict_get String.eqb (risk_history e') id =
       Some (dict_get_default String.eqb (risk_history e) id [] ++ [r])) /\
  (forallb (fun kw => mem (fst kw) component_names) (weights e) = false ->
   calculate now id b d n ip a e = (Raised KeyError, e)).
Proof.
  split.
  - intro K.
    destruct (calculate_result now id b d n ip a e K)
      as [r [t [E [_ [_ [_ [[c [C _]] L]]]]]]].
    exists r. eexists. split; [exact E|].
    split; [|split; [|split]].
    + rewrite C. apply py_round_nonneg.
      apply Qle_trans with 0.0; [discriminate | apply Q.le_max_l].
    + rewrite C. apply py_round_le_one.
      apply Q.max_lub; [discriminate | apply Qmin_one_le].
    + exact L.
    + cbn [risk_history]. apply dict_get_set_same.
  - intro K.
    assert (R : forall b0 d0 n0 t a0,
               weighted_sum
                 [("behavior", b0); ("device", d0); ("network", n0);
                  ("threat", t); ("auth", a0)] (weights e) 0
               = Raised KeyError).
    { intros. apply weighted_sum_raises.
      rewrite (forallb_pointwise _
                 (fun kw => mem (fst kw) component_names)); [exact K|].
      intros [k w]. cbn [fst].
      unfold dict_mem, mem, component_names. cbn [dict_get existsb].
      rewrite !(String.eqb_sym k).
      repeat (destruct (String.eqb _ k); [reflexivity|]). reflexivity. }
    unfold calculate, bind, get, lift. cbv zeta.
    destruct (negb (String.eqb ip "")),
             (Qgtb (check_ip (threat_intel e) ip) 0),
             (Qgtb (check_credential (threat_intel e) id) 0);
      now rewrite R.
Qed.

Lemma composite_score_in_unit_interval_witness :
  (exists r e',
     calculate 0 "alice" 0.1 0.95 0.8 "" 0.9 new_risk_engine
       = (Returned r, e') /\
     0 <= composite_score r /\ composite_score r <= 1 /\
     In (risk_level r) level_names /\
     dict_get String.eqb (risk_history e') "alice" = Some [r]) /\
  calculate 0 "alice" 0.1 0.95 0.8 "" 0.9
    {| weights := [("behavior", 0.5); ("foo", 0.5)];
       threat_intel := threat_intel new_risk_engine;
       risk_history := []; thresholds := thresholds new_risk_engine |}
  = (Raised KeyError,
     {| weights := [("behavior", 0.5); ("foo", 0.5)];
        threat_intel := threat_intel new_risk_engine;
        risk_history := []; thresholds := thresholds new_risk_engine |}).
Proof.
  split.
  - exact (proj1 (composite_score_in_unit_interval 0 "alice" 0.1 0.95 0.8
                    "" 0.9 new_risk_engine) eq_refl).
  - exact (proj2 (composite_score_in_unit_interval 0 "alice" 0.1 0.95 0.8
                    "" 0.9
                    {| weights := [("behavior", 0.5); ("foo", 0.5)];
                       threat_intel := threat_intel new_risk_engine;
                       risk_history := [];
                       thresholds := thresholds new_risk_engine |})
                 eq_refl).
Defined.

(** X12. After [calculate] for an entity on a well-keyed engine,
    [get_risk_trend] with a positive [n] is what [get_risk_trend] with
    [n - 1] gave before (nothing for [n = 1]) followed by the new
    composite score; with [n = 0] it returns every score of the entity,
    not none; and the trend of every other entity is unchanged. *)
Theorem risk_trend_after_calculate (now : Q) (id : string)
  (b d n : Q) (ip : string) (a : Q) (e : RiskEngine) (k : Z) :
  well_keyed e = true ->
  exists r e',
    calculate now id b d n ip a e = (Returned r, e') /\
    ((0 < k)%Z ->
     get_risk_trend e' id k =
     (if (k =? 1)%Z then [] else get_risk_trend e id (k - 1))
     ++ [composite_score r]) /\
    get_risk_trend e' id 0 =
      get_risk_trend e id 0 ++ [composite_score r] /\
    length (get_risk_trend e' id 0) =
      S (length (dict_get_default String.eqb (risk_history e) id [])) /\
    (forall id', id <> id' ->
       get_risk_trend e' id' k = get_risk_trend e id' k).
Proof.
  intro K.
  destruct (calculate_result now id b d n ip a e K) as [r [t [E _]]].
  exists r. eexists. split; [exact E|].
  unfold get_risk_trend, dict_get_default. cbn [risk_history].
  rewrite dict_get_set_same.
  split; [|split; [|split]].
  - intro K'. rewrite slice_last_after_append by exact K'.
    rewrite map_app. cbn [map]. destruct (k =? 1)%Z; reflexivity.
  - unfold slice_last. cbn [Z.eqb]. now rewrite map_app.
  - unfold slice_last. cbn [Z.eqb].
    rewrite length_map, length_app. cbn [length]. lia.
  - intros id' N. now rewrite dict_get_set_other.
Qed.

Lemma risk_trend_after_calculate_witness :
  exists r e',
    calculate 0 "alice" 0.1 0.95 0.8 "" 0.9 new_risk_engine
      = (Returned r, e') /\
    get_risk_trend e' "alice" 3 = [composite_score r] /\
    get_risk_trend e' "alice" 0 = [composite_score r].
Proof.
  destruct (risk_trend_after_calculate 0 "alice" 0.1 0.95 0.8 "" 0.9
              new_risk_engine 3 eq_refl)
    as [r [e' [E [T [T0 _]]]]].
  exists r, e'. split; [exact E|]. split.
  - exact (T eq_refl).
  - exact T0.
Defined.

Lemma Qsum_le (A : Type) (f g : A -> Q) (l : list A) :
  (forall x, In x l -> f x <= g x) ->
  Qsum (map f l) <= Qsum (map g l).
Proof.
  induction l as [|x l IH]; intro H.
  - apply Qle_refl.
  - cbn [map]. rewrite !Qsum_cons.
    assert (f x <= g x) by (apply H; now left).
    assert (Qsum (map f l) <= Qsum (map g l))
      by (apply IH; intros y Hy; apply H; now right).
    lra.
Qed.

(** X13. On a well-keyed engine without a negative weight, a higher
    behaviour score never lowers the composite risk score: with the other
    inputs equal, [b1 <= b2] gives composite scores in the same order. *)
Theorem composite_monotone_in_behavior (now : Q) (id : string)
  (b1 b2 d n : Q) (ip : string) (a : Q) (e : RiskEngine) :
  well_keyed e = true ->
  Forall (fun kw => 0 <= snd kw) (weights e) ->
  b1 <= b2 ->
  exists r1 r2,
    fst (calculate now id b1 d n ip a e) = Returned r1 /\
    fst (calculate now id b2 d n ip a e) = Returned r2 /\
    composite_score r1 <= composite_score r2.
Proof.
  intros K W B.
  destruct (calculate_result now id b1 d n ip a e K)
    as [r1 [t [E1 [_ [K1 [Other [[c1 [C1 V1]] _]]]]]]].
  destruct (Other b2) as [r2 [E2 [K2 [c2 [C2 V2]]]]].
  exists r1, r2. rewrite E1. split; [reflexivity|].
  split; [exact E2|].
  rewrite C1, C2.
  apply py_round_mono, Q.max_le_compat_l, Q.min_le_compat_l.
  rewrite V1, V2, K1, K2.
  apply Qsum_le. intros [k w] Hk. cbn [fst snd].
  assert (0 <= w).
  { rewrite Forall_forall in W. apply (W (k, w) Hk). }
  assert (dict_get_default String.eqb
            [("behavior", b1); ("device", Qmax 0.0 (1.0 - d));
             ("network", Qmax 0.0 (1.0 - n)); ("threat", t);
             ("auth", Qmax 0.0 (1.0 - a))] k 0
          <= dict_get_default String.eqb
               [("behavior", b2); ("device", Qmax 0.0 (1.0 - d));
                ("network", Qmax 0.0 (1.0 - n)); ("threat", t);
                ("auth", Qmax 0.0 (1.0 - a))] k 0).
  { unfold dict_get_default, dict_get.
    repeat (destruct (String.eqb _ k); [first [exact B | apply Qle_refl]|]).
    apply Qle_refl. }
  nra.
Qed.

Lemma composite_monotone_in_behavior_witness :
  exists r1 r2,
    fst (calculate 0 "alice" 0.1 0.95 0.8 "" 0.9 new_risk_engine)
      = Returned r1 /\
    fst (calculate 0 "alice" 0.6 0.95 0.8 "" 0.9 new_risk_engine)
      = Returned r2 /\
    composite_score r1 <= composite_score r2.
Proof.
  apply (composite_monotone_in_behavior 0 "alice" 0.1 0.6 0.95 0.8 "" 0.9
           new_risk_engine).
  - reflexivity.
  - repeat constructor; discriminate.
  - discriminate.
Defined.

End RiskHistory.

(** ** Policies: evaluation, priority and conflicts *)

Section PolicyStore.
Import Policy Rules Terms.

Lemma cmp_op_outcome (f : comparison -> bool) (a v : value) :
  (exists b, cmp_op f a v = Returned b) \/ cmp_op f a v = Raised TypeError.
Proof.
  unfold cmp_op. destruct (py_cmp a v); eauto.
Qed.

Lemma py_in_outcome (a v : value) :
  (exists b, py_in a v = Returned b) \/ py_in a v = Raised TypeError.
Proof.
  destruct v; cbn; eauto; destruct a; eauto.
Qed.

Lemma condition_returns (c : PolicyCondition)
  (context : list (string * value)) :
  Policy.evaluate c context = Returned (holds context c).
Proof.
  unfold holds.
  assert (R : exists b, Policy.evaluate c context = Returned b).
  { unfold Policy.evaluate. cbv zeta.
    destruct (is_none (vget context (field c))); [eauto|].
    unfold ops, dict_get.
    destruct (String.eqb "eq" (operator c)); [eauto|].
    destruct (String.eqb "ne" (operator c)); [eauto|].
    destruct (String.eqb "gt" (operator c)).
    { destruct (cmp_op_outcome
                  (fun c => match c with Gt => true | _ => false end)
                  (vget context (field c)) (value_ c)) as [[b E]|E];
        unfold py_gt; rewrite E; eauto. }
    destruct (String.eqb "lt" (operator c)).
    { destruct (cmp_op_outcome
                  (fun c => match c with Lt => true | _ => false end)
                  (vget context (field c)) (value_ c)) as [[b E]|E];
        unfold py_lt; rewrite E; eauto. }
    destruct (String.eqb "gte" (operator c)).
    { destruct (cmp_op_outcome
                  (fun c => match c with Lt => false | _ => true end)
                  (vget context (field c)) (value_ c)) as [[b E]|E];
        unfold py_ge; rewrite E; eauto. }
    destruct (String.eqb "lte" (operator c)).
    { destruct (cmp_op_outcome
                  (fun c => match c with Gt => false | _ => true end)
                  (vget context (field c)) (value_ c)) as [[b E]|E];
        unfold py_le; rewrite E; eauto. }
    destruct (String.eqb "in" (operator c)).
    { destruct (py_in_outcome (vget context (field c)) (value_ c))
        as [[b E]|E]; rewrite E; eauto. }
    destruct (String.eqb "not_in" (operator c)); [|eauto].
    destruct (py_in_outcome (vget context (field c)) (value_ c))
      as [[b E]|E]; rewrite E; cbn [obind]; eauto. }
  destruct R as [b R]. now rewrite R.
Qed.

Lemma all_hold_returns (cs : list PolicyCondition)
  (context : list (string * value)) :
  all_hold cs context = Returned (forallb (holds context) cs).
Proof.
  induction cs as [|c cs IH]; [reflexivity|].
  cbn [all_hold forallb]. rewrite condition_returns. cbn [obind].
  destruct (holds context c); [exact IH | reflexivity].
Qed.

Lemma rule_evaluate_returns (r : PolicyRule)
  (context : list (string * value)) :
  rule_evaluate r context = Returned (matching context r).
Proof.
  unfold rule_evaluate, matching.
  destruct (rule_enabled r); cbn [negb andb]; [|reflexivity].
  apply all_hold_returns.
Qed.

Lemma rule_matches_returns (pid : string) (rs : list PolicyRule)
  (context : list (string * value)) :
  rule_matches pid rs context =
  Returned (map (fun r => (priority r, r, pid))
                (filter (matching context) rs)).
Proof.
  induction rs as [|r rs IH]; [reflexivity|].
  cbn [rule_matches filter]. rewrite rule_evaluate_returns, IH.
  cbn [obind]. destruct (matching context r); reflexivity.
Qed.

Lemma all_matches_returns (ps : list PolicyT)
  (context : list (string * value)) :
  all_matches ps context =
  Returned
    (flat_map
       (fun p =>
          if enabled p then
            map (fun r => (priority r, r, policy_id p))
                (filter (matching context) (rules p))
          else [])
       ps).
Proof.
  induction ps as [|p ps IH]; [reflexivity|].
  cbn [all_matches flat_map]. rewrite IH.
  destruct (enabled p); [rewrite rule_matches_returns|]; reflexivity.
Qed.

Lemma sorted_nil {A} (leb : A -> A -> bool) (l : list A) :
  Graph.sorted leb l = [] -> l = [].
Proof.
  destruct l as [|x l]; [reflexivity|].
  unfold Graph.sorted. cbn [fold_right].
  destruct (fold_right (Graph.insert leb) [] l) as [|y s]; cbn;
    [discriminate|].
  destruct (leb x y); discriminate.
Qed.

(** What [evaluate] answers, from the rules that match. *)
Lemma evaluate_candidates (e : PolicyEngine)
  (context : list (string * value)) :
  Rules.evaluate e context =
  Returned
    match Graph.sorted by_priority (candidates e context) with
    | [] => default_deny
    | best :: _ =>
        [("decision", VStr (PolicyEffect_value (effect (snd (fst best)))));
         ("rule_id", VStr (rule_id (snd (fst best))));
         ("policy_id", VStr (snd best));
         ("priority", VInt (fst (fst best)));
         ("description", VStr (rule_description (snd (fst best))));
         ("total_matches",
          VInt (Z.of_nat (length (candidates e context))))]
    end.
Proof.
  unfold Rules.evaluate. rewrite all_matches_returns. cbn [obind].
  fold (candidates e context).
  destruct (candidates e context) as [|m l] eqn:C; [reflexivity|].
  destruct (Graph.sorted by_priority (m :: l)) eqn:S; [|reflexivity].
  apply sorted_nil in S. discriminate.
Qed.

(** X14. Policy evaluation never raises: a condition, a rule and the
    engine return for every operator, value and context (an unknown
    operator and operands that cannot be compared make the condition
    false), and the engine's decision is one of allow, deny and
    challenge. *)
Theorem policy_evaluation_never_raises (e : PolicyEngine) (r : PolicyRule)
  (c : PolicyCondition) (context : list (string * value)) :
  (exists b, Policy.evaluate c context = Returned b) /\
  (exists b, rule_evaluate r context = Returned b) /\
  (exists d,
      Rules.evaluate e context = Returned d /\
      In (vget d "decision") [VStr "allow"; VStr "deny"; VStr "challenge"]).
Proof.
  split; [eexists; apply condition_returns|].
  split; [eexists; apply rule_evaluate_returns|].
  rewrite evaluate_candidates. eexists. split; [reflexivity|].
  destruct (Graph.sorted by_priority (candidates e context)) as [|best ?].
  - cbn. tauto.
  - unfold vget, dict_get_default. cbn [dict_get String.eqb Ascii.eqb
                                          Bool.eqb].
    destruct (effect (snd (fst best))); cbn; tauto.
Qed.

Lemma In_candidates (e : PolicyEngine) (context : list (string * value))
  (m : Z * PolicyRule * string) :
  In m (candidates e context) <->
  exists p,
    In p (dict_values (policies e)) /\ enabled p = true /\
    In (snd (fst m)) (rules p) /\ matching context (snd (fst m)) = true /\
    fst (fst m) = priority (snd (fst m)) /\ snd m = policy_id p.
Proof.
  unfold candidates. rewrite in_flat_map. split.
  - intros [p [P H]]. exists p. destruct (enabled p); [|destruct H].
    apply in_map_iff in H. destruct H as [r [<- F]].
    apply filter_In in F. cbn. tauto.
  - intros [p [P [E [R [M [Q S]]]]]]. exists p. split; [exact P|].
    rewrite E. apply in_map_iff. exists (snd (fst m)).
    split; [|apply filter_In; tauto].
    destruct m as [[q r] s]. cbn in *. now subst.
Qed.

(** X15. The engine denies by default exactly when no enabled rule of an
    enabled policy matches the context; a disabled rule or policy never
    contributes, and an enabled rule without conditions always matches. *)
Theorem default_deny_iff_nothing_matches (e : PolicyEngine)
  (context : list (string * value)) :
  Rules.evaluate e context = Returned default_deny <->
  (forall p r,
      In p (dict_values (policies e)) -> enabled p = true ->
      In r (rules p) -> rule_enabled r = true ->
      forallb (holds context) (conditions r) = false).
Proof.
  rewrite evaluate_candidates. split.
  - intros H p r P E R N.
    destruct (Graph.sorted by_priority (candidates e context)) eqn:S;
      [|discriminate].
    apply sorted_nil in S.
    destruct (forallb (holds context) (conditions r)) eqn:F; [|reflexivity].
    assert (I : In (priority r, r, policy_id p) (candidates e context)).
    { apply In_candidates. exists p. cbn. unfold matching.
      rewrite N, F. tauto. }
    rewrite S in I. destruct I.
  - intro H.
    assert (S : candidates e context = []).
    { destruct (candidates e context) as [|m l] eqn:C; [reflexivity|].
      assert (I : In m (candidates e context)) by (rewrite C; now left).
      apply In_candidates in I.
      destruct I as [p [P [E [R [M _]]]]].
      unfold matching in M. apply andb_true_iff in M. destruct M as [N F].
      rewrite (H p _ P E R N) in F. discriminate. }
    rewrite S. reflexivity.
Qed.

(** The head of the stable sort by priority is the first candidate of
    least priority number. *)
Lemma sorted_by_priority_head (l : list (Z * PolicyRule * string)) :
  match Graph.sorted by_priority l with
  | [] => l = []
  | best :: _ =>
      exists before after,
        l = before ++ best :: after /\
        (forall m, In m before -> (fst (fst best) < fst (fst m))%Z) /\
        (forall m, In m after -> (fst (fst best) <= fst (fst m))%Z)
  end.
Proof.
  induction l as [|a l IH]; [reflexivity|].
  unfold Graph.sorted in *. cbn [fold_right].
  destruct (fold_right (Graph.insert by_priority) [] l) as [|x s].
  - subst l. cbn. exists [], []. split; [reflexivity|].
    split; intros m [].
  - destruct IH as [before [after [L [B A]]]].
    cbn [Graph.insert]. unfold by_priority at 1.
    destruct (fst (fst a) <=? fst (fst x))%Z eqn:C.
    + apply Z.leb_le in C. exists [], l. split; [reflexivity|].
      split; [intros m []|].
      intros m I. rewrite L in I. apply in_app_or in I.
      destruct I as [I|[<-|I]].
      * specialize (B m I). lia.
      * exact C.
      * specialize (A m I). lia.
    + apply Z.leb_gt in C. exists (a :: before), after.
      split; [now rewrite L|]. split; [|exact A].
      intros m [<-|I]; [exact C | now apply B].
Qed.

(** X16. When some enabled rule of an enabled policy matches, the engine
    answers with a matching rule of an enabled policy whose priority
    number is the lowest of all matching rules, the first such in store
    order, and reports how many rules matched. *)
Theorem evaluate_picks_lowest_priority (e : PolicyEngine)
  (context : list (string * value)) (p : PolicyT) (r : PolicyRule) :
  In p (dict_values (policies e)) -> enabled p = true ->
  In r (rules p) -> matching context r = true ->
  exists best p' before after,
    In p' (dict_values (policies e)) /\ enabled p' = true /\
    In best (rules p') /\ matching context best = true /\
    candidates e context
      = before ++ (priority best, best, policy_id p') :: after /\
    (forall m, In m before -> (priority best < fst (fst m))%Z) /\
    (forall m, In m after -> (priority best <= fst (fst m))%Z) /\
    (priority best <= priority r)%Z /\
    Rules.evaluate e context =
      Returned
        [("decision", VStr (PolicyEffect_value (effect best)));
         ("rule_id", VStr (rule_id best));
         ("policy_id", VStr (policy_id p'));
         ("priority", VInt (priority best));
         ("description", VStr (rule_description best));
         ("total_matches",
          VInt (Z.of_nat (length (candidates e context))))].
Proof.
  intros P E R M.
  assert (I : In (priority r, r, policy_id p) (candidates e context)).
  { apply In_candidates. exists p. cbn. tauto. }
  rewrite evaluate_candidates.
  pose proof (sorted_by_priority_head (candidates e context)) as H.
  destruct (Graph.sorted by_priority (candidates e context)) as [|best s].
  - rewrite H in I. destruct I.
  - destruct H as [before [after [L [B A]]]].
    assert (Ib : In best (candidates e context)).
    { rewrite L. apply in_or_app. right. now left. }
    apply In_candidates in Ib.
    destruct Ib as [p' [P' [E' [R' [M' [Q' S']]]]]].
    destruct best as [[q rb] pid]. cbn [fst snd] in *. subst q pid.
    exists rb, p', before, after.
    repeat (split; [assumption|]).
    split; [|reflexivity].
    rewrite L in I. apply in_app_or in I. destruct I as [I|[I|I]].
    + specialize (B _ I). cbn in B. lia.
    + injection I as I _ _. lia.
    + specialize (A _ I). cbn in A. lia.
Qed.

Lemma evaluate_picks_lowest_priority_witness :
  exists best p' before after,
    In p' (dict_values (policies example_policies)) /\ enabled p' = true /\
    In best (rules p') /\
    matching [("role", VStr "admin")] best = true /\
    candidates example_policies [("role", VStr "admin")]
      = before ++ (priority best, best, policy_id p') :: after /\
    (forall m, In m before -> (priority best < fst (fst m))%Z) /\
    (forall m, In m after -> (priority best <= fst (fst m))%Z) /\
    (priority best <= 100)%Z /\
    Rules.evaluate example_policies [("role", VStr "admin")] =
      Returned
        [("decision", VStr (PolicyEffect_value (effect best)));
         ("rule_id", VStr (rule_id best));
         ("policy_id", VStr (policy_id p'));
         ("priority", VInt (priority best));
         ("description", VStr (rule_description best));
         ("total_matches",
          VInt (Z.of_nat
                  (length (candidates example_policies
                             [("role", VStr "admin")]))))].
Proof.
  apply (evaluate_picks_lowest_priority example_policies
           [("role", VStr "admin")]
           (policy "base"
              [rule "anyone" Rules.CHALLENGE [] 100;
               rule "admins" Rules.ALLOW
                    [condition "role" "eq" (VStr "admin")] 10])
           (rule "anyone" Rules.CHALLENGE [] 100)).
  - left. reflexivity.
  - reflexivity.
  - left. reflexivity.
  - reflexivity.
Defined.

Lemma dict_remove_set_fresh {V} (d : list (string * V)) (k : string) (v : V) :
  dict_get String.eqb d k = None ->
  dict_remove (dict_set String.eqb d k v) k = d.
Proof.
  induction d as [|[k' v'] d IH]; cbn [dict_get dict_set dict_remove].
  - now rewrite String.eqb_refl.
  - destruct (String.eqb k' k) eqn:E; [discriminate|].
    intro H. cbn [dict_remove]. rewrite E. now rewrite IH.
Qed.

Lemma dict_get_remove_other {V} (d : list (string * V)) (k k' : string) :
  k <> k' ->
  dict_get String.eqb (dict_remove d k) k' = dict_get String.eqb d k'.
Proof.
  intro N. induction d as [|[j v] d IH]; [reflexivity|].
  cbn [dict_remove dict_get].
  destruct (String.eqb j k) eqn:E.
  - apply String.eqb_eq in E. subst j.
    destruct (String.eqb k k') eqn:E'; [|reflexivity].
    apply String.eqb_eq in E'. contradiction.
  - cbn [dict_get]. destruct (String.eqb j k'); [reflexivity | exact IH].
Qed.

(** X17. Adding a policy makes it the one stored under its identifier and
    leaves the others alone; removing it again reports success, and when
    the identifier was new the store is exactly what it was before, on
    which removing that identifier reports failure. *)
Theorem add_then_remove_policy (p : PolicyT) (e : PolicyEngine) :
  exists e1,
    add_policy p e = (Returned tt, e1) /\
    dict_get String.eqb (policies e1) (policy_id p) = Some p /\
    (forall id, policy_id p <> id ->
       dict_get String.eqb (policies e1) id
       = dict_get String.eqb (policies e) id) /\
    fst (remove_policy (policy_id p) e1) = Returned true /\
    (dict_get String.eqb (policies e) (policy_id p) = None ->
     snd (remove_policy (policy_id p) e1) = e /\
     fst (remove_policy (policy_id p) e) = Returned false).
Proof.
  unfold add_policy, remove_policy, modify. eexists.
  split; [reflexivity|]. cbn [fst snd policies].
  split; [apply dict_get_set_same|].
  split; [intros id N; now apply dict_get_set_other|].
  split.
  - unfold dict_mem. now rewrite dict_get_set_same.
  - intro H. rewrite dict_remove_set_fresh by exact H.
    unfold dict_mem. rewrite H. destruct e. split; reflexivity.
Qed.

Lemma py_eq_scalar_euclid (a v w : value) :
  scalar v = true -> scalar w = true ->
  py_eq a v = true -> py_eq a w = true -> py_eq v w = true.
Proof.
  intros Sv Sw.
  assert (N : forall x q r,
             as_number v = Some q -> as_number w = Some r ->
             Qeq_bool x q = true -> Qeq_bool x r = true ->
             py_eq v w = true).
  { intros x q r Hv Hw Eq Er.
    apply Qeq_bool_iff in Eq. apply Qeq_bool_iff in Er.
    assert (E : q == r) by (rewrite <- Eq; exact Er).
    destruct v; try discriminate; cbn in Hv; injection Hv as <-;
      cbn [py_eq]; rewrite Hw; apply Qeq_bool_iff; exact E. }
  destruct a; cbn [py_eq].
  - destruct v; try discriminate. destruct w; try discriminate. reflexivity.
  - destruct (as_number v) eqn:Hv; [|discriminate].
    destruct (as_number w) eqn:Hw; [|discriminate]. eauto.
  - destruct (as_number v) eqn:Hv; [|discriminate].
    destruct (as_number w) eqn:Hw; [|discriminate]. eauto.
  - destruct (as_number v) eqn:Hv; [|discriminate].
    destruct (as_number w) eqn:Hw; [|discriminate]. eauto.
  - destruct v; try discriminate. destruct w; try discriminate.
    intros E1 E2. apply String.eqb_eq in E1. apply String.eqb_eq in E2.
    cbn [py_eq]. apply String.eqb_eq. congruence.
  - destruct v; discriminate.
  - destruct v; discriminate.
Qed.

Lemma holds_eq (context : list (string * value)) (c : PolicyCondition) :
  operator c = "eq" -> holds context c = true ->
  py_eq (vget context (field c)) (value_ c) = true.
Proof.
  intros O. unfold holds, Policy.evaluate. cbv zeta.
  destruct (is_none (vget context (field c))); [discriminate|].
  rewrite O. cbn [ops dict_get String.eqb Ascii.eqb Bool.eqb].
  auto.
Qed.

Lemma overlap_sound
  (conds1 conds2 : list PolicyCondition) (context : list (string * value)) :
  Forall (fun c => scalar (value_ c) = true) conds1 ->
  Forall (fun c => scalar (value_ c) = true) conds2 ->
  _conditions_overlap conds1 conds2 = false ->
  ~ (all_hold conds1 context = Returned true /\
     all_hold conds2 context = Returned true).
Proof.
  intros S1 S2 O [H1 H2].
  rewrite all_hold_returns in H1, H2.
  injection H1 as H1. injection H2 as H2.
  rewrite forallb_forall in H1, H2.
  rewrite Forall_forall in S1, S2.
  unfold _conditions_overlap in O. cbv zeta in O.
  destruct (filter (fun f => Rules.mem f (fields_of conds2))
                   (fields_of conds1)) as [|f0 fs]; [discriminate|].
  apply negb_false_iff in O.
  apply existsb_exists in O. destruct O as [f [_ O]].
  apply existsb_exists in O. destruct O as [a [Ia O]].
  apply existsb_exists in O. destruct O as [b [Ib O]].
  apply filter_In in Ia. destruct Ia as [Ia Fa].
  apply filter_In in Ib. destruct Ib as [Ib Fb].
  apply String.eqb_eq in Fa. apply String.eqb_eq in Fb.
  unfold contradict in O.
  apply andb_true_iff in O. destruct O as [O N].
  apply andb_true_iff in O. destruct O as [Oa Ob].
  apply String.eqb_eq in Oa. apply String.eqb_eq in Ob.
  apply negb_true_iff in N.
  pose proof (holds_eq context a Oa (H1 a Ia)) as Ea.
  pose proof (holds_eq context b Ob (H2 b Ib)) as Eb.
  rewrite Fa in Ea. rewrite Fb in Eb.
  rewrite (py_eq_scalar_euclid _ _ _ (S1 a Ia) (S2 b Ib) Ea Eb) in N.
  discriminate.
Qed.

(** X18. The conflict check is sound where it rules a conflict out: if
    [_conditions_overlap] answers false for two condition lists whose
    values are scalars, no context satisfies both lists. *)
Theorem no_overlap_means_no_common_context
  (conds1 conds2 : list PolicyCondition) (context : list (string * value)) :
  Forall (fun c => scalar (value_ c) = true) conds1 ->
  Forall (fun c => scalar (value_ c) = true) conds2 ->
  _conditions_overlap conds1 conds2 = false ->
  ~ (all_hold conds1 context = Returned true /\
     all_hold conds2 context = Returned true).
Proof.
  apply overlap_sound.
Qed.

Lemma no_overlap_means_no_common_context_witness :
  ~ (all_hold [condition "role" "eq" (VStr "admin")]
              [("role", VStr "admin")] = Returned true /\
     all_hold [condition "role" "eq" (VStr "guest")]
              [("role", VStr "admin")] = Returned true).
Proof.
  apply (no_overlap_means_no_common_context
           [condition "role" "eq" (VStr "admin")]
           [condition "role" "eq" (VStr "guest")]
           [("role", VStr "admin")]).
  - repeat constructor.
  - repeat constructor.
  - reflexivity.
Defined.

Lemma In_pairs {A} (l1 l2 l3 : list A) (a b : A) :
  In (a, b) (pairs (l1 ++ a :: l2 ++ b :: l3)).
Proof.
  induction l1 as [|x l1 IH]; cbn [app pairs]; apply in_or_app.
  - left. apply in_map. apply in_or_app. right. now left.
  - right. exact IH.
Qed.

(** X19. [detect_conflicts] misses no real conflict between rules whose
    conditions compare with scalars: when two enabled rules of enabled
    policies have different effects and some context matches both, the
    pair is reported, with the rule of lower priority number (the earlier
    one on a tie) as the winner. *)
Theorem real_conflicts_are_reported (e : PolicyEngine)
  (l1 l2 l3 : list (string * PolicyRule)) (a b : string * PolicyRule)
  (context : list (string * value)) :
  enabled_rules e = l1 ++ a :: l2 ++ b :: l3 ->
  effect (snd a) <> effect (snd b) ->
  Forall (fun c => scalar (value_ c) = true) (conditions (snd a)) ->
  Forall (fun c => scalar (value_ c) = true) (conditions (snd b)) ->
  matching context (snd a) = true -> matching context (snd b) = true ->
  In [("rule_1",
       VDict [("policy_id", VStr (fst a));
              ("rule_id", VStr (rule_id (snd a)));
              ("effect", VStr (PolicyEffect_value (effect (snd a))))]);
      ("rule_2",
       VDict [("policy_id", VStr (fst b));
              ("rule_id", VStr (rule_id (snd b)));
              ("effect", VStr (PolicyEffect_value (effect (snd b))))]);
      ("type", VStr "overlapping_conditions_different_effects");
      ("resolved_by", VStr "priority");
      ("winner",
       VStr (if (priority (snd a) <=? priority (snd b))%Z
             then rule_id (snd a) else rule_id (snd b)))]
     (detect_conflicts e).
Proof.
  intros L D Sa Sb Ma Mb.
  unfold detect_conflicts. apply in_flat_map. exists (a, b).
  split; [rewrite L; apply In_pairs|].
  cbn [fst snd]. unfold conflict. cbv zeta.
  assert (E : effect_eqb (effect (snd a)) (effect (snd b)) = false).
  { unfold effect_eqb.
    destruct (effect (snd a)), (effect (snd b)); try reflexivity;
      now contradiction D. }
  rewrite E.
  destruct (_conditions_overlap (conditions (snd a)) (conditions (snd b)))
    eqn:O; [now left|].
  exfalso.
  apply (overlap_sound _ _ context Sa Sb O).
  unfold matching in Ma, Mb.
  apply andb_true_iff in Ma. apply andb_true_iff in Mb.
  rewrite !all_hold_returns. destruct Ma as [_ ->], Mb as [_ ->].
  split; reflexivity.
Qed.

Lemma real_conflicts_are_reported_witness :
  In [("rule_1",
       VDict [("policy_id", VStr "base"); ("rule_id", VStr "anyone");
              ("effect", VStr "challenge")]);
      ("rule_2",
       VDict [("policy_id", VStr "base"); ("rule_id", VStr "admins");
              ("effect", VStr "allow")]);
      ("type", VStr "overlapping_conditions_different_effects");
      ("resolved_by", VStr "priority");
      ("winner", VStr "admins")]
     (detect_conflicts example_policies).
Proof.
  apply (real_conflicts_are_reported example_policies [] [] []
           ("base", rule "anyone" Rules.CHALLENGE [] 100)
           ("base", rule "admins" Rules.ALLOW
                         [condition "role" "eq" (VStr "admin")] 10)
           [("role", VStr "admin")]).
  - reflexivity.
  - discriminate.
  - constructor.
  - repeat constructor.
  - reflexivity.
  - reflexivity.
Defined.

End PolicyStore.

(** ** The baseline: counting, framing, probabilities and decay *)

Section BaselineStore.
Import Builtins Baseline Props Decay Terms.

Lemma starting_count (now now' : Q) (e : string)
  (ev ev' : list (string * value)) (b : BehavioralBaseline) :
  observation_count (starting_profile now e ev b)
  = observation_count (starting_profile now' e ev' b).
Proof.
  unfold starting_profile. destruct (get_profile b e); reflexivity.
Qed.

Lemma observe_each_counts (e : string)
  (calls : list (Q * list (string * value))) :
  forall (b : BehavioralBaseline) (n : Z),
  (0 <= n)%Z ->
  well_shaped_store (n + updates calls) b e ->
  forallb (fun c => well_typed_event (snd c)) calls = true ->
  exists b',
    observe_each e calls b = (Returned tt, b') /\
    well_shaped_store n b' e /\
    (forall now ev,
        observation_count (starting_profile now e ev b')
        = (observation_count (starting_profile now e ev b)
           + Z.of_nat (length calls))%Z) /\
    (calls <> [] -> exists p, get_profile b' e = Some p).
Proof.
  induction calls as [|[now event] calls IH]; intros b n Hn W T.
  - exists b. split; [reflexivity|]. split.
    { unfold updates in W. cbn [length flat_map Nat.add Z.of_nat] in W.
      now rewrite Z.add_0_r in W. }
    split; [intros; cbn [length]; lia|].
    intro N. now contradiction N.
  - cbn [forallb snd] in T. apply andb_true_iff in T. destruct T as [T1 T2].
    rewrite updates_cons, Z.add_assoc in W.
    pose proof (updates_nonneg calls) as U.
    destruct (observe_effect now e event b (n + updates calls)
                ltac:(lia) W T1)
      as [p1 [b1 [E [G [S1 [R1 [O _]]]]]]].
    assert (W1 : well_shaped_store (n + updates calls) b1 e)
      by (eapply well_shaped_store_stored; eauto).
    destruct (IH b1 n Hn W1 T2) as [b' [E' [W' [C' S']]]].
    exists b'. cbn [observe_each]. unfold bind at 1. rewrite E.
    split; [exact E'|]. split; [exact W'|]. split.
    + intros now' ev'. rewrite C'.
      rewrite (starting_profile_stored now' e ev' b1 p1 G), O.
      rewrite (starting_count now now' e event ev' b).
      cbn [length]. lia.
    + intros _. destruct calls as [|c calls'].
      * cbn [observe_each] in E'. unfold ret in E'.
        injection E' as <-. eauto.
      * apply S'. discriminate.
Qed.

(** X20. Every well-typed [observe] counts once: when the profile of the
    entity has its array shapes and room in its counts for the updates
    the calls ask for, any sequence of them returns, [observation_count]
    has grown by the number of calls (from 0 when the entity had no
    profile), and the profile is stored under the entity. *)
Theorem observation_count_counts_observes (e : string)
  (calls : list (Q * list (string * value))) (b : BehavioralBaseline) :
  well_shaped_store (updates calls) b e ->
  forallb (fun c => well_typed_event (snd c)) calls = true ->
  exists b',
    observe_each e calls b = (Returned tt, b') /\
    (forall now ev,
        observation_count (starting_profile now e ev b')
        = (observation_count (starting_profile now e ev b)
           + Z.of_nat (length calls))%Z) /\
    (calls <> [] -> exists p, get_profile b' e = Some p).
Proof.
  intros W T.
  destruct (observe_each_counts e calls b 0 (Z.le_refl 0) W T)
    as [b' [E [_ [C S]]]].
  exists b'. auto.
Qed.

Lemma observation_count_counts_observes_witness :
  exists b',
    observe_each "alice"
      [(0, [("hour", VInt 9)]); (1, [("location", VStr "us-east")])]
      new_baseline
    = (Returned tt, b') /\
    (forall now ev,
        observation_count (starting_profile now "alice" ev b')
        = (observation_count (starting_profile now "alice" ev new_baseline)
           + 2)%Z) /\
    ([(0, [("hour", VInt 9)]); (1, [("location", VStr "us-east")])] <> [] ->
     exists p, get_profile b' "alice" = Some p).
Proof.
  apply (observation_count_counts_observes "alice"
           [(0, [("hour", VInt 9)]); (1, [("location", VStr "us-east")])]
           new_baseline).
  - apply fresh_store_has_room; [reflexivity | split; [discriminate|]].
    reflexivity.
  - reflexivity.
Defined.

Lemma frames_bind {A B} (e' : string) (m : M BehavioralBaseline A)
  (k : A -> M BehavioralBaseline B) :
  frames e' m -> (forall a, frames e' (k a)) -> frames e' (bind m k).
Proof.
  intros Hm Hk b. unfold bind.
  destruct (Hm b) as [G D].
  destruct (m b) as [[a|x] b1]; cbn [snd] in *.
  - destruct (Hk a b1) as [G' D']. rewrite G', D'. auto.
  - auto.
Qed.

Lemma frames_ret {A} (e' : string) (a : A) : frames e' (ret a).
Proof. intro b. auto. Qed.

Lemma frames_lift {A} (e' : string) (o : outcome A) : frames e' (lift o).
Proof. intro b. auto. Qed.

Lemma frames_when (e' : string) (c : bool) (m : M BehavioralBaseline unit) :
  frames e' m -> frames e' (when c m).
Proof. destruct c; [auto | intros _; apply frames_ret]. Qed.

Lemma frames_profile_of (e e' : string) : frames e' (profile_of e).
Proof.
  intro b. unfold profile_of. destruct (get_profile b e); auto.
Qed.

Lemma frames_mutate (e e' : string)
  (f : BaselineProfile -> outcome BaselineProfile) :
  e <> e' -> frames e' (mutate e f).
Proof.
  intro N. unfold mutate.
  apply frames_bind; [apply frames_profile_of|]. intro p.
  apply frames_bind; [apply frames_lift|]. intro p'.
  intro b. unfold modify, get_profile. cbn [snd profiles decay_factor].
  split; [now apply dict_get_set_other | reflexivity].
Qed.

Lemma frames_observe_features (e e' : string) (items : list (string * value)) :
  e <> e' -> frames e' (observe_features e items).
Proof.
  intro N. induction items as [|[k v] items IH]; cbn [observe_features].
  - apply frames_ret.
  - repeat (apply frames_bind; [now apply frames_mutate | intros _]).
    exact IH.
Qed.

Lemma frames_observe (now : Q) (e e' : string)
  (event : list (string * value)) :
  e <> e' -> frames e' (observe now e event).
Proof.
  intro N. unfold observe. cbv zeta.
  apply frames_bind.
  { intro b. unfold get_or_create_profile, modify. cbn [snd].
    destruct (dict_mem String.eqb (profiles b) e); [auto|].
    unfold get_profile. cbn [profiles decay_factor].
    split; [now apply dict_get_set_other | reflexivity]. }
  intros _. apply frames_bind; [now apply frames_mutate|]. intros _.
  apply frames_bind.
  { apply frames_when. apply frames_bind; [apply frames_lift|].
    intro ok. apply frames_when. now apply frames_mutate. }
  intros _. apply frames_bind.
  { apply frames_when. apply frames_bind; [apply frames_lift|].
    intro ok. apply frames_when. now apply frames_mutate. }
  intros _. apply frames_bind; [apply frames_when; now apply frames_mutate|].
  intros _. apply frames_bind; [apply frames_when; now apply frames_mutate|].
  intros _. apply frames_bind.
  { apply frames_when.
    apply frames_bind; [now apply frames_mutate | intros _].
    now apply frames_mutate. }
  intros _. apply frames_bind; [apply frames_when; now apply frames_mutate|].
  intros _. apply frames_bind; [apply frames_when; now apply frames_mutate|].
  intros _. apply frames_bind; [|intros _; apply frames_profile_of].
  unfold observe_all_features.
  destruct (dict_get_default String.eqb event "features" (VDict []));
    try (intro b0; unfold raise; split; reflexivity).
  now apply frames_observe_features.
Qed.

(** X21. Observing an event for one entity never touches another entity:
    whatever the event holds, and also when [observe] raises on it, the
    profile stored for every other entity and the decay factor are what
    they were. *)
Theorem observe_leaves_other_entities (now : Q) (e e' : string)
  (event : list (string * value)) (b : BehavioralBaseline) :
  e <> e' ->
  get_profile (snd (observe now e event b)) e' = get_profile b e' /\
  decay_factor (snd (observe now e event b)) = decay_factor b.
Proof.
  intro N. now apply frames_observe.
Qed.

Lemma observe_leaves_other_entities_witness :
  get_profile
    (snd (observe 0 "alice" [("hour", VStr "noon")] new_baseline)) "bob"
  = get_profile new_baseline "bob" /\
  decay_factor (snd (observe 0 "alice" [("hour", VStr "noon")] new_baseline))
  = decay_factor new_baseline.
Proof.
  apply (observe_leaves_other_entities 0 "alice" "bob"
           [("hour", VStr "noon")] new_baseline).
  discriminate.
Defined.

Lemma Qsum_map_div (l : list Q) (t : Q) :
  Qsum (map (fun x => x / t) l) == Qsum l / t.
Proof.
  induction l as [|x l IH].
  - unfold Qsum. cbn [map fold_left]. unfold Qdiv. ring.
  - cbn [map]. rewrite !Qsum_cons, IH. unfold Qdiv. ring.
Qed.

Lemma Qsum_map_mul (l : list Q) (f : Q) :
  Qsum (map (fun x => x * f) l) == Qsum l * f.
Proof.
  induction l as [|x l IH].
  - unfold Qsum. cbn [map fold_left]. ring.
  - cbn [map]. rewrite !Qsum_cons, IH. ring.
Qed.

Lemma normalised_sum (l : list Q) :
  ~ Qsum l == 0 -> Qsum (map (fun x => x / Qsum l) l) == 1.
Proof.
  intro N. rewrite Qsum_map_div. field. exact N.
Qed.

(** X22. The hour and day-of-week probabilities of every profile add up
    to 1: the counts divided by their total, or the uniform distribution
    when nothing was counted. *)
Theorem probabilities_sum_to_one (p : BaselineProfile) :
  Qsum (hour_probabilities p) == 1 /\ Qsum (dow_probabilities p) == 1.
Proof.
  unfold hour_probabilities, dow_probabilities. cbv zeta. split.
  - destruct (Qeq_bool (Qsum (hour_distribution p)) 0) eqn:E.
    + vm_compute. reflexivity.
    + apply normalised_sum. now apply Qeq_bool_neq.
  - destruct (Qeq_bool (Qsum (dow_distribution p)) 0) eqn:E.
    + vm_compute. reflexivity.
    + apply normalised_sum. now apply Qeq_bool_neq.
Qed.

Lemma dict_get_map {V} (f : V -> V) (d : list (string * V)) (k : string) :
  dict_get String.eqb (map (fun kv => (fst kv, f (snd kv))) d) k
  = option_map f (dict_get String.eqb d k).
Proof.
  induction d as [|[k' v] d IH]; [reflexivity|].
  cbn [map dict_get fst snd]. destruct (String.eqb k' k); [reflexivity|].
  exact IH.
Qed.

Lemma scaled_quotients (l : list Q) (f t t' : Q) :
  t' == t * f -> ~ t == 0 -> ~ f == 0 ->
  Forall2 Qeq (map (fun x => x / t') (map (fun x => x * f) l))
              (map (fun x => x / t) l).
Proof.
  intros S T F. induction l as [|x l IH]; cbn [map]; constructor.
  - rewrite S. field. tauto.
  - exact IH.
Qed.

Lemma decayed_probabilities (l : list Q) (f : Q) (u : list Q) :
  ~ f == 0 ->
  Forall2 Qeq
    (if Qeq_bool (Qsum (map (fun x => x * f) l)) 0 then u
     else map (fun x => x / Qsum (map (fun x => x * f) l))
              (map (fun x => x * f) l))
    (if Qeq_bool (Qsum l) 0 then u else map (fun x => x / Qsum l) l).
Proof.
  intro F.
  assert (R : forall m : list Q, Forall2 Qeq m m).
  { induction m; constructor; [reflexivity | assumption]. }
  pose proof (Qsum_map_mul l f) as S.
  destruct (Qeq_bool (Qsum l) 0) eqn:E.
  - apply Qeq_bool_iff in E.
    assert (Z : Qsum (map (fun x => x * f) l) == 0) by (rewrite S, E; ring).
    apply Qeq_bool_iff in Z. rewrite Z. apply R.
  - apply Qeq_bool_neq in E.
    assert (Z : ~ Qsum (map (fun x => x * f) l) == 0).
    { rewrite S. intro H. apply Qmult_integral in H. tauto. }
    destruct (Qeq_bool (Qsum (map (fun x => x * f) l)) 0) eqn:E'.
    { apply Qeq_bool_iff in E'. contradiction. }
    now apply scaled_quotients.
Qed.

(** X23. [decay_profiles] with a decay factor other than 0 scales the
    hour and day-of-week counts of every profile by the factor and so
    leaves their probabilities as they were; the observation count, the
    session statistics and the frequency counters are not decayed. *)
Theorem decay_keeps_probabilities (b : BehavioralBaseline) (e : string)
  (p : BaselineProfile) :
  get_profile b e = Some p -> ~ decay_factor b == 0 ->
  exists b' p',
    decay_profiles b = (Returned tt, b') /\
    get_profile b' e = Some p' /\
    hour_distribution p'
      = map (fun x => x * decay_factor b) (hour_distribution p) /\
    dow_distribution p'
      = map (fun x => x * decay_factor b) (dow_distribution p) /\
    Forall2 Qeq (hour_probabilities p') (hour_probabilities p) /\
    Forall2 Qeq (dow_probabilities p') (dow_probabilities p) /\
    observation_count p' = observation_count p /\
    session_count p' = session_count p /\
    session_duration_mean p' = session_duration_mean p /\
    session_duration_m2 p' = session_duration_m2 p /\
    resource_frequencies p' = resource_frequencies p /\
    locations_seen p' = locations_seen p /\
    all_entity_ids b' = all_entity_ids b.
Proof.
  intros G F. unfold decay_profiles, modify. do 2 eexists.
  split; [reflexivity|].
  unfold get_profile in *. cbn [profiles].
  rewrite (dict_get_map (decay_profile (decay_factor b))), G.
  split; [reflexivity|].
  unfold hour_probabilities, dow_probabilities, decay_profile.
  cbv zeta.
  cbn [set_distributions hour_distribution dow_distribution
       observation_count session_count session_duration_mean
       session_duration_m2 resource_frequencies locations_seen].
  split; [reflexivity|]. split; [reflexivity|].
  split; [now apply decayed_probabilities|].
  split; [now apply decayed_probabilities|].
  repeat (split; [reflexivity|]).
  unfold all_entity_ids, dict_keys. cbn [profiles].
  rewrite map_map. reflexivity.
Qed.

Lemma decay_keeps_probabilities_witness :
  exists b' p',
    decay_profiles (Anomaly.baseline busy_detector) = (Returned tt, b') /\
    get_profile b' "alice" = Some p' /\
    hour_distribution p'
      = map (fun x => x * decay_factor (Anomaly.baseline busy_detector))
            (hour_distribution busy_profile) /\
    dow_distribution p'
      = map (fun x => x * decay_factor (Anomaly.baseline busy_detector))
            (dow_distribution busy_profile) /\
    Forall2 Qeq (hour_probabilities p') (hour_probabilities busy_profile) /\
    Forall2 Qeq (dow_probabilities p') (dow_probabilities busy_profile) /\
    observation_count p' = observation_count busy_profile /\
    session_count p' = session_count busy_profile /\
    session_duration_mean p' = session_duration_mean busy_profile /\
    session_duration_m2 p' = session_duration_m2 busy_profile /\
    resource_frequencies p' = resource_frequencies busy_profile /\
    locations_seen p' = locations_seen busy_profile /\
    all_entity_ids b' = all_entity_ids (Anomaly.baseline busy_detector).
Proof.
  apply (decay_keeps_probabilities (Anomaly.baseline busy_detector) "alice"
           busy_profile).
  - reflexivity.
  - discriminate.
Defined.

Lemma take_firstn {A} (n : Z) (l : list A) :
  exists k, Detector.take n l = firstn k l /\
            ((0 <= n)%Z -> k = Z.to_nat n).
Proof.
  unfold Detector.take. destruct (0 <=? n)%Z eqn:E.
  - eexists. split; [reflexivity | auto].
  - eexists. split; [reflexivity|]. apply Z.leb_gt in E. lia.
Qed.

(** X24. [top_resources(n)] is the front of the resource counts arranged
    by falling count: together with what it leaves out it is a
    rearrangement of all counted resources in which no count is followed
    by a larger one, and for [n >= 0] it has [n] entries, or all of them
    when there are fewer. *)
Theorem top_resources_most_frequent_first (p : BaselineProfile) (n : Z) :
  exists rest,
    Permutation (resource_frequencies p) (top_resources p n ++ rest) /\
    StronglySorted (fun a b => (snd b <= snd a)%Z)
                   (top_resources p n ++ rest) /\
    ((0 <= n)%Z ->
     length (top_resources p n)
     = Nat.min (Z.to_nat n) (length (resource_frequencies p))).
Proof.
  unfold top_resources.
  set (leb := fun a b : value * Z => (snd b <=? snd a)%Z).
  destruct (take_firstn n (Graph.sorted leb (resource_frequencies p)))
    as [k [T K]].
  exists (skipn k (Graph.sorted leb (resource_frequencies p))).
  rewrite T, firstn_skipn. split; [apply sorted_perm|]. split.
  - assert (S : StronglySorted (fun a b => leb a b = true)
                  (Graph.sorted leb (resource_frequencies p))).
    { apply sorted_sorted; unfold leb; intros; lia. }
    revert S. generalize (Graph.sorted leb (resource_frequencies p)).
    induction 1 as [|x s S IH F]; constructor; [exact IH|].
    rewrite Forall_forall in *. intros y Hy. specialize (F y Hy).
    unfold leb in F. lia.
  - intro N. rewrite (K N), length_firstn.
    now rewrite <- (Permutation_length (sorted_perm leb _)).
Qed.

End BaselineStore.

(** ** The access graph: edges, paths and alerts *)

Section GraphPaths.
Import Graph Detector Paths Terms.

Lemma add_edge_adjacency (edge : AccessEdge) (g : AccessGraph) :
  adjacency (add_edge edge g) =
    dict_set String.eqb (adjacency g) (src edge)
      (dict_set String.eqb
         (dict_get_default String.eqb (adjacency g) (src edge) [])
         (dst edge)
         (get_edges_between g (src edge) (dst edge) ++ [edge])) /\
  edges (add_edge edge g) = edges g ++ [edge].
Proof.
  unfold add_edge. cbv zeta.
  repeat match goal with
         | |- context [if ?c then _ else _] => destruct c
         end; split; reflexivity.
Qed.

Lemma dict_get_set_fresh {V} (d : list (string * V)) (k n : string) (v t : V) :
  dict_get String.eqb d n = Some t -> dict_mem String.eqb d k = false ->
  dict_get String.eqb (dict_set String.eqb d k v) n = Some t.
Proof.
  intros G M. destruct (String.eqb k n) eqn:E.
  - apply String.eqb_eq in E. subst n. unfold dict_mem in M.
    rewrite G in M. discriminate.
  - rewrite dict_get_set_other; [exact G|].
    intro H. subst n. rewrite String.eqb_refl in E. discriminate.
Qed.

Lemma dict_mem_set {V} (d : list (string * V)) (k n : string) (v : V) :
  dict_mem String.eqb d n = true ->
  dict_mem String.eqb (dict_set String.eqb d k v) n = true.
Proof.
  unfold dict_mem. intro M. destruct (String.eqb k n) eqn:E.
  - apply String.eqb_eq in E. subst n. now rewrite dict_get_set_same.
  - rewrite dict_get_set_other; [exact M|].
    intro H. subst n. rewrite String.eqb_refl in E. discriminate.
Qed.

Lemma dict_mem_set_same {V} (d : list (string * V)) (k : string) (v : V) :
  dict_mem String.eqb (dict_set String.eqb d k v) k = true.
Proof. unfold dict_mem. now rewrite dict_get_set_same. Qed.

Lemma mem_keys_set {V} (d : list (string * V)) (k : string) (v : V) :
  Graph.mem k (dict_keys (dict_set String.eqb d k v)) = true.
Proof.
  unfold Graph.mem, dict_keys.
  induction d as [|[k' v'] d IH]; cbn [dict_set map fst existsb].
  - now rewrite String.eqb_refl.
  - destruct (String.eqb k' k) eqn:E; cbn [map fst existsb].
    + rewrite String.eqb_sym, E. reflexivity.
    + rewrite IH. apply orb_true_r.
Qed.

Lemma get_default_set_same {V} (d : list (string * V)) (k : string)
  (v dflt : V) :
  dict_get_default String.eqb (dict_set String.eqb d k v) k dflt = v.
Proof. unfold dict_get_default. now rewrite dict_get_set_same. Qed.

Lemma get_default_set_other {V} (d : list (string * V)) (k k' : string)
  (v dflt : V) :
  k <> k' ->
  dict_get_default String.eqb (dict_set String.eqb d k v) k' dflt
  = dict_get_default String.eqb d k' dflt.
Proof.
  intro N. unfold dict_get_default. now rewrite dict_get_set_other.
Qed.

Lemma add_edge_node_types (edge : AccessEdge) (g : AccessGraph) :
  node_types (add_edge edge g) =
    let nt :=
      if dict_mem String.eqb (node_types g) (src edge) then node_types g
      else dict_set String.eqb (node_types g) (src edge) "entity" in
    if dict_mem String.eqb nt (dst edge) then nt
    else dict_set String.eqb nt (dst edge) "resource".
Proof.
  unfold add_edge. cbv zeta. cbn [node_types].
  destruct (dict_mem String.eqb (node_types g) (src edge));
    cbn [node_types add_node];
    match goal with
    | |- context [if ?c then _ else _] => destruct c
    end; reflexivity.
Qed.

(** X25. [add_edge] appends the edge to the edge list and to the edges
    between its two endpoints, makes the target a neighbour of the
    source, leaves the edges between every other pair alone, and makes
    both endpoints nodes without changing the type of a node that
    existed. *)
Theorem add_edge_records_the_edge (edge : AccessEdge) (g : AccessGraph) :
  edges (add_edge edge g) = edges g ++ [edge] /\
  get_edges_between (add_edge edge g) (src edge) (dst edge)
    = get_edges_between g (src edge) (dst edge) ++ [edge] /\
  Graph.mem (dst edge) (get_neighbors (add_edge edge g) (src edge)) = true /\
  (forall s d, s <> src edge \/ d <> dst edge ->
     get_edges_between (add_edge edge g) s d = get_edges_between g s d) /\
  dict_mem String.eqb (node_types (add_edge edge g)) (src edge) = true /\
  dict_mem String.eqb (node_types (add_edge edge g)) (dst edge) = true /\
  (forall n t, dict_get String.eqb (node_types g) n = Some t ->
     dict_get String.eqb (node_types (add_edge edge g)) n = Some t).
Proof.
  destruct (add_edge_adjacency edge g) as [A E].
  split; [exact E|].
  split.
  { unfold get_edges_between at 1. rewrite A.
    now rewrite !get_default_set_same. }
  split.
  { unfold get_neighbors. rewrite A, get_default_set_same.
    apply mem_keys_set. }
  split.
  - intros s d H. unfold get_edges_between. rewrite A.
    destruct (String.eqb (src edge) s) eqn:Es.
    + apply String.eqb_eq in Es. subst s.
      rewrite get_default_set_same.
      apply get_default_set_other.
      intro D. destruct H as [H|H]; now apply H.
    + rewrite get_default_set_other; [reflexivity|].
      intro S. subst s. rewrite String.eqb_refl in Es. discriminate.
  - rewrite add_edge_node_types. cbv zeta.
    destruct (dict_mem String.eqb (node_types g) (src edge)) eqn:Ms.
    + destruct (dict_mem String.eqb (node_types g) (dst edge)) eqn:Md.
      * auto.
      * split; [now apply dict_mem_set|].
        split; [apply dict_mem_set_same|].
        intros n t G. now apply dict_get_set_fresh.
    + destruct (dict_mem String.eqb
                  (dict_set String.eqb (node_types g) (src edge) "entity")
                  (dst edge)) eqn:Md.
      * split; [apply dict_mem_set_same|]. split; [exact Md|].
        intros n t G. now apply dict_get_set_fresh.
      * split; [apply dict_mem_set, dict_mem_set_same|].
        split; [apply dict_mem_set_same|].
        intros n t G. apply dict_get_set_fresh; [|exact Md].
        now apply dict_get_set_fresh.
Qed.

Lemma hops_snoc (pre : list string) (c n : string) :
  hops ((pre ++ [c]) ++ [n]) = hops (pre ++ [c]) ++ [(c, n)].
Proof.
  induction pre as [|a pre IH]; [reflexivity|].
  change (((a :: pre) ++ [c]) ++ [n]) with (a :: ((pre ++ [c]) ++ [n])).
  change ((a :: pre) ++ [c]) with (a :: (pre ++ [c])).
  destruct (pre ++ [c]) as [|b q] eqn:Q.
  - destruct pre; discriminate.
  - change ((b :: q) ++ [n]) with (b :: (q ++ [n])) in *.
    cbn [hops] in *. rewrite IH. reflexivity.
Qed.

Lemma mem_spec (x : string) (l : list string) :
  Graph.mem x l = true <-> In x l.
Proof.
  unfold Graph.mem. rewrite existsb_exists. split.
  - intros [y [I E]]. apply String.eqb_eq in E. now subst.
  - intro I. exists x. split; [exact I | apply String.eqb_refl].
Qed.

Lemma dfs_sound (g : AccessGraph) (max_depth : nat) (target : string) :
  forall (fuel : nat) (pre : list string) (current : string)
         (visited p : list string),
    NoDup (pre ++ [current]) ->
    (forall x, In x (pre ++ [current]) -> Graph.mem x visited = true) ->
    linked g (pre ++ [current]) = true ->
    In p (dfs g max_depth fuel current target (pre ++ [current]) visited) ->
    (exists ext, p = (pre ++ [current]) ++ ext) /\
    last p target = target /\ NoDup p /\ linked g p = true.
Proof.
  induction fuel as [|fuel IH]; intros pre current visited p N V L H;
    [destruct H|].
  cbn [dfs] in H.
  destruct (max_depth <? length (pre ++ [current]))%nat; [destruct H|].
  destruct (String.eqb current target) eqn:E.
  - destruct H as [<-|[]]. apply String.eqb_eq in E. subst target.
    split; [exists []; now rewrite app_nil_r|].
    split; [apply last_last|]. auto.
  - apply in_flat_map in H. destruct H as [n [Hn H]].
    destruct (Graph.mem n visited) eqn:M; [destruct H|].
    assert (Nn : ~ In n (pre ++ [current])).
    { intro I. rewrite (V n I) in M. discriminate. }
    destruct (IH (pre ++ [current]) n (n :: visited) p) as [[ext X] R].
    + apply NoDup_app; [exact N | repeat constructor; intros [] |].
      intros x I [<-|[]]. now apply Nn.
    + intros x I. apply in_app_or in I. unfold Graph.mem. cbn [existsb].
      destruct I as [I|[<-|[]]].
      * fold (Graph.mem x visited). rewrite (V x I). apply orb_true_r.
      * now rewrite String.eqb_refl.
    + unfold linked in *. rewrite hops_snoc, forallb_app, L.
      cbn [forallb fst snd]. rewrite andb_true_r. now apply mem_spec.
    + exact H.
    + split; [|exact R]. exists (n :: ext). rewrite X.
      now rewrite <- app_assoc.
Qed.

(** X26. Every path [all_paths] returns is a path of the graph: it starts
    at the source, ends at the target, visits no node twice, each node is
    a neighbour of the one before it, and it has at most [max_depth]
    nodes. *)
Theorem all_paths_returns_simple_paths (g : AccessGraph) (s t : string)
  (max_depth : nat) (p : list string) :
  In p (all_paths g s t max_depth) ->
  hd_error p = Some s /\ last p t = t /\ NoDup p /\ linked g p = true /\
  (length p <= max_depth)%nat.
Proof.
  intro H. pose proof (all_paths_length g s t max_depth p H) as Len.
  unfold all_paths in H.
  destruct (dfs_sound g max_depth t (S max_depth) [] s [s] p) as [[ext X] R].
  - repeat constructor. intros [].
  - intros x [<-|[]]. unfold Graph.mem. cbn [existsb].
    now rewrite String.eqb_refl.
  - reflexivity.
  - exact H.
  - split; [now rewrite X|]. tauto.
Qed.

Lemma all_paths_returns_simple_paths_witness :
  hd_error ["guest"; "web"; "db"; "admin"] = Some "guest" /\
  last ["guest"; "web"; "db"; "admin"] "admin" = "admin" /\
  NoDup ["guest"; "web"; "db"; "admin"] /\
  linked Props.example_graph ["guest"; "web"; "db"; "admin"] = true /\
  (length ["guest"; "web"; "db"; "admin"] <= 4)%nat.
Proof.
  apply (all_paths_returns_simple_paths Props.example_graph "guest" "admin"
           4 ["guest"; "web"; "db"; "admin"]).
  vm_compute. left. reflexivity.
Defined.

Lemma tally_edge_bounds (t : Tally) (e : AccessEdge) :
  total_edges (tally_edge t e) = total_edges t /\
  (failed_edges t <= failed_edges (tally_edge t e) <= failed_edges t + 1)%Z /\
  (credential_changes t <= credential_changes (tally_edge t e)
   <= credential_changes t + 1)%Z.
Proof.
  unfold tally_edge. cbn [total_edges failed_edges credential_changes].
  split; [reflexivity|].
  destruct (success e); destruct (prev_cred t) as [c|];
    try destruct (negb (String.eqb c "")
                  && negb (String.eqb (credential_type e) c));
    lia.
Qed.

Lemma tally_edges_bounds (es : list AccessEdge) (t : Tally) :
  total_edges (fold_left tally_edge es t) = total_edges t /\
  (failed_edges t <= failed_edges (fold_left tally_edge es t)
   <= failed_edges t + Z.of_nat (length es))%Z /\
  (credential_changes t <= credential_changes (fold_left tally_edge es t)
   <= credential_changes t + Z.of_nat (length es))%Z.
Proof.
  revert t. induction es as [|e es IH]; intro t; cbn [fold_left length].
  - lia.
  - destruct (IH (tally_edge t e)) as [T [F C]].
    destruct (tally_edge_bounds t e) as [T1 [F1 C1]].
    rewrite Nat2Z.inj_succ. lia.
Qed.

Lemma tally_hops_bounds (g : AccessGraph) (hs : list (string * string))
  (t : Tally) :
  (0 <= failed_edges t <= total_edges t)%Z ->
  (0 <= credential_changes t <= total_edges t)%Z ->
  (0 <= failed_edges (fold_left (tally_hop g) hs t)
   <= total_edges (fold_left (tally_hop g) hs t))%Z /\
  (0 <= credential_changes (fold_left (tally_hop g) hs t)
   <= total_edges (fold_left (tally_hop g) hs t))%Z.
Proof.
  revert t. induction hs as [|h hs IH]; intros t F C; cbn [fold_left].
  - tauto.
  - apply IH; unfold tally_hop; cbv zeta;
      match goal with
      | |- context [fold_left tally_edge ?es ?t0] =>
          pose proof (tally_edges_bounds es t0) as B;
          cbn [total_edges failed_edges credential_changes] in B
      end; lia.
Qed.

(** X27. [analyze_path] on a path of fewer than two nodes answers only
    that the path is too short, under the key [risk] and without a
    [risk_score]; on a longer path it reports a [risk_score] between 0.1
    and 0.9, and counts of failed attempts and credential changes that
    are not negative and not above the number of edges along the path. *)
Theorem analyze_path_risk_range (d : LateralMovementDetector)
  (path : list string) :
  if (length path <? 2)%nat then
    analyze_path d path
    = [("risk", VFloat 0.0); ("reason", VStr "path_too_short")]
  else
    exists r total failed changes,
      sget (analyze_path d path) "risk_score" = Some (VFloat r) /\
      0.1 <= r /\ r <= 0.9 /\
      sget (analyze_path d path) "path_length"
        = Some (VInt (Z.of_nat (length path))) /\
      sget (analyze_path d path) "total_edges" = Some (VInt total) /\
      sget (analyze_path d path) "failed_attempts" = Some (VInt failed) /\
      sget (analyze_path d path) "credential_changes"
        = Some (VInt changes) /\
      (0 <= failed <= total)%Z /\ (0 <= changes <= total)%Z.
Proof.
  unfold analyze_path.
  destruct (length path <? 2)%nat eqn:E; [reflexivity|].
  apply Nat.ltb_ge in E. cbv zeta.
  match goal with
  | |- context [fold_left (tally_hop ?g) ?hs ?t0] =>
      destruct (tally_hops_bounds g hs t0) as [F C];
      [cbn; lia | cbn; lia |];
      revert F C;
      generalize (fold_left (tally_hop g) hs t0)
  end.
  intros t F C. do 4 eexists.
  split; [reflexivity|].
  split; [|split; [|repeat (split; [reflexivity|]); split; assumption]].
  - apply Qle_trans with (py_round 0.1 4);
      [apply Qle_bool_iff; vm_compute; reflexivity|].
    apply py_round_mono.
    assert (L : 0.1 <= Qmin 0.3 (inject_Z (Z.of_nat (length path)) * 0.05)).
    { apply Q.min_glb; [discriminate|].
      assert (2 <= inject_Z (Z.of_nat (length path))).
      { replace 2 with (inject_Z 2) by reflexivity.
        rewrite <- Zle_Qle. lia. }
      lra. }
    assert (A : 0 <= Qmin 0.3 (inject_Z (credential_changes t) * 0.1)).
    { apply Q.min_glb; [discriminate|].
      assert (0 <= inject_Z (credential_changes t)).
      { replace 0 with (inject_Z 0) by reflexivity.
        rewrite <- Zle_Qle. lia. }
      lra. }
    assert (B : 0 <= Qmin 0.3 (inject_Z (failed_edges t) * 0.05)).
    { apply Q.min_glb; [discriminate|].
      assert (0 <= inject_Z (failed_edges t)).
      { replace 0 with (inject_Z 0) by reflexivity.
        rewrite <- Zle_Qle. lia. }
      lra. }
    apply Q.min_glb; [discriminate|].
    revert L A B.
    generalize (Qmin 0.3 (inject_Z (Z.of_nat (length path)) * 0.05)),
               (Qmin 0.3 (inject_Z (credential_changes t) * 0.1)),
               (Qmin 0.3 (inject_Z (failed_edges t) * 0.05)).
    intros. lra.
  - apply Qle_trans with (py_round 0.9 4);
      [|apply Qle_bool_iff; vm_compute; reflexivity].
    apply py_round_mono.
    apply Qle_trans with
      (0.0 + Qmin 0.3 (inject_Z (Z.of_nat (length path)) * 0.05)
       + Qmin 0.3 (inject_Z (credential_changes t) * 0.1)
       + Qmin 0.3 (inject_Z (failed_edges t) * 0.05));
      [apply Q.le_min_r|].
    pose proof (Q.le_min_l 0.3 (inject_Z (Z.of_nat (length path)) * 0.05)).
    pose proof (Q.le_min_l 0.3 (inject_Z (credential_changes t) * 0.1)).
    pose proof (Q.le_min_l 0.3 (inject_Z (failed_edges t) * 0.05)).
    revert H H0 H1.
    generalize (Qmin 0.3 (inject_Z (Z.of_nat (length path)) * 0.05)),
               (Qmin 0.3 (inject_Z (credential_changes t) * 0.1)),
               (Qmin 0.3 (inject_Z (failed_edges t) * 0.05)).
    intros. lra.
Qed.

Section Alerts.

Variable np_sqrt : Q -> Q.

(** X28. When the hop threshold is not 0 and the embedding detector
    returns, which it does with no alert while no baseline has been
    learned, [detect] returns the alerts of its three detectors, all of
    them and no others, arranged so that no alert is followed by one of
    higher severity. *)
Theorem detect_orders_alerts_by_severity (d : LateralMovementDetector) :
  hop_threshold d <> 0%Z ->
  (baseline_embeddings d = [] ->
   _detect_embedding_anomalies np_sqrt d = Returned []) /\
  (forall embedding,
     _detect_embedding_anomalies np_sqrt d = Returned embedding ->
     exists alerts hopping,
       detect np_sqrt d = Returned alerts /\
       _detect_credential_hopping d = Returned hopping /\
       Permutation
         (hopping ++ _detect_privilege_escalation d ++ embedding) alerts /\
       StronglySorted (fun a b => severity b <= severity a) alerts).
Proof.
  intro H. split.
  { intro B. unfold _detect_embedding_anomalies. now rewrite B. }
  intros embedding E.
  destruct (hopping_returns d H) as [hopping C].
  unfold detect. rewrite C, E. cbn [obind]. cbv zeta.
  do 2 eexists. split; [reflexivity|]. split; [reflexivity|].
  split; [apply sorted_perm|].
  set (leb := fun a b : LateralMovementAlert =>
                Qle_bool (severity b) (severity a)).
  assert (S : StronglySorted (fun a b => leb a b = true)
                (sorted leb (hopping ++ _detect_privilege_escalation d
                               ++ embedding))).
  { apply sorted_sorted; unfold leb.
    - intros a b F. apply Qle_bool_iff.
      destruct (Qlt_le_dec (severity a) (severity b)) as [L|L];
        [now apply Qlt_le_weak|].
      apply Qle_bool_iff in L. congruence.
    - intros a b c A B. apply Qle_bool_iff in A. apply Qle_bool_iff in B.
      apply Qle_bool_iff. lra. }
  revert S. generalize (sorted leb (hopping ++ _detect_privilege_escalation d
                               ++ embedding)).
  induction 1 as [|x s S IH F]; constructor; [exact IH|].
  rewrite Forall_forall in *. intros y Hy. specialize (F y Hy).
  unfold leb in F. now apply Qle_bool_iff.
Qed.

End Alerts.

Lemma detect_orders_alerts_by_severity_witness :
  exists alerts hopping,
    detect Props.newton_sqrt learned_detector = Returned alerts /\
    _detect_credential_hopping learned_detector = Returned hopping /\
    Permutation
      (hopping ++ _detect_privilege_escalation learned_detector
               ++ learned_alerts)
      alerts /\
    StronglySorted (fun a b => severity b <= severity a) alerts.
Proof.
  apply (proj2 (detect_orders_alerts_by_severity Props.newton_sqrt
                  learned_detector ltac:(discriminate))).
  vm_compute. reflexivity.
Defined.

End GraphPaths.

(** ** Anomaly detection on thin and on established baselines *)

Section ThinBaselines.
Import Builtins Baseline Anomaly Props Terms.

Variable math_sqrt : Q -> Q.
Variable math_exp : Q -> Q.

(** X29. While an entity has been observed fewer than ten times (or not
    at all), [analyze] answers every event, whatever it holds, with the
    neutral result: score 0.5, not anomalous, reason
    [insufficient_baseline], no component scores; it never raises.  That
    is the case after fewer than ten well-typed calls of [observe] on an
    entity without a profile. *)
Theorem thin_baseline_is_neutral (e : string)
  (calls : list (Q * list (string * value))) (b : BehavioralBaseline)
  (event : list (string * value)) (d : AnomalyDetector) :
  ((forall p, get_profile (baseline d) e = Some p ->
              (observation_count p < 10)%Z) ->
   analyze math_sqrt math_exp e event d
   = (Returned
        {| ar_entity_id := e; anomaly_score := 0.5; is_anomalous := false;
           details := [("reason", VStr "insufficient_baseline")];
           component_scores := [] |}, d)) /\
  (get_profile b e = None ->
   forallb (fun c => well_typed_event (snd c)) calls = true ->
   (updates calls < float_limit)%Z ->
   (length calls < 10)%nat ->
   exists b',
     observe_each e calls b = (Returned tt, b') /\
     forall p, get_profile b' e = Some p -> (observation_count p < 10)%Z).
Proof.
  split.
  - intro H. unfold analyze, bind, get, ret.
    destruct (get_profile (baseline d) e) as [p|] eqn:P; [|reflexivity].
    specialize (H p eq_refl). apply Z.ltb_lt in H. now rewrite H.
  - intros G T U L.
    pose proof (updates_nonneg calls) as N.
    assert (W : well_shaped_store (0 + updates calls) b e)
      by (apply fresh_store_has_room; [exact G | lia]).
    destruct (observe_each_counts e calls b 0 (Z.le_refl 0) W T)
      as [b' [E [_ [C _]]]].
    exists b'. split; [exact E|]. intros p P.
    specialize (C 0 []).
    rewrite (starting_profile_stored 0 e [] b' p P) in C.
    unfold starting_profile in C. rewrite G in C.
    cbn [new_profile observation_count] in C. lia.
Qed.

(** X30. On an established baseline (ten observations or more), an event
    that carries nothing but a location never seen for the entity scores
    0.9, and with the default weights it is flagged as anomalous by every
    threshold up to 0.9. *)
Theorem novel_location_is_flagged (e : string) (d : AnomalyDetector)
  (p : BaselineProfile) (loc : value) :
  get_profile (baseline d) e = Some p ->
  (10 <= observation_count p)%Z ->
  truthy loc = true ->
  count_get (locations_seen p) loc = Returned 0%Z ->
  weights d = default_weights ->
  threshold d <= 0.9 ->
  exists r,
    analyze math_sqrt math_exp e [("location", loc)] d = (Returned r, d) /\
    component_scores r = [("location", 0.9)] /\
    anomaly_score r == 0.9 /\
    is_anomalous r = true.
Proof.
  intros G O T C W H.
  unfold analyze, bind, get, ret, lift. rewrite G.
  destruct (observation_count p <? 10)%Z eqn:O'; [apply Z.ltb_lt in O'; lia|].
  unfold components. cbv zeta.
  change (vget [("location", loc)] "hour") with VNone.
  change (vget [("location", loc)] "resource") with VNone.
  change (vget [("location", loc)] "location") with loc.
  change (vget [("location", loc)] "source_ip") with VNone.
  change (vget [("location", loc)] "session_duration") with VNone.
  cbn [is_none negb truthy component obind]. rewrite T.
  unfold _location_anomaly. rewrite C.
  cbn [obind Z.eqb dict_set fst snd]. rewrite W.
  cbn [dict_set fst snd].
  eexists. split; [reflexivity|].
  cbn [component_scores anomaly_score is_anomalous].
  split; [reflexivity|].
  assert (E : weighted_composite default_weights [("location", 0.9)] == 0.9)
    by (vm_compute; reflexivity).
  match goal with
  | |- context [weighted_composite _ ?s] =>
      change s with [("location", 0.9)]
  end.
  split.
  - rewrite (py_round_comp _ 0.9 4 E). vm_compute. reflexivity.
  - unfold Qgeb. apply Qle_bool_iff. rewrite E. exact H.
Qed.

End ThinBaselines.

Section AnomalyScenarios.
Import Builtins Baseline Anomaly Props Terms.

Lemma thin_baseline_is_neutral_witness :
  exists b',
    observe_each "alice" [(0, [("location", VStr "us-east")])] new_baseline
      = (Returned tt, b') /\
    analyze newton_sqrt taylor_exp "alice" [("hour", VStr "noon")]
      {| baseline := b'; threshold := 0.7; weights := default_weights |}
    = (Returned
         {| ar_entity_id := "alice"; anomaly_score := 0.5;
            is_anomalous := false;
            details := [("reason", VStr "insufficient_baseline")];
            component_scores := [] |},
       {| baseline := b'; threshold := 0.7; weights := default_weights |}).
Proof.
  destruct (proj2 (thin_baseline_is_neutral newton_sqrt taylor_exp "alice"
                     [(0, [("location", VStr "us-east")])] new_baseline
                     [] (new_detector new_baseline))
              eq_refl eq_refl eq_refl ltac:(cbn [length]; lia))
    as [b' [E H]].
  exists b'. split; [exact E|].
  exact (proj1 (thin_baseline_is_neutral newton_sqrt taylor_exp "alice"
                  [] new_baseline [("hour", VStr "noon")]
                  {| baseline := b'; threshold := 0.7;
                     weights := default_weights |}) H).
Defined.

Lemma novel_location_is_flagged_witness :
  exists r,
    analyze newton_sqrt taylor_exp "alice" [("location", VStr "mars")]
      seasoned_detector
    = (Returned r, seasoned_detector) /\
    component_scores r = [("location", 0.9)] /\
    anomaly_score r == 0.9 /\
    is_anomalous r = true.
Proof.
  apply (novel_location_is_flagged newton_sqrt taylor_exp "alice"
           seasoned_detector
           (starting_profile 0 "alice" [] (baseline seasoned_detector))
           (VStr "mars")).
  - vm_compute. reflexivity.
  - vm_compute. discriminate.
  - reflexivity.
  - vm_compute. reflexivity.
  - reflexivity.
  - apply Qle_bool_iff. vm_compute. reflexivity.
Defined.

End AnomalyScenarios.
